(** * scraper-api: a shallow embedding of the IMDb scraper and its HTTP
      controllers, with the properties of its specification.

    Sources embedded here:
    - [src/services/Scraper.ts]            (class [Scraper])
    - [src/controllers/ScraperController.ts] (class [ScraperController])
    - the gateway client ([ScraperAPIService], with [scrapeWithRetry]).

    Conventions of the model.
    - A JavaScript string is a sequence of code units; the model covers
      the code units 0..255, one [ascii] each.
    - A JavaScript number is a [jsnum]: a finite value that is an integer
      (all numbers computed by the modelled code are), an infinity, or NaN.
    - Puppeteer, axios and the clock are external: their answers come from
      an environment [Env], indexed by the number of external calls made so
      far; every external call and every sleep is appended to a trace.
    - Console output is not modelled. *)

From Stdlib Require Import List String Ascii ZArith Lia Bool Arith.
From Stdlib Require Import DecimalString Permutation Sorted.
Import ListNotations.

Local Open Scope string_scope.
Local Open Scope list_scope.

(* ================================================================== *)
(** ** String primitives of the JavaScript runtime *)
(* ================================================================== *)

Module JsString.

(** [s.startsWith(p)] *)
Definition startsWith (s p : string) : bool := String.prefix p s.

(** [s.endsWith(p)] *)
Definition endsWith (s p : string) : bool :=
  (String.length p <=? String.length s)%nat &&
  String.eqb (String.substring (String.length s - String.length p)
                               (String.length p) s) p.

(** WhiteSpace and LineTerminator code units below 256:
    TAB, LF, VT, FF, CR, SP and NBSP. *)
Definition is_ws (c : ascii) : bool :=
  let n := nat_of_ascii c in
  ((9 <=? n)%nat && (n <=? 13)%nat) || (n =? 32)%nat || (n =? 160)%nat.

Fixpoint trimStart (s : string) : string :=
  match s with
  | String c r => if is_ws c then trimStart r else s
  | EmptyString => EmptyString
  end.

(** [trimEnd] drops the trailing white space: a white-space code unit is
    kept only when something is left after it. *)
Fixpoint trimEnd (s : string) : string :=
  match s with
  | String c r =>
      match trimEnd r with
      | EmptyString => if is_ws c then EmptyString else String c EmptyString
      | r' => String c r'
      end
  | EmptyString => EmptyString
  end.

(** [s.trim()] *)
Definition trim (s : string) : string := trimEnd (trimStart s).

(** [s.split(sep)] for a separator of one code unit: always at least one
    piece, and [n] separators give [n + 1] pieces. *)
Fixpoint split (sep : ascii) (s : string) : list string :=
  match s with
  | EmptyString => [EmptyString]
  | String c r =>
      if Ascii.eqb c sep then EmptyString :: split sep r
      else match split sep r with
           | h :: t => String c h :: t
           | [] => [String c EmptyString]
           end
  end.

(** [s.replace(pat, "")] for a pattern of one code unit: only the first
    occurrence is removed. *)
Fixpoint removeFirst (pat : ascii) (s : string) : string :=
  match s with
  | EmptyString => EmptyString
  | String c r => if Ascii.eqb c pat then r else String c (removeFirst pat r)
  end.

(** Truthiness of a string: the empty string is falsy. *)
Definition truthy (s : string) : bool :=
  match s with EmptyString => false | _ => true end.

End JsString.

(* ================================================================== *)
(** ** Numbers: the part of IEEE-754 doubles that the code reaches *)
(* ================================================================== *)

Module JsNumber.

Inductive jsnum : Type :=
| NaN
| NegInf
| Fin (z : Z)      (* a finite double whose value is the integer [z];
                      the sign of a zero is not tracked *)
| PosInf.

(** The Number value of a mathematical integer: round to nearest, ties
    to even, on a 53-bit significand; overflow to an infinity. *)
Definition to_double (z : Z) : jsnum :=
  let n := Z.abs z in
  if (n <? 2 ^ 53)%Z then Fin z
  else
    let e := (Z.log2 n - 52)%Z in
    let q := Z.shiftr n e in
    let r := (n - Z.shiftl q e)%Z in
    let half := Z.shiftl 1 (e - 1) in
    let q' := if (half <? r)%Z || ((r =? half)%Z && Z.odd q)
              then (q + 1)%Z else q in
    let m := Z.shiftl q' e in
    if (2 ^ 1024 <=? m)%Z
    then (if (0 <? z)%Z then PosInf else NegInf)
    else Fin (Z.sgn z * m).

(** *** [Number::toString] in radix 10, on integers *)

(** The decimal digits of a natural number. *)
Definition decimal (v : Z) : string := NilZero.string_of_int (Z.to_int v).

(** The Number value of the decimal [v] is the double [x]. *)
Definition denotes (x v : Z) : bool :=
  match to_double v with
  | Fin y => (y =? x)%Z
  | _ => false
  end.

(** The decimal that the language prints for the positive double [x]:
    [s * 10^(n-k)] with [k] digits in [s], whose Number value is [x],
    with [k] as small as possible and, among those, the one closest to
    [x] (the even [s] on a tie). For each [k] from 1 on, [p] is the
    weight of the [k]-th digit of [x], and the two candidates are the
    multiples of [p] next to [x]; with all its digits, [x] denotes
    itself. *)
Fixpoint shortest (fuel : nat) (x p : Z) : Z :=
  match fuel with
  | O => x
  | S fuel' =>
      let lo := (x / p * p)%Z in
      let hi := (lo + p)%Z in
      match denotes x lo, denotes x hi with
      | true, true =>
          if (x - lo <? hi - x)%Z then lo
          else if (hi - x <? x - lo)%Z then hi
          else if Z.even (lo / p) then lo else hi
      | true, false => lo
      | false, true => hi
      | false, false => shortest fuel' x (p / 10)
      end
  end.

(** The digits of [s]: the decimal without its trailing zeros. *)
Fixpoint stripZeros (s : string) : string :=
  match s with
  | EmptyString => EmptyString
  | String c r =>
      match stripZeros r with
      | EmptyString =>
          if Ascii.eqb c "0" then EmptyString else String c EmptyString
      | r' => String c r'
      end
  end.

(** A positive integer: with at most 21 digits, the digits of [s]
    followed by zeros; with more, the exponent notation. *)
Definition positiveToString (x : Z) : string :=
  let d := String.length (decimal x) in
  let v := shortest d x (10 ^ Z.of_nat (d - 1)) in
  let digits := decimal v in
  let n := String.length digits in
  if (n <=? 21)%nat then digits
  else
    match stripZeros digits with
    | String c EmptyString =>
        (String c "e+" ++ decimal (Z.of_nat (n - 1)))%string
    | String c r =>
        (String c ("." ++ r) ++ "e+" ++ decimal (Z.of_nat (n - 1)))%string
    | EmptyString => digits
    end.

(** [String(a)], and [a] inside a template literal. *)
Definition toString (a : jsnum) : string :=
  match a with
  | NaN => "NaN"
  | PosInf => "Infinity"
  | NegInf => "-Infinity"
  | Fin z =>
      if (z =? 0)%Z then "0"
      else if (z <? 0)%Z then ("-" ++ positiveToString (- z))%string
      else positiveToString z
  end.

(** A non-negative integer inside a template literal. *)
Definition ofNat (n : nat) : string := toString (to_double (Z.of_nat n)).

(** [a - b] on numbers. *)
Definition sub (a b : jsnum) : jsnum :=
  match a, b with
  | NaN, _ | _, NaN => NaN
  | PosInf, PosInf | NegInf, NegInf => NaN
  | PosInf, _ | _, NegInf => PosInf
  | NegInf, _ | _, PosInf => NegInf
  | Fin x, Fin y => to_double (x - y)
  end.

(** [a > 0] *)
Definition gt0 (a : jsnum) : bool :=
  match a with
  | Fin z => (0 <? z)%Z
  | PosInf => true
  | NaN | NegInf => false
  end.

(** The strict order of the numbers; nothing is below or above NaN. *)
Definition num_lt (a b : jsnum) : bool :=
  match a, b with
  | NaN, _ | _, NaN => false
  | NegInf, NegInf => false
  | NegInf, _ => true
  | Fin x, Fin y => (x <? y)%Z
  | Fin _, PosInf => true
  | _, _ => false
  end.

(** *** [parseInt(string)] with no radix argument *)

(** Value of a digit in radix 10 or 16. *)
Definition digit (radix : Z) (c : ascii) : option Z :=
  let n := Z.of_nat (nat_of_ascii c) in
  if ((48 <=? n) && (n <=? 57))%Z then Some (n - 48)%Z
  else if (radix =? 16)%Z then
    if ((97 <=? n) && (n <=? 102))%Z then Some (n - 87)%Z
    else if ((65 <=? n) && (n <=? 70))%Z then Some (n - 55)%Z
    else None
  else None.

(** The longest prefix of digits, read in [radix]; [None] when there is
    no digit at all. [acc] is the value read so far. *)
Fixpoint digits (radix : Z) (acc : option Z) (s : string) : option Z :=
  match s with
  | EmptyString => acc
  | String c r =>
      match digit radix c with
      | Some d =>
          digits radix
            (Some (match acc with Some a => a * radix + d | None => d end)%Z)
            r
      | None => acc
      end
  end.

(** Steps of the language definition: skip leading white space, read a
    sign, strip a [0x]/[0X] prefix (radix 16, otherwise radix 10), read
    the longest prefix of digits; NaN when it is empty. The digits are
    read exactly (the language lets an implementation round a decimal
    input after its 20th significant digit). *)
Definition parseInt (input : string) : jsnum :=
  let s := JsString.trimStart input in
  let '(sign, s) :=
    match s with
    | String "-" r => ((-1)%Z, r)
    | String "+" r => (1%Z, r)
    | _ => (1%Z, s)
    end in
  let '(radix, s) :=
    match s with
    | String "0" (String "x" r) => (16%Z, r)
    | String "0" (String "X" r) => (16%Z, r)
    | _ => (10%Z, s)
    end in
  match digits radix None s with
  | None => NaN
  | Some v => to_double (sign * v)
  end.

End JsNumber.

Import JsString JsNumber.

(* ================================================================== *)
(** ** Effects: exceptions, the session state and the outside world *)
(* ================================================================== *)

Module Effects.

(** What a [throw] carries. *)
Inductive thrown : Type :=
| JsError (message : string)                    (* [new Error(message)] *)
| ApiError (statusCode : Z) (message : string)  (* [new ApiError(...)] *)
| ThrownUndefined.                              (* [throw undefined] *)

Inductive result (A : Type) : Type :=
| Ok (a : A)
| Throw (e : thrown).
Arguments Ok {A} a.
Arguments Throw {A} e.

(** How an external call ends: it returns, or it rejects with an error
    object carrying a message. *)
Inductive outcome (A : Type) : Type :=
| Returns (a : A)
| Fails (message : string).
Arguments Returns {A} a.
Arguments Fails {A} message.

Inductive Browser : Type := BrowserHandle (id : nat).
Inductive Page : Type := PageHandle (id : nat).

(** The argument of [puppeteer.launch]. *)
Record LaunchOptions : Type := {
  headless : bool;
  executablePath : option string;
  args : list string
}.

(** An element as seen by the in-page code of the poster extractor: the
    [src] property (the resolved URL; empty when there is none, and an
    element that is not an image has no such property, which is falsy
    just the same) and [getAttribute]. *)
Module Img.
Record t : Type := {
  src : string;
  getAttribute : string -> option string
}.
End Img.

(** The document of a page, for the queries of the poster extractor. *)
Record Document : Type := {
  querySelector : string -> option Img.t;
  querySelectorAll : string -> list Img.t
}.

(** One entry of the trending list, as built by the in-page function. *)
Module Movie.
Record t : Type := {
  imdbId : string;
  title : string;
  year : string;
  runtime : string;
  rating : string;
  imdbRating : string;
  imdbVotes : string;
  metascore : string;
  plot : string;
  director : string;
  stars : list string;
  posterUrl : string;
  posterAlt : string;
  movieUrl : string;
  watchlistId : string;
  ranking : string
}.
End Movie.

(** One collected video source; the fields that only some of the
    collecting functions fill in are optional. *)
Module VideoSource.
Record t : Type := {
  src : string;
  type : string;
  poster : string;
  className : string;
  id : string;
  preload : option string;
  controls : option bool;
  autoplay : option bool;
  muted : option bool;
  loop : option bool;
  width : option jsnum;
  height : option jsnum;
  isIMDbPlayer : option bool
}.
End VideoSource.

(** External calls and sleeps, in the order they happen. *)
Inductive Event : Type :=
| EvLaunch (options : LaunchOptions)
| EvNewPage (b : Browser)
| EvSetUserAgent (p : Page) (userAgent : string)
| EvSetViewport (p : Page) (width height : Z)
| EvGoto (p : Page) (url : string) (timeout : Z)
| EvWaitForSelector (p : Page) (selector : string) (timeout : Z)
| EvEvaluate (p : Page)
| EvBrowserClose (b : Browser)
| EvHttpGet (url : string) (timeout : Z)
| EvSleep (ms : Z).   (* the delay handed to [setTimeout] *)

(** The fields of the [Scraper] object, the number of external calls
    answered so far, and the trace. *)
Record World : Type := {
  browser : option Browser;
  page : option Page;
  tick : nat;
  trace : list Event
}.

(** The outside world. Every answer may depend on the index of the call
    among all external calls, and on the arguments. *)
Record Env : Type := {
  NODE_ENV : option string;
  encodeURIComponent : string -> string;
  toISOString : nat -> string;
  stack : thrown -> string;
  puppeteer_launch : nat -> LaunchOptions -> outcome Browser;
  browser_newPage : nat -> Browser -> outcome Page;
  browser_close : nat -> Browser -> outcome unit;
  page_setUserAgent : nat -> Page -> string -> outcome unit;
  page_setViewport : nat -> Page -> Z -> Z -> outcome unit;
  page_goto : nat -> Page -> string -> outcome unit;
  page_waitForSelector : nat -> Page -> string -> outcome unit;
  page_document : nat -> Page -> outcome Document;
  page_trending : nat -> Page -> outcome (list Movie.t);
  page_videos : nat -> Page -> outcome (list VideoSource.t);
  axios_get : nat -> string -> outcome string
}.

(** Computations: read the environment, thread the world, return or
    throw. *)
Definition M (A : Type) : Type := Env -> World -> result A * World.

Definition ret {A} (a : A) : M A := fun _ w => (Ok a, w).

Definition bind {A B} (m : M A) (k : A -> M B) : M B :=
  fun env w =>
    match m env w with
    | (Ok a, w') => k a env w'
    | (Throw e, w') => (Throw e, w')
    end.

Definition throw {A} (e : thrown) : M A := fun _ w => (Throw e, w).

(** [try { body } catch (error) { handler }] *)
Definition try_catch {A} (body : M A) (handler : thrown -> M A) : M A :=
  fun env w =>
    match body env w with
    | (Ok a, w') => (Ok a, w')
    | (Throw e, w') => handler e env w'
    end.

Definition ask : M Env := fun env w => (Ok env, w).

Definition get_browser : M (option Browser) := fun _ w => (Ok (browser w), w).
Definition get_page : M (option Page) := fun _ w => (Ok (page w), w).

Definition set_browser (b : option Browser) : M unit :=
  fun _ w => (Ok tt, {| browser := b; page := page w;
                        tick := tick w; trace := trace w |}).

Definition set_page (p : option Page) : M unit :=
  fun _ w => (Ok tt, {| browser := browser w; page := p;
                        tick := tick w; trace := trace w |}).

Definition record (ev : Event) (answered : bool) (w : World) : World :=
  {| browser := browser w; page := page w;
     tick := if answered then S (tick w) else tick w;
     trace := trace w ++ [ev] |}.

(** An awaited external call: it is recorded, the environment answers
    it, and a rejection becomes an exception. *)
Definition external {A} (ev : Event) (answer : Env -> nat -> outcome A)
  : M A :=
  fun env w =>
    match answer env (tick w) with
    | Returns a => (Ok a, record ev true w)
    | Fails message => (Throw (JsError message), record ev true w)
    end.

(** [await new Promise((resolve) => setTimeout(resolve, ms))] *)
Definition sleep (ms : Z) : M unit :=
  fun _ w => (Ok tt, record (EvSleep ms) false w).

(** [error.message]; reading a property of [undefined] is a TypeError. *)
Definition message_of (e : thrown) : M string :=
  match e with
  | JsError m | ApiError _ m => ret m
  | ThrownUndefined =>
      throw (JsError
        "Cannot read properties of undefined (reading 'message')")
  end.

(** [${error?.message}] in a template literal. *)
Definition optional_message (e : option thrown) : string :=
  match e with
  | Some (JsError m) | Some (ApiError _ m) => m
  | Some ThrownUndefined | None => "undefined"
  end.

Declare Scope js_scope.
Delimit Scope js_scope with js.
Notation "x <- m ;; k" := (bind m (fun x => k))
  (at level 61, m at next level, right associativity) : js_scope.
Notation "m ;; k" := (bind m (fun _ => k))
  (at level 61, right associativity) : js_scope.

End Effects.

Import Effects.
Local Open Scope js_scope.

(* ================================================================== *)
(** ** [class Scraper] (src/services/Scraper.ts) *)
(* ================================================================== *)

Module Scraper.

(** A double quote, for the selectors that contain one. *)
Definition dq : string := String (ascii_of_nat 34) EmptyString.

Definition userAgent : string :=
  "Mozilla/5.0 (Windows NT 10.0; Win64; x64) AppleWebKit/537.36 (KHTML, like Gecko) Chrome/91.0.4472.124 Safari/537.36".

(** The [browserOptions] field: the executable path is set in
    production only. *)
Definition browserOptions (env : Env) : LaunchOptions :=
  {| headless := true;
     executablePath :=
       match NODE_ENV env with
       | Some "production" =>
           Some "/opt/render/.cache/puppeteer/chrome/linux-*/chrome-linux*/chrome"
       | _ => None
       end;
     args := [ "--no-sandbox";
               "--disable-setuid-sandbox";
               "--disable-dev-shm-usage";
               "--disable-accelerated-2d-canvas";
               "--no-first-run";
               "--no-zygote";
               "--disable-gpu";
               "--single-process";
               "--disable-features=VizDisplayCompositor";
               "--disable-background-timer-throttling";
               "--disable-backgrounding-occluded-windows";
               "--disable-renderer-backgrounding";
               "--disable-web-security";
               "--disable-blink-features=AutomationControlled" ] |}.

(** [const { executablePath, ...fallbackOptions } = this.browserOptions] *)
Definition fallbackOptions (env : Env) : LaunchOptions :=
  {| headless := headless (browserOptions env);
     executablePath := None;
     args := args (browserOptions env) |}.

Definition scraperApiUrl (env : Env) (link : string) : string :=
  "https://api.scraperapi.com?api_key=80dd264b47f09639597483cd7eae2844&url="
  ++ encodeURIComponent env link ++ "&render=true".

(** *** The external calls of the class *)

Definition launch (options : LaunchOptions) : M Browser :=
  external (EvLaunch options) (fun env t => puppeteer_launch env t options).

Definition newPage (b : Browser) : M Page :=
  external (EvNewPage b) (fun env t => browser_newPage env t b).

Definition setUserAgent (p : Page) (ua : string) : M unit :=
  external (EvSetUserAgent p ua) (fun env t => page_setUserAgent env t p ua).

Definition setViewport (p : Page) (w h : Z) : M unit :=
  external (EvSetViewport p w h) (fun env t => page_setViewport env t p w h).

Definition goto (p : Page) (url : string) (timeout : Z) : M unit :=
  external (EvGoto p url timeout) (fun env t => page_goto env t p url).

Definition waitForSelector (p : Page) (selector : string) (timeout : Z)
  : M unit :=
  external (EvWaitForSelector p selector timeout)
           (fun env t => page_waitForSelector env t p selector).

Definition browserClose (b : Browser) : M unit :=
  external (EvBrowserClose b) (fun env t => browser_close env t b).

(** *** [close] *)

Definition close : M unit :=
  try_catch
    (b <- get_browser;;
     match b with
     | Some b =>
         browserClose b;;
         set_browser None;;
         set_page None
     | None => ret tt
     end)
    (fun _ => ret tt).

(** *** [start] *)

Definition start (link : string) : M unit :=
  try_catch
    (env <- ask;;
     b <- try_catch (launch (browserOptions env))
                    (fun _ => launch (fallbackOptions env));;
     set_browser (Some b);;
     p <- newPage b;;
     set_page (Some p);;
     setUserAgent p userAgent;;
     setViewport p 1920 1080;;
     goto p (scraperApiUrl env link) 60000;;
     sleep 3000)
    (fun error => close;; throw error).

(** *** [startWithRetry] *)

Definition strategies (env : Env) : list LaunchOptions :=
  [ browserOptions env;
    {| headless := true;
       executablePath := None;
       args := [ "--no-sandbox";
                 "--disable-setuid-sandbox";
                 "--disable-dev-shm-usage" ] |};
    {| headless := true;
       executablePath := Some "/usr/bin/google-chrome";
       args := [ "--no-sandbox"; "--disable-setuid-sandbox" ] |} ].

(** The loop over the strategies; the value is [browserLaunched]. A
    strategy that throws is skipped ([continue]); the first one that
    returns sets the [browser] field and ends the loop ([break]). *)
Fixpoint tryStrategies (l : list LaunchOptions) : M bool :=
  match l with
  | [] => ret false
  | strategy :: rest =>
      try_catch
        (b <- launch strategy;;
         set_browser (Some b);;
         ret true)
        (fun _ => tryStrategies rest)
  end.

(** The body of the [try] of one attempt. *)
Definition attemptStart (link : string) : M unit :=
  env <- ask;;
  browserLaunched <- tryStrategies (strategies env);;
  if negb browserLaunched
  then throw (JsError "All browser launch strategies failed")
  else
    b <- get_browser;;
    match b with
    | None => throw (JsError "Browser is null after launch")
    | Some b =>
        p <- newPage b;;
        set_page (Some p);;
        setUserAgent p userAgent;;
        setViewport p 1920 1080;;
        try_catch (goto p link 30000)
                  (fun _ => goto p (scraperApiUrl env link) 60000);;
        sleep 3000
    end.

(** The error thrown after the loop. *)
Definition startFailure (maxRetries : nat) (lastError : option thrown)
  : thrown :=
  JsError ("Failed to start browser after " ++ ofNat maxRetries
           ++ " attempts. Last error: " ++ optional_message lastError).

(** [for (let attempt = 1; attempt <= maxRetries; attempt++)], with
    [remaining = maxRetries - attempt + 1] iterations left: the loop test
    holds exactly when [remaining] is not [0]. An attempt that succeeds
    returns from the function. *)
Fixpoint attempts (remaining attempt maxRetries : nat) (link : string)
                  (lastError : option thrown) : M unit :=
  match remaining with
  | O => throw (startFailure maxRetries lastError)
  | S remaining' =>
      try_catch
        (attemptStart link)
        (fun error =>
           close;;
           if (attempt =? maxRetries)%nat
           then throw (startFailure maxRetries (Some error))
           else
             sleep (2000 * Z.of_nat attempt);;
             attempts remaining' (S attempt) maxRetries link (Some error))
  end.

Definition startWithRetry (link : string) (maxRetries : nat) : M unit :=
  attempts maxRetries 1 maxRetries link None.

(** *** [scrapeTrending] *)

(** The predicate of [movieList.filter(...)]; an entry of the list is an
    object, hence truthy. *)
Definition validMovie (movie : Movie.t) : bool :=
  truthy (Movie.title movie)
  && negb (String.eqb (trim (Movie.title movie)) "")
  && truthy (Movie.imdbId movie)
  && startsWith (Movie.imdbId movie) "tt".

(** The selector wait and the in-page [$$eval], whose value is what the
    page yielded. *)
Definition evalTrending (p : Page) : M (list Movie.t) :=
  external (EvEvaluate p) (fun env t => page_trending env t p).

(** The in-page function returns an array, so the [Array.isArray] test
    passes; the test on the length is kept. *)
Definition scrapeTrending (link : string) : M (list Movie.t) :=
  try_catch
    (startWithRetry link 3;;
     p <- get_page;;
     match p with
     | None => throw (JsError "Page not initialized")
     | Some p =>
         waitForSelector p ".ipc-metadata-list-summary-item" 30000;;
         movieList <- evalTrending p;;
         close;;
         if (List.length movieList =? 0)%nat then ret []
         else ret (filter validMovie movieList)
     end)
    (fun _ => close;; ret []).

(** *** [scrapePoster] *)

Module Srcset.
Record entry : Type := { url : string; width : jsnum }.
End Srcset.

(** The function mapped over [srcset.split(",")]. *)
Definition parseEntry (entry : string) : Srcset.entry :=
  let parts := split " " (trim entry) in
  let url := trim (nth 0 parts "") in
  let descriptor :=
    match nth_error parts 1 with
    | Some part => if truthy part then trim part else ""
    | None => ""
    end in
  let width :=
    if truthy descriptor then parseInt (removeFirst "w" descriptor)
    else Fin 0 in
  {| Srcset.url := url; Srcset.width := width |}.

Definition srcsetEntries (srcset : string) : list Srcset.entry :=
  map parseEntry (split "," srcset).

(** [(a, b) => b.width - a.width] *)
Definition compareFn (a b : Srcset.entry) : jsnum :=
  JsNumber.sub (Srcset.width b) (Srcset.width a).

(** What [Array.prototype.sort] makes of the comparator's value: its
    sign, a NaN counting as zero. *)
Definition sortCompare (a b : Srcset.entry) : comparison :=
  match compareFn a b with
  | NaN => Eq
  | NegInf => Lt
  | PosInf => Gt
  | Fin v => (v ?= 0)%Z
  end.

(** [Array.prototype.sort] is a stable sort. It is modelled by the stable
    insertion sort: an element moves right past the elements it must
    follow, and stays in front of those it compares equal to. When the
    comparator is consistent (here: when no width is NaN) every stable
    sort gives this same array. With a NaN width the order is the one of
    the engine's own algorithm, which this one need not match. *)
Fixpoint insert (x : Srcset.entry) (l : list Srcset.entry)
  : list Srcset.entry :=
  match l with
  | [] => [x]
  | y :: r =>
      match sortCompare x y with
      | Gt => y :: insert x r
      | _ => x :: l
      end
  end.

Fixpoint sort (l : list Srcset.entry) : list Srcset.entry :=
  match l with
  | [] => []
  | x :: r => insert x (sort r)
  end.

(** The [if (srcset) { ... }] block: [Some url] when it returns,
    [None] when control falls through to the [src] attribute. *)
Definition srcsetBranch (srcset : string) : option string :=
  if truthy srcset then
    match sort (srcsetEntries srcset) with
    | highestQuality :: _ =>
        if gt0 (Srcset.width highestQuality)
           && truthy (Srcset.url highestQuality)
           && startsWith (Srcset.url highestQuality) "http"
        then Some (Srcset.url highestQuality)
        else None
    | [] => None
    end
  else None.

Definition posterSelectors : list string :=
  [ ("[data-testid=" ++ dq ++ "hero-media__poster" ++ dq ++ "] .ipc-image")%string;
    ".ipc-poster__poster-image .ipc-image";
    ".sc-b234497d-7 .ipc-image";
    ".ipc-media--poster-27x40 .ipc-image";
    ".ipc-poster .ipc-image" ].

(** The loop over [posterSelectors]: [posterImg] is overwritten by every
    query, and the loop stops at the first image with a non-empty
    [src]. *)
Fixpoint selectPoster (doc : Document) (selectors : list string)
                      (posterImg : option Img.t) : option Img.t :=
  match selectors with
  | [] => posterImg
  | selector :: rest =>
      match querySelector doc selector with
      | Some img =>
          if truthy (Img.src img) then Some img
          else selectPoster doc rest (Some img)
      | None => selectPoster doc rest None
      end
  end.

(** The in-page function of the primary path. *)
Definition evaluatePoster (doc : Document) : option string :=
  let posterImg :=
    match selectPoster doc posterSelectors None with
    | Some img => Some img
    | None =>
        let allImages :=
          querySelectorAll doc
            ("img[alt*=" ++ dq ++ "poster" ++ dq ++ " i], img[alt*="
             ++ dq ++ "Poster" ++ dq ++ "]") in
        match allImages with
        | first :: _ => Some first
        | [] => None
        end
    end in
  match posterImg with
  | Some posterImg =>
      let fromSrcset :=
        match Img.getAttribute posterImg "srcset" with
        | Some srcset => srcsetBranch srcset
        | None => None
        end in
      match fromSrcset with
      | Some url => Some url
      | None =>
          let srcUrl :=
            match Img.getAttribute posterImg "src" with
            | Some s => s
            | None => ""
            end in
          if truthy srcUrl && startsWith srcUrl "http" then Some srcUrl
          else if truthy (Img.src posterImg)
                  && startsWith (Img.src posterImg) "http"
          then Some (Img.src posterImg)
          else None
      end
  | None => None
  end.

Definition fallbackSelectors : list string :=
  [ ("img[src*=" ++ dq ++ "amazon.com" ++ dq ++ "][src*=" ++ dq ++ "MV5B"
     ++ dq ++ "]")%string;
    ("img[alt*=" ++ dq ++ "poster" ++ dq ++ " i]")%string;
    (".ipc-image[src*=" ++ dq ++ "amazon.com" ++ dq ++ "]")%string;
    ("[data-testid*=" ++ dq ++ "poster" ++ dq ++ "] img")%string ].

(** The loop of the fallback in-page function. *)
Fixpoint firstFallback (doc : Document) (selectors : list string)
  : option string :=
  match selectors with
  | [] => None
  | selector :: rest =>
      match querySelector doc selector with
      | Some img =>
          if truthy (Img.src img)
             && startsWith (Img.src img) "http"
             && negb (endsWith (Img.src img) ".jpg")
          then Some (Img.src img)
          else firstFallback doc rest
      | None => firstFallback doc rest
      end
  end.

Definition evaluateFallbackPoster (doc : Document) : option string :=
  firstFallback doc fallbackSelectors.

(** [page.evaluate(fn)]: the call may reject; otherwise [fn] runs on the
    document of the page. *)
Definition evaluate {A} (p : Page) (fn : Document -> A) : M A :=
  doc <- external (EvEvaluate p) (fun env t => page_document env t p);;
  ret (fn doc).

(** The body of the outer [try]. *)
Definition posterPrimary (p : Page) : M (option string) :=
  waitForSelector p
    ("[data-testid=" ++ dq ++ "hero-media__poster" ++ dq ++ "]") 5000;;
  posterUrl <- evaluate p evaluatePoster;;
  match posterUrl with
  | Some url => if truthy url then ret (Some url) else ret None
  | None => ret None
  end.

(** The body of the outer [catch]. *)
Definition posterFallback (p : Page) : M (option string) :=
  try_catch (evaluate p evaluateFallbackPoster)
            (fun _ => ret None).

Definition scrapePoster : M (option string) :=
  p <- get_page;;
  match p with
  | None => throw (JsError "Page not loaded. Call start first.")
  | Some p => try_catch (posterPrimary p) (fun _ => posterFallback p)
  end.

(** *** [scrapeVideoSources] *)

(** [l.findIndex(p)]: the index of the first element that satisfies
    [p], [-1] when there is none. *)
Fixpoint findIndex {A} (p : A -> bool) (l : list A) : Z :=
  match l with
  | [] => (-1)%Z
  | x :: r =>
      if p x then 0%Z
      else let i := findIndex p r in
           if (i <? 0)%Z then (-1)%Z else (i + 1)%Z
  end.

(** [l.filter((element, index) => ...)], from [index] on. *)
Fixpoint filterIndexed {A} (f : A -> Z -> bool) (index : Z) (l : list A)
  : list A :=
  match l with
  | [] => []
  | x :: r =>
      if f x index then x :: filterIndexed f (index + 1) r
      else filterIndexed f (index + 1) r
  end.

Definition uniqueSources (allSources : list VideoSource.t)
  : list VideoSource.t :=
  filterIndexed
    (fun source index =>
       (index =? findIndex
                   (fun s => String.eqb (VideoSource.src s)
                                        (VideoSource.src source))
                   allSources)%Z)
    0 allSources.

(** A [page.evaluate] that collects video sources from the elements of
    the page; its value is the collected list. (The fallback function
    ends with a filter on [src], which is applied to that list.) *)
Definition evalVideos (p : Page) : M (list VideoSource.t) :=
  external (EvEvaluate p) (fun env t => page_videos env t p).

Definition scrapeVideoSources : M (list VideoSource.t) :=
  p <- get_page;;
  match p with
  | None => throw (JsError "Page not loaded. Call start first.")
  | Some p =>
      try_catch
        (waitForSelector p "video" 10000;;
         videoSources <- evalVideos p;;
         imdbVideoSources <- evalVideos p;;
         ret (uniqueSources (videoSources ++ imdbVideoSources)))
        (fun _ =>
           try_catch
             (fallbackSources <- evalVideos p;;
              ret (filter (fun source => truthy (VideoSource.src source))
                          fallbackSources))
             (fun _ => ret []))
  end.

End Scraper.

(* ================================================================== *)
(** ** [class ScraperAPIService]: the gateway client *)
(* ================================================================== *)

Module ScraperAPIService.

(** The options of a request; a session number is an integer. *)
Record ScraperAPIOptions : Type := {
  render : option bool;
  country_code : option string;
  premium : option bool;
  session_number : option Z;
  keep_headers : option bool
}.

Definition noOptions : ScraperAPIOptions :=
  {| render := None; country_code := None; premium := None;
     session_number := None; keep_headers := None |}.

Definition apiKey : string := "80dd264b47f09639597483cd7eae2844".
Definition baseUrl : string := "http://api.scraperapi.com".

Definition boolToString (b : bool) : string :=
  if b then "true" else "false".

(** [String(value)] for the number that the integer [z] denotes: plain
    decimal up to [2^53], the shortest digits that denote the number
    beyond, and the exponent notation from [10^21] on. *)
Definition intToString (z : Z) : string :=
  JsNumber.toString (to_double z).

(** [toStringParams(options)]: the fields that are present, as strings. *)
Definition toStringParams (options : ScraperAPIOptions)
  : list (string * string) :=
  (match render options with
   | Some b => [("render", boolToString b)] | None => [] end)
  ++ (match country_code options with
      | Some s => [("country_code", s)] | None => [] end)
  ++ (match premium options with
      | Some b => [("premium", boolToString b)] | None => [] end)
  ++ (match session_number options with
      | Some z => [("session_number", intToString z)] | None => [] end)
  ++ (match keep_headers options with
      | Some b => [("keep_headers", boolToString b)] | None => [] end).

(** Setting a property of an object literal: an existing key keeps its
    place and takes the new value, a new key goes last. *)
Fixpoint assign (obj : list (string * string)) (key value : string)
  : list (string * string) :=
  match obj with
  | [] => [(key, value)]
  | (k, v) :: rest =>
      if String.eqb k key then (k, value) :: rest
      else (k, v) :: assign rest key value
  end.

Definition paramsData (url : string) (options : ScraperAPIOptions)
  : list (string * string) :=
  fold_left (fun obj kv => assign obj (fst kv) (snd kv))
    (toStringParams options)
    [ ("api_key", apiKey);
      ("url", url);
      ("render", boolToString (match render options with
                               | Some b => b | None => true end));
      ("country_code", match country_code options with
                       | Some s => if truthy s then s else "us"
                       | None => "us"
                       end);
      ("premium", boolToString (match premium options with
                                | Some b => b | None => false end));
      ("keep_headers", boolToString (match keep_headers options with
                                     | Some b => b | None => true end)) ].

Section WithSerializer.

(** [new URLSearchParams(obj).toString()], a platform function. *)
Variable searchParamsToString : list (string * string) -> string.

Definition requestUrl (url : string) (options : ScraperAPIOptions)
  : string :=
  baseUrl ++ "/?" ++ searchParamsToString (paramsData url options).

Definition scrapeUrl (url : string) (options : ScraperAPIOptions)
  : M string :=
  try_catch
    (let target := requestUrl url options in
     external (EvHttpGet target 60000)
              (fun env t => axios_get env t target))
    (fun error =>
       message <- message_of error;;
       throw (JsError ("Failed to scrape URL: " ++ message))).

(** [Math.pow(2, attempt) * 1000], as the mathematical integer (the
    product is exact in double arithmetic while it is finite). *)
Definition backoff (attempt : nat) : Z := (2 ^ Z.of_nat attempt * 1000)%Z.

(** [for (let attempt = 1; attempt <= maxRetries; attempt++)] with
    [remaining = maxRetries - attempt + 1] iterations left; after the
    loop, [throw lastError]. *)
Fixpoint retries (remaining attempt maxRetries : nat) (url : string)
                 (options : ScraperAPIOptions) (lastError : thrown)
  : M string :=
  match remaining with
  | O => throw lastError
  | S remaining' =>
      try_catch
        (scrapeUrl url options)
        (fun error =>
           _ <- message_of error;;
           (if (attempt <? maxRetries)%nat
            then sleep (backoff attempt)
            else ret tt);;
           retries remaining' (S attempt) maxRetries url options error)
  end.

Definition scrapeWithRetry (url : string) (maxRetries : nat)
                           (options : ScraperAPIOptions) : M string :=
  retries maxRetries 1 maxRetries url options ThrownUndefined.

End WithSerializer.

End ScraperAPIService.

(* ================================================================== *)
(** ** [class ScraperController] (src/controllers/ScraperController.ts) *)
(* ================================================================== *)

Module ScraperController.

(** A value of a parsed request body. *)
Inductive jsvalue : Type :=
| VUndefined                  (* the property is absent *)
| VNull
| VBool (b : bool)
| VNumber (n : jsnum)
| VString (s : string)
| VOther (toString : string). (* an object, an array or a number that
                                 is not an integer: truthy, with its
                                 string conversion *)

Definition truthyValue (v : jsvalue) : bool :=
  match v with
  | VUndefined | VNull => false
  | VBool b => b
  | VNumber (Fin 0) | VNumber NaN => false
  | VNumber _ => true
  | VString s => truthy s
  | VOther _ => true
  end.

(** The value inside a template literal. *)
Definition valueToString (v : jsvalue) : string :=
  match v with
  | VUndefined => "undefined"
  | VNull => "null"
  | VBool b => ScraperAPIService.boolToString b
  | VNumber n => JsNumber.toString n
  | VString s => s
  | VOther s => s
  end.

(** [req.body]: [None] when no body was parsed, otherwise the lookup of
    its properties. *)
Record Request : Type := {
  body : option (string -> jsvalue)
}.

Section WithMovieScraper.

(** [Scraper.scrapeCompleteMovieData] runs its eight extractors
    concurrently; the controller is modelled over any such method. *)
Variable MovieData : Type.
Variable scrapeCompleteMovieData : string -> M MovieData.

(** The JSON documents the handlers send. A field whose value is
    [undefined] is left out of the document. *)
Inductive Payload : Type :=
| MissingField (error : string) (example : list (string * string))
| MovieScraped (success : bool) (data : MovieData) (scrapedAt : string)
| TrendingScraped (success : bool) (data : list Movie.t) (count : nat)
                  (type : string) (scrapedAt : string)
| Failure (error message : string) (details : option string).

(** What [res.status(code).json(payload)] sends; [res.json] alone
    sends status 200. *)
Record Response : Type := {
  status : Z;
  payload : Payload
}.

Definition now : M string :=
  fun env w => (Ok (toISOString env (tick w)), w).

Definition scrapeMovie (req : Request) : M Response :=
  try_catch
    (match body req with
     | None =>
         throw (JsError
           "Cannot destructure property 'imdbid' of 'req.body' as it is undefined.")
     | Some props =>
         let imdbid := props "imdbid" in
         if negb (truthyValue imdbid)
         then ret {| status := 400;
                     payload := MissingField "imdbid is required"
                                  [("url", "imdbid tt1234567")] |}
         else
           let link := ("https://www.imdb.com/title/"
                        ++ valueToString imdbid ++ "/")%string in
           movieData <- scrapeCompleteMovieData link;;
           scrapedAt <- now;;
           ret {| status := 200;
                  payload := MovieScraped true movieData scrapedAt |}
     end)
    (fun error =>
       message <- message_of error;;
       env <- ask;;
       ret {| status := 500;
              payload :=
                Failure "Failed to scrape movie data" message
                  (match NODE_ENV env with
                   | Some "development" => Some (stack env error)
                   | _ => None
                   end) |}).

(** The predicate of the controller's own filter. *)
Definition isValid (movie : Movie.t) : bool :=
  truthy (Movie.title movie)
  && negb (String.eqb (trim (Movie.title movie)) "").

Definition scrapeTrendingMovies : M Response :=
  try_catch
    (movieList <-
       Scraper.scrapeTrending "https://www.imdb.com/list/ls082250769/";;
     if (List.length movieList =? 0)%nat
     then throw (ApiError 500 "No trending movies found on IMDb")
     else
       let validMovies := filter isValid movieList in
       if (List.length validMovies =? 0)%nat
       then throw (ApiError 500 "No valid trending movies data found")
       else
         scrapedAt <- now;;
         ret {| status := 200;
                payload := TrendingScraped true validMovies
                             (List.length validMovies) "trending"
                             scrapedAt |})
    (fun error =>
       message <- message_of error;;
       ret {| status := 500;
              payload := Failure "Failed to scrape trending movies"
                           message None |}).

End WithMovieScraper.

Arguments MissingField {MovieData} error example.
Arguments MovieScraped {MovieData} success data scrapedAt.
Arguments TrendingScraped {MovieData} success data count type scrapedAt.
Arguments Failure {MovieData} error message details.
Arguments status {MovieData} r.
Arguments payload {MovieData} r.

End ScraperController.

(* ================================================================== *)
(** ** Sample worlds, used to run the model on concrete inputs *)
(* ================================================================== *)

Module Samples.

Definition emptyWorld : World :=
  {| browser := None; page := None; tick := 0; trace := [] |}.

Definition noDocument : Document :=
  {| querySelector := fun _ => None; querySelectorAll := fun _ => [] |}.

(** A world in which every external call succeeds, and the pages hold
    nothing. *)
Definition calmEnv : Env :=
  {| NODE_ENV := None;
     encodeURIComponent := fun s => s;
     toISOString := fun _ => "2024-01-01T00:00:00.000Z";
     stack := fun _ => "Error";
     puppeteer_launch := fun t _ => Returns (BrowserHandle t);
     browser_newPage := fun t _ => Returns (PageHandle t);
     browser_close := fun _ _ => Returns tt;
     page_setUserAgent := fun _ _ _ => Returns tt;
     page_setViewport := fun _ _ _ _ => Returns tt;
     page_goto := fun _ _ _ => Returns tt;
     page_waitForSelector := fun _ _ _ => Returns tt;
     page_document := fun _ _ => Returns noDocument;
     page_trending := fun _ _ => Returns [];
     page_videos := fun _ _ => Returns [];
     axios_get := fun _ _ => Returns "<html></html>" |}.

(** A world in which the browser never launches and the gateway never
    answers. *)
Definition deadEnv : Env :=
  {| NODE_ENV := None;
     encodeURIComponent := fun s => s;
     toISOString := fun _ => "2024-01-01T00:00:00.000Z";
     stack := fun _ => "Error";
     puppeteer_launch := fun _ _ => Fails "Failed to launch the browser process";
     browser_newPage := fun t _ => Returns (PageHandle t);
     browser_close := fun _ _ => Fails "Protocol error";
     page_setUserAgent := fun _ _ _ => Returns tt;
     page_setViewport := fun _ _ _ _ => Returns tt;
     page_goto := fun _ _ _ => Returns tt;
     page_waitForSelector := fun _ _ _ => Returns tt;
     page_document := fun _ _ => Fails "Execution context was destroyed";
     page_trending := fun _ _ => Returns [];
     page_videos := fun _ _ => Returns [];
     axios_get := fun t _ =>
       Fails ("Request failed with status code 50" ++ ofNat t) |}.

(** [calmEnv], except that the named calls fail or answer as given. *)
Definition withAnswers
    (waits : nat -> Page -> string -> outcome unit)
    (documents : nat -> Page -> outcome Document)
    (trending : nat -> Page -> outcome (list Movie.t))
    (launches : nat -> LaunchOptions -> outcome Browser)
    (closes : nat -> Browser -> outcome unit) : Env :=
  {| NODE_ENV := NODE_ENV calmEnv;
     encodeURIComponent := encodeURIComponent calmEnv;
     toISOString := toISOString calmEnv;
     stack := stack calmEnv;
     puppeteer_launch := launches;
     browser_newPage := browser_newPage calmEnv;
     browser_close := closes;
     page_setUserAgent := page_setUserAgent calmEnv;
     page_setViewport := page_setViewport calmEnv;
     page_goto := page_goto calmEnv;
     page_waitForSelector := waits;
     page_document := documents;
     page_trending := trending;
     page_videos := page_videos calmEnv;
     axios_get := axios_get calmEnv |}.

Definition openWorld : World :=
  {| browser := Some (BrowserHandle 0); page := Some (PageHandle 0);
     tick := 0; trace := [] |}.

Definition movie (imdbId title : string) : Movie.t :=
  {| Movie.imdbId := imdbId; Movie.title := title;
     Movie.year := ""; Movie.runtime := ""; Movie.rating := "";
     Movie.imdbRating := ""; Movie.imdbVotes := ""; Movie.metascore := "";
     Movie.plot := ""; Movie.director := ""; Movie.stars := [];
     Movie.posterUrl := ""; Movie.posterAlt := ""; Movie.movieUrl := "";
     Movie.watchlistId := ""; Movie.ranking := "" |}.

Definition video (src id : string) : VideoSource.t :=
  {| VideoSource.src := src; VideoSource.type := "video/mp4";
     VideoSource.poster := ""; VideoSource.className := "";
     VideoSource.id := id; VideoSource.preload := None;
     VideoSource.controls := None; VideoSource.autoplay := None;
     VideoSource.muted := None; VideoSource.loop := None;
     VideoSource.width := None; VideoSource.height := None;
     VideoSource.isIMDbPlayer := None |}.

(** An image with the given [src] property and attributes. *)
Definition image (src : string) (attributes : list (string * string))
  : Img.t :=
  {| Img.src := src;
     Img.getAttribute := fun name =>
       match find (fun kv => String.eqb (fst kv) name) attributes with
       | Some kv => Some (snd kv)
       | None => None
       end |}.

(** A document in which one image answers every query. *)
Definition documentWith (img : Img.t) : Document :=
  {| querySelector := fun _ => Some img;
     querySelectorAll := fun _ => [img] |}.

(** A page whose hero poster never shows up, and that holds one image. *)
Definition posterWorld : World := openWorld.

Definition posterEnv : Env :=
  withAnswers
    (fun _ _ _ => Fails "Waiting for selector failed: 5000ms exceeded")
    (fun _ _ =>
       Returns (documentWith
                  (image "https://m.media-amazon.com/images/M/MV5B.png" [])))
    (page_trending calmEnv)
    (puppeteer_launch calmEnv)
    (browser_close calmEnv).

(** The first two launches fail, the third one returns. *)
Definition thirdStrategyEnv : Env :=
  withAnswers
    (page_waitForSelector calmEnv)
    (page_document calmEnv)
    (page_trending calmEnv)
    (fun t _ => if (t <? 2)%nat
                then Fails "Failed to launch the browser process"
                else Returns (BrowserHandle t))
    (browser_close calmEnv).

(** The trending page yields entries that the validity filter drops: one
    whose identifier is not a title identifier, one without a title. *)
Definition invalidOnlyEnv : Env :=
  withAnswers
    (page_waitForSelector calmEnv)
    (page_document calmEnv)
    (fun _ _ => Returns [ movie "nm0000001" "Some Person";
                          movie "tt0111161" "   " ])
    (puppeteer_launch calmEnv)
    (browser_close calmEnv).

(** The trending page yields a mixed list. *)
Definition mixedTrending : list Movie.t :=
  [ movie "tt0111161" "The Shawshank Redemption";
    movie "" "Untitled";
    movie "tt0068646" " The Godfather ";
    movie "tt0000001" "" ].

Definition mixedEnv : Env :=
  withAnswers
    (page_waitForSelector calmEnv)
    (page_document calmEnv)
    (fun _ _ => Returns mixedTrending)
    (puppeteer_launch calmEnv)
    (browser_close calmEnv).

(** A serializer of query parameters that does no escaping. *)
Definition joinParams (params : list (string * string)) : string :=
  String.concat "&" (map (fun kv => fst kv ++ "=" ++ snd kv)%string params).

(** A request with an empty body object. *)
Definition emptyRequest : ScraperController.Request :=
  {| ScraperController.body := Some (fun _ => ScraperController.VUndefined) |}.

(** A scraper method for the movie endpoint: start the session and read
    the poster. *)
Definition posterOf (link : string) : M (option string) :=
  Scraper.startWithRetry link 3;;
  Scraper.scrapePoster.

(** The browser never launches; a teardown always succeeds. *)
Definition noLaunchEnv : Env :=
  withAnswers
    (page_waitForSelector calmEnv)
    (page_document calmEnv)
    (page_trending calmEnv)
    (fun _ _ => Fails "Failed to launch the browser process")
    (browser_close calmEnv).

(** A title page whose hero poster has a srcset. *)
Definition heroEnv : Env :=
  withAnswers
    (page_waitForSelector calmEnv)
    (fun _ _ =>
       Returns (documentWith
                  (image "https://m.media-amazon.com/images/M/MV5B_QL75_UX190.jpg"
                     [ ("srcset",
                        "https://m.media-amazon.com/images/M/MV5B_QL75_UX190.jpg 190w, https://m.media-amazon.com/images/M/MV5B_QL75_UX380.jpg 380w");
                       ("src",
                        "https://m.media-amazon.com/images/M/MV5B_QL75_UX190.jpg") ])))
    (page_trending calmEnv)
    (puppeteer_launch calmEnv)
    (browser_close calmEnv).

(** A document in which only the first poster selector matches, an
    element without [src]. *)
Definition srclessHeroDocument : Document :=
  {| querySelector := fun selector =>
       if String.eqb selector (hd "" Scraper.posterSelectors)
       then Some (image "" [])
       else None;
     querySelectorAll := fun _ => [] |}.





(** The browser launches at once, but it opens no page. *)
Definition noPageEnv : Env :=
  {| NODE_ENV := NODE_ENV calmEnv;
     encodeURIComponent := encodeURIComponent calmEnv;
     toISOString := toISOString calmEnv;
     stack := stack calmEnv;
     puppeteer_launch := puppeteer_launch calmEnv;
     browser_newPage := fun _ _ =>
       Fails "Protocol error (Target.createTarget): Target closed";
     browser_close := browser_close calmEnv;
     page_setUserAgent := page_setUserAgent calmEnv;
     page_setViewport := page_setViewport calmEnv;
     page_goto := page_goto calmEnv;
     page_waitForSelector := page_waitForSelector calmEnv;
     page_document := page_document calmEnv;
     page_trending := page_trending calmEnv;
     page_videos := page_videos calmEnv;
     axios_get := axios_get calmEnv |}.

End Samples.

Import Samples.

(* ================================================================== *)
(** ** More of the runtime: substrings and the two patterns *)
(* ================================================================== *)

Module JsText.

(** [s] without the prefix [p], when it has it. *)
Fixpoint afterPrefix (p s : string) : option string :=
  match p with
  | EmptyString => Some s
  | String a p' =>
      match s with
      | String b s' => if Ascii.eqb a b then afterPrefix p' s' else None
      | EmptyString => None
      end
  end.

(** [s.includes(sub)] *)
Fixpoint includes (s sub : string) : bool :=
  match afterPrefix sub s with
  | Some _ => true
  | None =>
      match s with
      | String _ r => includes r sub
      | EmptyString => false
      end
  end.

(** [s.replace(pat, "")]: the first occurrence of [pat] is removed. *)
Fixpoint removeFirstOccurrence (pat s : string) : string :=
  match afterPrefix pat s with
  | Some rest => rest
  | None =>
      match s with
      | String c r => String c (removeFirstOccurrence pat r)
      | EmptyString => EmptyString
      end
  end.

(** [s.replace(/[()]/g, "")]: every parenthesis is removed. *)
Fixpoint removeParentheses (s : string) : string :=
  match s with
  | EmptyString => EmptyString
  | String c r =>
      if Ascii.eqb c "(" || Ascii.eqb c ")" then removeParentheses r
      else String c (removeParentheses r)
  end.

(** [\d]: an ASCII digit. *)
Definition isDigit (c : ascii) : bool :=
  let n := nat_of_ascii c in (48 <=? n)%nat && (n <=? 57)%nat.

(** [\d*] at the start of [s]: the longest prefix of digits. *)
Fixpoint takeDigits (s : string) : string :=
  match s with
  | String c r => if isDigit c then String c (takeDigits r) else EmptyString
  | EmptyString => EmptyString
  end.

(** [s.match(/^\d+/)?.[0]] *)
Definition matchLeadingDigits (s : string) : option string :=
  match takeDigits s with
  | EmptyString => None
  | ds => Some ds
  end.

(** [s.match(/\/title\/(tt\d+)/)]: the group of the leftmost match. At
    each position the pattern needs "/title/tt" and then at least one
    digit; the group is "tt" with all the digits that follow. *)
Fixpoint matchTitleId (s : string) : option string :=
  let here :=
    match afterPrefix "/title/tt" s with
    | Some rest =>
        match takeDigits rest with
        | EmptyString => None
        | ds => Some ("tt" ++ ds)%string
        end
    | None => None
    end in
  match here with
  | Some id => Some id
  | None =>
      match s with
      | String _ r => matchTitleId r
      | EmptyString => None
      end
  end.

End JsText.

(* ================================================================== *)
(** ** The document of a page, as the in-page functions see it *)
(* ================================================================== *)

Module Dom.

(** An element: its text, its attributes, the queries below it, its
    parent and the background colour of its style. *)
#[warnings="-register-all"] Inductive Element : Type := mkElement {
  textContent : string;
  getAttribute : string -> option string;
  querySelector : string -> option Element;
  querySelectorAll : string -> list Element;
  parentElement : option Element;
  backgroundColor : string
}.

(** What [page.evaluate] runs on: the location and the document, whose
    queries are those of its root. *)
Record PageDom : Type := {
  href : string;
  document : Element
}.

(** The argument of an in-page function: [page.$eval] passes the first
    element that matches the selector, [page.$$eval] the array of all of
    them. *)
Inductive Argument : Type :=
| OneElement (element : Element)
| ElementArray (elements : list Element).

(** [elements.map(f)]: an element has no [map] method. *)
Definition arrayMap {B} (elements : Argument) (f : Element -> B)
  : result (list B) :=
  match elements with
  | ElementArray l => Ok (map f l)
  | OneElement _ => Throw (JsError "elements.map is not a function")
  end.

(** [element?.textContent?.trim() || ""] *)
Definition trimmedText (element : option Element) : string :=
  match element with
  | Some el => trim (textContent el)
  | None => ""
  end.

(** [element?.getAttribute(name) || ""] *)
Definition attribute (element : option Element) (name : string) : string :=
  match element with
  | Some el => match getAttribute el name with
               | Some value => value
               | None => ""
               end
  | None => ""
  end.

End Dom.

(* ================================================================== *)
(** ** The in-page functions of the extractors (Scraper.ts) *)
(* ================================================================== *)

Module InPage.

Import Dom.

Definition dq : string := Scraper.dq.

(** *** The trending list *)

(** The function mapped over the list items. Nothing in it can throw
    (every access is guarded), so its [catch], which gives [null], and the
    filter that drops the [null]s have nothing to do. *)
Definition trendingItem (element : Element) : Movie.t :=
  let movieUrlElement := querySelector element ".ipc-title-link-wrapper" in
  let movieUrl := attribute movieUrlElement "href" in
  let imdbId := match JsText.matchTitleId movieUrl with
                | Some id => id
                | None => ""
                end in
  let titleElement := querySelector element ".ipc-title__text" in
  let title := trimmedText titleElement in
  let metadataItems := querySelectorAll element ".dli-title-metadata-item" in
  {| Movie.imdbId := imdbId;
     Movie.title := title;
     Movie.year := trimmedText (nth_error metadataItems 0);
     Movie.runtime := trimmedText (nth_error metadataItems 1);
     Movie.rating := trimmedText (nth_error metadataItems 2);
     Movie.imdbRating :=
       trimmedText (querySelector element ".ipc-rating-star--rating");
     Movie.imdbVotes :=
       match querySelector element ".ipc-rating-star--voteCount" with
       | Some el => JsText.removeParentheses (trim (textContent el))
       | None => ""
       end;
     Movie.metascore :=
       trimmedText (querySelector element ".metacritic-score-box");
     Movie.plot :=
       trimmedText
         (querySelector element
            ".title-description-plot-container .ipc-html-content-inner-div");
     Movie.director :=
       trimmedText (querySelector element ".title-description-credit a");
     Movie.stars :=
       filter truthy
         (map (fun star => trim (textContent star))
              (skipn 1 (querySelectorAll element
                          ".title-description-credit a")));
     Movie.posterUrl := attribute (querySelector element ".ipc-image") "src";
     Movie.posterAlt := attribute (querySelector element ".ipc-image") "alt";
     Movie.movieUrl := movieUrl;
     Movie.watchlistId :=
       match querySelector element
               ("[data-testid^=" ++ dq ++ "inline-watched-button-" ++ dq
                ++ "]") with
       | Some el =>
           match getAttribute el "data-testid" with
           | Some value =>
               JsText.removeFirstOccurrence "inline-watched-button-" value
           | None => ""
           end
       | None => ""
       end;
     Movie.ranking :=
       match titleElement with
       | Some el =>
           match JsText.matchLeadingDigits (textContent el) with
           | Some digits => digits
           | None => ""
           end
       | None => ""
       end |}.

(** The function given to [$$eval]. *)
Definition trendingFn (elements : Argument) : result (list Movie.t) :=
  arrayMap elements trendingItem.

(** What [$$eval] yields on a document: the function on the array of
    the elements that match the selector. *)
Definition trendingOf (dom : PageDom) : result (list Movie.t) :=
  trendingFn
    (ElementArray
       (querySelectorAll (document dom) ".ipc-metadata-list-summary-item")).

(** *** Basic info *)

Module BasicInfo.
Record t : Type := { imdbId : string; title : string }.
End BasicInfo.

(** [a || b] on elements that may be null. *)
Definition orElse (a b : option Element) : option Element :=
  match a with Some _ => a | None => b end.

Definition basicInfoFn (dom : PageDom) : BasicInfo.t :=
  let currentUrl := href dom in
  let imdbId := match JsText.matchTitleId currentUrl with
                | Some id => id
                | None => ""
                end in
  let titleElement :=
    orElse (querySelector (document dom)
              ("[data-testid=" ++ dq ++ "hero__pageTitle" ++ dq ++ "]"))
      (orElse (querySelector (document dom)
                 ("h1[data-testid=" ++ dq ++ "hero-title-block__title" ++ dq
                  ++ "]"))
              (querySelector (document dom) "h1")) in
  {| BasicInfo.imdbId := imdbId;
     BasicInfo.title := trimmedText titleElement |}.

(** *** Videos, images, cast *)

Module VideoCard.
Record t : Type := {
  title : string;
  videoUrl : string;
  imageUrl : string;
  imageAlt : string
}.
End VideoCard.

Definition videoCard (el : Element) : VideoCard.t :=
  let imgEl := querySelector el "img.ipc-image" in
  let overlayLink :=
    querySelector el ("a[data-testid^=" ++ dq ++ "videos-slate-overlay-"
                      ++ dq ++ "]") in
  {| VideoCard.title := attribute overlayLink "aria-label";
     VideoCard.videoUrl := attribute overlayLink "href";
     VideoCard.imageUrl := attribute imgEl "src";
     VideoCard.imageAlt := attribute imgEl "alt" |}.

Definition videosFn (elements : Argument) : result (list VideoCard.t) :=
  arrayMap elements videoCard.

Module Photo.
Record t : Type := { src : string; alt : string }.
End Photo.

Definition photo (img : Element) : Photo.t :=
  {| Photo.src := attribute (Some img) "src";
     Photo.alt := attribute (Some img) "alt" |}.

Definition imagesFn (imgs : Argument) : result (list Photo.t) :=
  arrayMap imgs photo.

Module CastMember.
Record t : Type := {
  actorName : string;
  actorUrl : string;
  characterName : string;
  characterUrl : string;
  imageUrl : string;
  imageAlt : string;
  isVoiceRole : bool
}.
End CastMember.

Definition castMember (el : Element) : CastMember.t :=
  let actorLink :=
    querySelector el ("a[data-testid=" ++ dq ++ "title-cast-item__actor"
                      ++ dq ++ "]") in
  let characterLink :=
    querySelector el ("a[data-testid=" ++ dq ++ "cast-item-characters-link"
                      ++ dq ++ "]") in
  let imgEl := querySelector el "img.ipc-image" in
  let voiceIndicator := querySelector el "span.sc-10bde568-9.dKIpPl" in
  {| CastMember.actorName := trimmedText actorLink;
     CastMember.actorUrl := attribute actorLink "href";
     CastMember.characterName :=
       trimmedText
         (match characterLink with
          | Some link => querySelector link "span.sc-10bde568-4.jwxYun"
          | None => None
          end);
     CastMember.characterUrl := attribute characterLink "href";
     CastMember.imageUrl := attribute imgEl "src";
     CastMember.imageAlt := attribute imgEl "alt";
     CastMember.isVoiceRole :=
       match voiceIndicator with
       | Some el => JsText.includes (textContent el) "voice"
       | None => false
       end |}.

Definition castFn (elements : Argument) : result (list CastMember.t) :=
  arrayMap elements castMember.

(** *** Ratings *)

Module Ratings.
Record ImdbScore : Type := {
  rating : string;
  totalVotes : string;
  fullRating : string
}.
Record Metascore : Type := {
  score : string;
  backgroundColor : string
}.
Record t : Type := {
  imdbScore : ImdbScore;
  metascore : Metascore
}.
End Ratings.

Definition ratingsFn (dom : PageDom) : Ratings.t :=
  let imdbScoreElement :=
    querySelector (document dom)
      ("[data-testid=" ++ dq ++ "hero-rating-bar__aggregate-rating__score"
       ++ dq ++ "] .sc-4dc495c1-1") in
  let imdbVotesElement :=
    querySelector (document dom)
      ("[data-testid=" ++ dq ++ "hero-rating-bar__aggregate-rating" ++ dq
       ++ "] .sc-4dc495c1-3") in
  let metascoreElement :=
    querySelector (document dom) ".metacritic-score-box" in
  {| Ratings.imdbScore :=
       {| Ratings.rating := trimmedText imdbScoreElement;
          Ratings.totalVotes := trimmedText imdbVotesElement;
          Ratings.fullRating :=
            trimmedText (match imdbScoreElement with
                         | Some el => parentElement el
                         | None => None
                         end) |};
     Ratings.metascore :=
       {| Ratings.score := trimmedText metascoreElement;
          Ratings.backgroundColor :=
            match metascoreElement with
            | Some el => Dom.backgroundColor el
            | None => ""
            end |} |}.

(** *** Storyline *)

Module Storyline.
Record t : Type := {
  tagline : string;
  story : string;
  genres : list string;
  keywords : list string;
  certificate : string;
  hasParentGuide : bool
}.
End Storyline.

Definition storylineFn (dom : PageDom) : Storyline.t :=
  let doc := document dom in
  let item (testid : string) : string :=
    ("[data-testid=" ++ dq ++ testid ++ dq
     ++ "] .ipc-metadata-list-item__list-content-item")%string in
  let plotSummaryElement :=
    querySelector doc
      ("[data-testid=" ++ dq ++ "storyline-plot-summary" ++ dq
       ++ "] .ipc-html-content-inner-div") in
  let taglineElement := querySelector doc (item "storyline-taglines") in
  let genreElements := querySelectorAll doc (item "storyline-genres") in
  let keywordElements :=
    querySelectorAll doc
      ("[data-testid=" ++ dq ++ "storyline-plot-keywords" ++ dq
       ++ "] a .ipc-chip__text") in
  let certificateElement :=
    querySelector doc (item "storyline-certificate") in
  let parentGuideElement :=
    querySelector doc
      ("[data-testid=" ++ dq ++ "storyline-parents-guide" ++ dq ++ "]") in
  {| Storyline.tagline := trimmedText taglineElement;
     Storyline.story := trimmedText plotSummaryElement;
     Storyline.genres :=
       map (fun el => trim (textContent el)) genreElements;
     Storyline.keywords :=
       filter (fun keyword =>
                 truthy keyword && negb (JsText.includes keyword "more"))
              (map (fun el => trim (textContent el)) keywordElements);
     Storyline.certificate := trimmedText certificateElement;
     Storyline.hasParentGuide :=
       match parentGuideElement with Some _ => true | None => false end |}.

End InPage.

(* ================================================================== *)
(** ** The other extractors of [class Scraper] *)
(* ================================================================== *)

Module Extractors.

Import Dom InPage.

Section WithDocuments.

(** The document of the page at each in-page evaluation, or the failure
    of the evaluation. *)
Variable page_dom : nat -> Page -> outcome PageDom.

(** [page.evaluate(fn)] for a function that reads the document. *)
Definition evaluateDom {A} (p : Page) (fn : PageDom -> A) : M A :=
  dom <- external (EvEvaluate p) (fun _ t => page_dom t p);;
  ret (fn dom).

(** [page.$eval(selector, fn)]: it rejects when no element matches; it
    calls [fn] on the first element that matches, and rejects when [fn]
    throws. *)
Definition evalFirst {A} (p : Page) (selector : string)
                     (fn : Argument -> result A) : M A :=
  dom <- external (EvEvaluate p) (fun _ t => page_dom t p);;
  match querySelector (document dom) selector with
  | None =>
      throw (JsError ("failed to find element matching selector "
                      ++ selector))
  | Some element =>
      match fn (OneElement element) with
      | Ok value => ret value
      | Throw e => throw e
      end
  end.

Definition notLoaded {A} (message : string) (k : Page -> M A) : M A :=
  p <- get_page;;
  match p with
  | None => throw (JsError message)
  | Some p => k p
  end.

Definition scrapeBasicInfo : M BasicInfo.t :=
  notLoaded "Page not loaded. Call start first."
    (fun p =>
       try_catch (evaluateDom p basicInfoFn)
                 (fun _ => ret {| BasicInfo.imdbId := "";
                                  BasicInfo.title := "" |})).

Definition scrapeVideos : M (list VideoCard.t) :=
  notLoaded "Page not loaded. Call scrapeMoviePage first."
    (fun p =>
       try_catch
         (Scraper.waitForSelector p
            ("[data-testid=" ++ dq ++ "grid_first_row_video" ++ dq ++ "]")
            5000;;
          evalFirst p
            ("[data-testid=" ++ dq ++ "grid_first_row_video" ++ dq
             ++ "] .video-item")
            videosFn)
         (fun _ => ret [])).

Definition scrapeImages : M (list Photo.t) :=
  notLoaded "Page not loaded. Call scrapeMoviePage first."
    (fun p =>
       try_catch
         (Scraper.waitForSelector p
            ("section[data-testid=" ++ dq ++ "Photos" ++ dq ++ "]") 5000;;
          evalFirst p
            ("section[data-testid=" ++ dq ++ "Photos" ++ dq
             ++ "] a.sc-83794ccd-0.gkzoxh img.ipc-image")
            imagesFn)
         (fun _ => ret [])).

Definition scrapeCast : M (list CastMember.t) :=
  notLoaded "Page not loaded. Call scrapeMoviePage first."
    (fun p =>
       try_catch
         (Scraper.waitForSelector p
            ("section[data-testid=" ++ dq ++ "title-cast" ++ dq ++ "]") 5000;;
          evalFirst p
            ("div[data-testid=" ++ dq ++ "title-cast-item" ++ dq ++ "]")
            castFn)
         (fun _ => ret [])).

Definition scrapeRatings : M (option Ratings.t) :=
  notLoaded "Page not loaded. Call scrapeMoviePage first."
    (fun p =>
       try_catch
         (Scraper.waitForSelector p
            ("[data-testid=" ++ dq ++ "hero-rating-bar__aggregate-rating"
             ++ dq ++ "]") 5000;;
          ratings <- evaluateDom p ratingsFn;;
          ret (Some ratings))
         (fun _ => ret None)).

Definition scrapeStoryline : M (option Storyline.t) :=
  notLoaded "Page not loaded. Call scrapeMoviePage first."
    (fun p =>
       try_catch
         (Scraper.waitForSelector p
            ("[data-testid=" ++ dq ++ "Storyline" ++ dq ++ "]") 5000;;
          Scraper.waitForSelector p
            ("[data-testid=" ++ dq ++ "storyline-plot-summary" ++ dq
             ++ "] .ipc-html-content-inner-div") 8000;;
          storyline <- evaluateDom p storylineFn;;
          ret (Some storyline))
         (fun _ => ret None)).

End WithDocuments.

End Extractors.

(* ================================================================== *)
(** ** The in-page collection of the video sources *)
(* ================================================================== *)

Module VideoDom.

(** A [source] child of a video. *)
Record SourceElement : Type := {
  source_src : string;
  source_type : string
}.

(** A video element (or, for the player-library queries, any element
    they match): its properties, a missing one reading as falsy. *)
Record VideoElement : Type := {
  src : string;
  typeAttribute : option string;
  poster : string;
  className : string;
  id : string;
  preload : string;
  controls : bool;
  autoplay : bool;
  muted : bool;
  loop : bool;
  videoWidth : jsnum;
  width : jsnum;
  videoHeight : jsnum;
  height : jsnum;
  sources : list SourceElement
}.

(** [a || b] on strings and on numbers. *)
Definition orString (a b : string) : string := if truthy a then a else b.

Definition orNumber (a b : jsnum) : jsnum :=
  match a with
  | NaN | Fin 0 => b
  | _ => a
  end.

(** [list.forEach((x, index) => ...)] with pushes: the pushed entries, in
    order. *)
Fixpoint forEachIndexed {A B} (f : A -> nat -> list B) (index : nat)
                        (l : list A) : list B :=
  match l with
  | [] => []
  | x :: r => f x index ++ forEachIndexed f (S index) r
  end.

Definition entry (src type id : string) (video : VideoElement)
  : VideoSource.t :=
  {| VideoSource.src := src;
     VideoSource.type := type;
     VideoSource.poster := orString (poster video) "";
     VideoSource.className := orString (className video) "";
     VideoSource.id := id;
     VideoSource.preload := Some (orString (preload video) "");
     VideoSource.controls := Some (controls video);
     VideoSource.autoplay := Some (autoplay video);
     VideoSource.muted := Some (muted video);
     VideoSource.loop := Some (loop video);
     VideoSource.width := Some (orNumber (videoWidth video) (width video));
     VideoSource.height := Some (orNumber (videoHeight video) (height video));
     VideoSource.isIMDbPlayer := None |}.

Definition typeOrDefault (video : VideoElement) : string :=
  match typeAttribute video with
  | Some t => orString t "video/mp4"
  | None => "video/mp4"
  end.

(** The first in-page function: every video with a [src], then each of
    its [source] children with a [src]. *)
Definition collectVideo (video : VideoElement) (index : nat)
  : list VideoSource.t :=
  (if truthy (src video)
   then [ entry (src video) (typeOrDefault video)
                (orString (id video) ("video-" ++ ofNat index)) video ]
   else [])
  ++ forEachIndexed
       (fun source sourceIndex =>
          if truthy (source_src source)
          then [ entry (source_src source)
                       (orString (source_type source) "video/mp4")
                       (orString (id video)
                          ("video-" ++ ofNat index ++ "-source-"
                           ++ ofNat sourceIndex))
                       video ]
          else [])
       0 (sources video).

Definition collectNative (videos : list VideoElement) : list VideoSource.t :=
  forEachIndexed collectVideo 0 videos.

Definition playerEntry (prefix : string) (video : VideoElement) (index : nat)
  : list VideoSource.t :=
  if truthy (src video)
  then [ {| VideoSource.src := src video;
            VideoSource.type := typeOrDefault video;
            VideoSource.poster := orString (poster video) "";
            VideoSource.className := orString (className video) "";
            VideoSource.id :=
              orString (id video) (prefix ++ ofNat index);
            VideoSource.preload := None;
            VideoSource.controls := None;
            VideoSource.autoplay := None;
            VideoSource.muted := None;
            VideoSource.loop := None;
            VideoSource.width := None;
            VideoSource.height := None;
            VideoSource.isIMDbPlayer := Some true |} ]
  else [].

(** The second in-page function, on the matches of its two queries. *)
Definition collectImdb (jwVideos imdbVideos : list VideoElement)
  : list VideoSource.t :=
  forEachIndexed (playerEntry "imdb-video-") 0 jwVideos
  ++ forEachIndexed (playerEntry "imdb-specific-video-") 0 imdbVideos.

(** The value of [scrapeVideoSources] on its primary path, from the
    matches of the three queries. *)
Definition videoSourcesOf (videos jwVideos imdbVideos : list VideoElement)
  : list VideoSource.t :=
  Scraper.uniqueSources (collectNative videos
                         ++ collectImdb jwVideos imdbVideos).

End VideoDom.

(* ================================================================== *)
(** ** Vocabulary of the properties *)
(* ================================================================== *)

Module Spec.

(** The width of the entry is a number. *)
Definition numeric (e : Scraper.Srcset.entry) : Prop :=
  Scraper.Srcset.width e <> NaN.

(** [b] is not wider than [a]. *)
Definition notWider (a b : Scraper.Srcset.entry) : Prop :=
  num_lt (Scraper.Srcset.width a) (Scraper.Srcset.width b) = false.

(** The entry has width [v]. *)
Definition hasWidth (v : jsnum) (e : Scraper.Srcset.entry) : bool :=
  match Scraper.Srcset.width e, v with
  | NaN, NaN | NegInf, NegInf | PosInf, PosInf => true
  | Fin a, Fin b => (a =? b)%Z
  | _, _ => false
  end.

(** [l] splits around its first entry of greatest width. *)
Definition firstWidest (l before : list Scraper.Srcset.entry)
                       (best : Scraper.Srcset.entry)
                       (after : list Scraper.Srcset.entry) : Prop :=
  l = before ++ best :: after
  /\ Forall (fun e => num_lt (Scraper.Srcset.width e)
                             (Scraper.Srcset.width best) = true) before
  /\ Forall (fun e => num_lt (Scraper.Srcset.width best)
                             (Scraper.Srcset.width e) = false) after.

(** The property of the srcset block as the specification words it: when
    some entry has an absolute URL and a positive width, the block returns
    the URL of the first entry of greatest width. *)
Definition widestAlwaysReturned (srcset : string) : Prop :=
  (exists e, In e (Scraper.srcsetEntries srcset)
             /\ startsWith (Scraper.Srcset.url e) "http" = true
             /\ gt0 (Scraper.Srcset.width e) = true) ->
  exists before best after,
    firstWidest (Scraper.srcsetEntries srcset) before best after
    /\ Scraper.srcsetBranch srcset = Some (Scraper.Srcset.url best).

(** [l1] is [l2] with some elements left out, the others in place. *)
Inductive Subsequence {A : Type} : list A -> list A -> Prop :=
| sub_nil : Subsequence [] []
| sub_skip (x : A) (l1 l2 : list A) :
    Subsequence l1 l2 -> Subsequence l1 (x :: l2)
| sub_keep (x : A) (l1 l2 : list A) :
    Subsequence l1 l2 -> Subsequence (x :: l1) (x :: l2).

(** Two video sources with the same URL. *)
Definition sameSrc (a b : VideoSource.t) : bool :=
  String.eqb (VideoSource.src b) (VideoSource.src a).

(** The entries of [l] whose URL occurs neither in [pre] nor earlier in
    [l]. *)
Fixpoint firstOccurrences (pre l : list VideoSource.t)
  : list VideoSource.t :=
  match l with
  | [] => []
  | x :: r =>
      if existsb (sameSrc x) pre then firstOccurrences (pre ++ [x]) r
      else x :: firstOccurrences (pre ++ [x]) r
  end.

(** The state invariant of the [Scraper] object. *)
Definition pageHasBrowser (w : World) : Prop :=
  page w <> None -> browser w <> None.

(** The session holds a browser. *)
Definition hasBrowser (w : World) : Prop := browser w <> None.

(** Assertions about the two fields only. *)
Definition onFields (P : World -> Prop) : Prop :=
  forall w w', browser w = browser w' -> page w = page w' -> P w -> P w'.

(** A triple: from a world that satisfies [P], the computation ends in a
    result and a world that satisfy [Q], whatever the environment. *)
Definition triple {A : Type} (P : World -> Prop) (m : M A)
                  (Q : result A -> World -> Prop) : Prop :=
  forall env w, P w -> Q (fst (m env w)) (snd (m env w)).

(** The strategies of [l] before index [k] all throw, from tick [t] on. *)
Definition failUntil (env : Env) (t : nat) (l : list LaunchOptions) (k : nat)
  : Prop :=
  forall j o, j < k -> nth_error l j = Some o ->
              exists message, puppeteer_launch env (j + t) o = Fails message.

(** The last clause of the claim on the launch strategies, as worded: an
    attempt fails only when all the launch strategies fail. *)
Definition failsOnlyWhenAllStrategiesFail (link : string) (env : Env)
                                          (w : World) : Prop :=
  forall e,
    fst (Scraper.attemptStart link env w) = Throw e ->
    failUntil env (tick w) (Scraper.strategies env)
              (List.length (Scraper.strategies env)).

(** The page steps of an attempt succeed on the browser [b], from tick
    [t] on: the page [p] opens, the user agent and the viewport are set,
    and the link loads, directly or else through the gateway. *)
Definition pageStepsSucceed (env : Env) (t : nat) (b : Browser)
                            (link : string) (p : Page) : Prop :=
  browser_newPage env t b = Returns p
  /\ page_setUserAgent env (1 + t) p Scraper.userAgent = Returns tt
  /\ page_setViewport env (2 + t) p 1920 1080 = Returns tt
  /\ (page_goto env (3 + t) p link = Returns tt
      \/ ((exists message, page_goto env (3 + t) p link = Fails message)
          /\ page_goto env (4 + t) p (Scraper.scraperApiUrl env link)
             = Returns tt)).

(** The list URL that the trending endpoint scrapes. *)
Definition trendingUrl : string := "https://www.imdb.com/list/ls082250769/".

(** The selector of the trending list items. *)
Definition trendingSelector : string := ".ipc-metadata-list-summary-item".

(** The trending endpoint, when [scrapeTrending] comes back empty, answers
    500 with the given message. *)
Definition emptyTrendingAnswers (MovieData : Type) (message : string)
                                (env : Env) (w : World) : Prop :=
  fst (Scraper.scrapeTrending trendingUrl env w) = Ok [] ->
  fst (ScraperController.scrapeTrendingMovies MovieData env w)
  = Ok {| ScraperController.status := 500;
          ScraperController.payload :=
            ScraperController.Failure "Failed to scrape trending movies"
                                      message None |}.

(** The events that a run added to the trace. *)
Definition newEvents (before after : World) : list Event :=
  skipn (List.length (trace before)) (trace after).

(** The delays of the sleeps of a trace. *)
Definition delays (events : list Event) : list Z :=
  flat_map (fun ev => match ev with EvSleep ms => [ms] | _ => [] end) events.


(** The browser teardowns of a trace. *)
Definition teardowns (events : list Event) : list Browser :=
  flat_map (fun ev => match ev with EvBrowserClose b => [b] | _ => [] end)
           events.







End Spec.

Import Spec.

(* ================================================================== *)
(** ** Further vocabulary: sessions, traces, parameters *)
(* ================================================================== *)

(** Both handles of the session are set. *)
Definition sessionOpen (w : World) : Prop :=
  browser w <> None /\ page w <> None.

(** Both handles of the session are null. *)
Definition sessionClosed (w : World) : Prop :=
  browser w = None /\ page w = None.

(** Every browser teardown succeeds in this environment. *)
Definition teardownsSucceed (env : Env) : Prop :=
  forall t b, browser_close env t b = Returns tt.

(** A triple in one environment. *)
Definition tripleIn {A : Type} (env : Env) (P : World -> Prop) (m : M A)
                    (Q : result A -> World -> Prop) : Prop :=
  forall w, P w -> Q (fst (m env w)) (snd (m env w)).

(** The computation only adds events to the trace, and its result and the
    delays of the sleeps it adds satisfy [Q]. *)
Definition emits {A : Type} (m : M A) (Q : result A -> list Z -> Prop)
  : Prop :=
  forall env w,
    exists events,
      trace (snd (m env w)) = trace w ++ events
      /\ Q (fst (m env w)) (delays events).



(** The page loads of a trace: the URL and the timeout of each. *)
Definition pageLoads (events : list Event) : list (string * Z) :=
  flat_map (fun ev => match ev with
                      | EvGoto _ url timeout => [(url, timeout)]
                      | _ => []
                      end) events.

(** The value of a key in a parameter object. *)
Definition lookup (key : string) (obj : list (string * string))
  : option string :=
  match find (fun kv => String.eqb (fst kv) key) obj with
  | Some kv => Some (snd kv)
  | None => None
  end.


(** The selector matches no element with a non-empty [src]. *)
Definition noPosterSrc (doc : Document) (selector : string) : Prop :=
  match querySelector doc selector with
  | Some img => truthy (Img.src img) = false
  | None => True
  end.

(** Every code unit of the string is a digit. *)
Fixpoint allDigits (s : string) : bool :=
  match s with
  | EmptyString => true
  | String c r => JsText.isDigit c && allDigits r
  end.

(** The string starts with a digit. *)
Definition startsWithDigit (s : string) : bool :=
  match s with
  | String c _ => JsText.isDigit c
  | EmptyString => false
  end.

(** [id] is the title identifier that [url] holds at [pre]: "tt" and all
    the digits, at least one, that follow "/title/tt" there. *)
Definition titleIdAt (url pre id : string) : Prop :=
  exists digits rest,
    url = (pre ++ "/title/tt" ++ digits ++ rest)%string
    /\ id = ("tt" ++ digits)%string
    /\ digits <> ""
    /\ allDigits digits = true
    /\ startsWithDigit rest = false.

(** The list item has a title element whose text is not blank. *)
Definition hasTitleText (element : Dom.Element) : Prop :=
  exists el,
    Dom.querySelector element ".ipc-title__text" = Some el
    /\ trim (Dom.textContent el) <> "".

(** The list item has a link whose address holds "/title/tt" followed by
    a digit. *)
Definition hasTitleLink (element : Dom.Element) : Prop :=
  exists el address pre c rest,
    Dom.querySelector element ".ipc-title-link-wrapper" = Some el
    /\ Dom.getAttribute el "href" = Some address
    /\ address = (pre ++ "/title/tt" ++ String c rest)%string
    /\ JsText.isDigit c = true.

(* ================================================================== *)
(** ** Further vocabulary: pages and their extractors *)
(* ================================================================== *)

(** The computation returns a value in this environment and world. *)
Definition returns {A : Type} (m : M A) (env : Env) (w : World) : Prop :=
  exists a, fst (m env w) = Ok a.

(** The computation throws [e] and leaves the world as it was. *)
Definition refuses {A : Type} (m : M A) (e : thrown) (env : Env) (w : World)
  : Prop :=
  m env w = (Throw e, w).

(** The two messages of the extractors for a session without a page. *)
Definition callStartFirst : thrown :=
  JsError "Page not loaded. Call start first.".

Definition callScrapeMoviePageFirst : thrown :=
  JsError "Page not loaded. Call scrapeMoviePage first.".

(** The URLs of a list of video sources. *)
Definition urls (l : list VideoSource.t) : list string :=
  map VideoSource.src l.

(** The URLs that the first in-page function of [scrapeVideoSources]
    reads: of each video, and of each of its [source] children. *)
Definition nativeUrls (videos : list VideoDom.VideoElement) : list string :=
  flat_map (fun video =>
              VideoDom.src video
              :: map VideoDom.source_src (VideoDom.sources video))
           videos.

Module PageSamples.

(** An element with a text, attributes and the matches of the selectors
    below it. *)
Definition element (text : string) (attributes : list (string * string))
                   (matches : list (string * list Dom.Element))
  : Dom.Element :=
  let below (selector : string) : list Dom.Element :=
    match find (fun kv => String.eqb (fst kv) selector) matches with
    | Some kv => snd kv
    | None => []
    end in
  Dom.mkElement text
                (fun name => lookup name attributes)
                (fun selector => hd_error (below selector))
                below
                None
                "".

(** An item of the trending list: "2. The Godfather". *)
Definition godfatherItem : Dom.Element :=
  element ""
          []
          [ (".ipc-title-link-wrapper",
             [ element "" [ ("href", "/title/tt0068646/?ref_=chtmvm_t_2") ]
                       [] ]);
            (".ipc-title__text", [ element "2. The Godfather " [] [] ]) ].

(** An item whose link is not one of a title. *)
Definition adItem : Dom.Element :=
  element ""
          []
          [ (".ipc-title-link-wrapper",
             [ element "" [ ("href", "/list/ls000000001/") ] [] ]);
            (".ipc-title__text", [ element "Sponsored" [] [] ]) ].

(** The page of "Inception". *)
Definition inceptionDom : Dom.PageDom :=
  {| Dom.href := "https://www.imdb.com/title/tt1375666/?ref_=chtmvm_t_1";
     Dom.document :=
       element ""
               []
               [ ("h1", [ element " Inception " [] [] ]);
                 (("[data-testid=" ++ Scraper.dq ++ "grid_first_row_video"
                   ++ Scraper.dq ++ "] .video-item")%string,
                  [ element "" [] []; element "" [] [] ]) ] |}.

(** Every evaluation sees the page of "Inception". *)
Definition inceptionPages : nat -> Page -> outcome Dom.PageDom :=
  fun _ _ => Returns inceptionDom.

(** A video element with a URL and [source] children. *)
Definition videoElement (src id : string)
                        (sources : list VideoDom.SourceElement)
  : VideoDom.VideoElement :=
  {| VideoDom.src := src;
     VideoDom.typeAttribute := None;
     VideoDom.poster := "";
     VideoDom.className := "jw-video";
     VideoDom.id := id;
     VideoDom.preload := "auto";
     VideoDom.controls := true;
     VideoDom.autoplay := false;
     VideoDom.muted := false;
     VideoDom.loop := false;
     VideoDom.videoWidth := Fin 0;
     VideoDom.width := Fin 640;
     VideoDom.videoHeight := Fin 0;
     VideoDom.height := Fin 360;
     VideoDom.sources := sources |}.

Definition trailer : VideoDom.VideoElement :=
  videoElement "https://v.media-amazon.com/trailer.mp4" ""
               [ {| VideoDom.source_src :=
                      "https://v.media-amazon.com/trailer.webm";
                    VideoDom.source_type := "video/webm" |};
                 {| VideoDom.source_src := "";
                    VideoDom.source_type := "" |} ].

(** [calmEnv], with the two collections of [scrapeVideoSources] on a
    page whose one video is matched by all three queries. *)
Definition trailerEnv : Env :=
  {| NODE_ENV := NODE_ENV Samples.calmEnv;
     encodeURIComponent := encodeURIComponent Samples.calmEnv;
     toISOString := toISOString Samples.calmEnv;
     stack := stack Samples.calmEnv;
     puppeteer_launch := puppeteer_launch Samples.calmEnv;
     browser_newPage := browser_newPage Samples.calmEnv;
     browser_close := browser_close Samples.calmEnv;
     page_setUserAgent := page_setUserAgent Samples.calmEnv;
     page_setViewport := page_setViewport Samples.calmEnv;
     page_goto := page_goto Samples.calmEnv;
     page_waitForSelector := page_waitForSelector Samples.calmEnv;
     page_document := page_document Samples.calmEnv;
     page_trending := page_trending Samples.calmEnv;
     page_videos :=
       fun t _ =>
         if Nat.eqb t 1
         then Returns (VideoDom.collectNative [ trailer ])
         else Returns (VideoDom.collectImdb [ trailer ] [ trailer ]);
     axios_get := axios_get Samples.calmEnv |}.

End PageSamples.

Module ChartSamples.

(** The trending page lists "2. The Godfather" and an item that is not a
    title; everything else is as in [calmEnv]. *)
Definition chartItems : list Dom.Element :=
  [ PageSamples.godfatherItem; PageSamples.adItem ].

Definition chartEnv : Env :=
  withAnswers
    (page_waitForSelector calmEnv)
    (page_document calmEnv)
    (fun _ _ => Returns (map InPage.trendingItem chartItems))
    (puppeteer_launch calmEnv)
    (browser_close calmEnv).

End ChartSamples.

(* ================================================================== *)
(** ** The model on concrete inputs *)
(* ================================================================== *)

Example parseInt_100 : parseInt "100" = Fin 100.
Proof. reflexivity. Qed.
Example parseInt_2x : parseInt "2x" = Fin 2.
Proof. reflexivity. Qed.
Example parseInt_hex : parseInt "0x1F" = Fin 31.
Proof. reflexivity. Qed.
Example parseInt_nan : parseInt "abc" = NaN.
Proof. reflexivity. Qed.
Example to_double_round : to_double (2 ^ 53 + 1) = Fin (2 ^ 53).
Proof. vm_compute. reflexivity. Qed.
Example to_double_round_up : to_double (2 ^ 53 + 3) = Fin (2 ^ 53 + 4).
Proof. vm_compute. reflexivity. Qed.
Example split_ex : split "," "a,b,,c" = ["a"; "b"; ""; "c"].
Proof. reflexivity. Qed.
Example trim_ex : trim "  a b  " = "a b".
Proof. reflexivity. Qed.
Example endsWith_ex : endsWith "http://x/p.jpg" ".jpg" = true.
Proof. reflexivity. Qed.
Example ofNat_ex : ofNat 12 = "12".
Proof. reflexivity. Qed.

Example srcset_entries_ex :
  Scraper.srcsetEntries "http://a/1.jpg 190w, http://a/2.jpg 285w" =
  [ {| Scraper.Srcset.url := "http://a/1.jpg"; Scraper.Srcset.width := Fin 190 |};
    {| Scraper.Srcset.url := "http://a/2.jpg"; Scraper.Srcset.width := Fin 285 |} ].
Proof. reflexivity. Qed.

Example srcset_branch_ex :
  Scraper.srcsetBranch "http://a/1.jpg 190w, http://a/2.jpg 285w, http://a/3.jpg 285w"
  = Some "http://a/2.jpg".
Proof. reflexivity. Qed.

Example unique_ex :
  Scraper.uniqueSources [video "u" "1"; video "v" "2"; video "u" "3"]
  = [video "u" "1"; video "v" "2"].
Proof. reflexivity. Qed.

Example start_ex :
  fst (Scraper.startWithRetry "https://www.imdb.com/title/tt1/" 3 calmEnv emptyWorld)
  = Ok tt.
Proof. reflexivity. Qed.

Example start_dead_ex :
  fst (Scraper.startWithRetry "https://www.imdb.com/title/tt1/" 3 deadEnv emptyWorld)
  = Throw (JsError "Failed to start browser after 3 attempts. Last error: All browser launch strategies failed").
Proof. reflexivity. Qed.

(* ================================================================== *)
(** ** Numbers and the comparator *)
(* ================================================================== *)

Lemma shiftr_top_pos (n : Z) :
  (2 ^ 53 <= n)%Z -> (0 < Z.shiftr n (Z.log2 n - 52))%Z.
Proof.
  intros Hn.
  assert (Hpos : (0 < n)%Z) by (pose proof (Z.pow_pos_nonneg 2 53); lia).
  assert (Hlog : (53 <= Z.log2 n)%Z).
  { replace 53%Z with (Z.log2 (2 ^ 53)) by (rewrite Z.log2_pow2; lia).
    apply Z.log2_le_mono; exact Hn. }
  rewrite Z.shiftr_div_pow2 by lia.
  apply Z.div_str_pos. split.
  - apply Z.pow_pos_nonneg; lia.
  - destruct (Z.log2_spec n Hpos) as [Hlo _].
    eapply Z.le_trans; [ | exact Hlo ].
    apply Z.pow_le_mono_r; lia.
Qed.

(** Rounding to a double keeps the sign, and never gives NaN. *)
Lemma to_double_sign (z : Z) :
  match to_double z with
  | NaN => False
  | NegInf => (z < 0)%Z
  | PosInf => (0 < z)%Z
  | Fin v => (v ?= 0)%Z = (z ?= 0)%Z
  end.
Proof.
  unfold to_double.
  destruct (Z.abs z <? 2 ^ 53)%Z eqn:Hsmall; [ reflexivity | ].
  apply Z.ltb_ge in Hsmall.
  pose proof (shiftr_top_pos (Z.abs z) Hsmall) as Hq.
  set (e := (Z.log2 (Z.abs z) - 52)%Z) in *.
  set (q := Z.shiftr (Z.abs z) e) in *.
  match goal with
  | |- context [if ?c then (q + 1)%Z else q] =>
      set (q' := if c then (q + 1)%Z else q);
      assert (Hq' : (0 < q')%Z) by (subst q'; destruct c; lia)
  end.
  assert (Hz : z <> 0%Z) by (pose proof (Z.pow_pos_nonneg 2 53); lia).
  assert (He : (0 <= e)%Z).
  { subst e. assert (Z.log2 (2 ^ 53) <= Z.log2 (Z.abs z))%Z
      by (apply Z.log2_le_mono; exact Hsmall).
    rewrite Z.log2_pow2 in H; lia. }
  assert (Hm : (0 < Z.shiftl q' e)%Z).
  { rewrite Z.shiftl_mul_pow2 by exact He.
    apply Z.mul_pos_pos; [ exact Hq' | apply Z.pow_pos_nonneg; lia ]. }
  destruct (2 ^ 1024 <=? Z.shiftl q' e)%Z.
  - destruct (0 <? z)%Z eqn:Hs.
    + apply Z.ltb_lt in Hs; exact Hs.
    + apply Z.ltb_ge in Hs; lia.
  - destruct (Z.compare_spec z 0) as [ | Hneg | Hp ]; [ lia | | ].
    + rewrite (Z.sgn_neg z Hneg). apply Z.compare_lt_iff. lia.
    + rewrite (Z.sgn_pos z Hp). apply Z.compare_gt_iff. lia.
Qed.

(** On widths that are numbers, the comparator orders an entry after
    another exactly when its width is smaller. *)
Lemma sortCompare_Gt (a b : Scraper.Srcset.entry) :
  Scraper.Srcset.width a <> NaN ->
  Scraper.Srcset.width b <> NaN ->
  (Scraper.sortCompare a b = Gt <->
   num_lt (Scraper.Srcset.width a) (Scraper.Srcset.width b) = true).
Proof.
  unfold Scraper.sortCompare, Scraper.compareFn.
  destruct (Scraper.Srcset.width a) as [ | | x | ],
           (Scraper.Srcset.width b) as [ | | y | ];
    simpl; intros Ha Hb; try congruence;
    try (split; congruence).
  pose proof (to_double_sign (y - x)) as Hs.
  destruct (to_double (y - x)) as [ | | v | ].
  - contradiction.
  - split; [ discriminate | ]. rewrite Z.ltb_lt. lia.
  - rewrite Hs, Z.compare_gt_iff, Z.ltb_lt. lia.
  - split; [ intros _ | reflexivity ]. apply Z.ltb_lt. lia.
Qed.

Lemma num_lt_cotrans (a b c : jsnum) :
  a <> NaN -> b <> NaN -> c <> NaN ->
  num_lt a b = false -> num_lt b c = false -> num_lt a c = false.
Proof.
  destruct a, b, c; simpl; intros; try congruence;
    rewrite ?Z.ltb_ge in *; lia.
Qed.

Lemma num_lt_left (a b c : jsnum) :
  num_lt b c = true -> num_lt a c = false -> num_lt a b = false.
Proof.
  destruct a, b, c; simpl; intros; try congruence;
    rewrite ?Z.ltb_ge, ?Z.ltb_lt in *; lia.
Qed.

(** *** Numbers as strings *)

(** Integers print exactly up to [2^53]; beyond, with the shortest digits
    that denote the number, and from [10^21] on in exponent notation. *)
Example toString_integers :
  map (fun z => toString (to_double z))
      [ 0; 1920; -1080; 2 ^ 53; 2 ^ 53 + 1; 2 ^ 60; 10 ^ 21 - 1; 10 ^ 21;
        10 ^ 23; 2 ^ 100; 2 ^ 1024 - 2 ^ 971; 2 ^ 1024 ]%Z
  = [ "0"; "1920"; "-1080"; "9007199254740992"; "9007199254740992";
      "1152921504606847000"; "1e+21"; "1e+21"; "1e+23";
      "1.2676506002282294e+30"; "1.7976931348623157e+308"; "Infinity" ].
Proof. vm_compute. reflexivity. Qed.

(* ================================================================== *)
(** ** The model of [Array.prototype.sort] is a stable sort *)
(* ================================================================== *)

Section SortModel.

Import Scraper.

(** An entry moves right only past entries of strictly greater width. *)
Lemma sortCompare_Gt_lt (a b : Srcset.entry) :
  sortCompare a b = Gt ->
  num_lt (Srcset.width a) (Srcset.width b) = true.
Proof.
  unfold sortCompare, compareFn.
  destruct (Srcset.width a) as [ | | x | ],
           (Srcset.width b) as [ | | y | ];
    simpl; try congruence.
  pose proof (to_double_sign (y - x)) as Hs.
  destruct (to_double (y - x)) as [ | | v | ]; try congruence.
  - rewrite Hs, Z.compare_gt_iff, Z.ltb_lt. lia.
  - intros _. apply Z.ltb_lt. lia.
Qed.

Lemma insert_Permutation (x : Srcset.entry) (l : list Srcset.entry) :
  Permutation (insert x l) (x :: l).
Proof.
  induction l as [ | y r IH ]; simpl; [ apply Permutation_refl | ].
  destruct (sortCompare x y); try apply Permutation_refl.
  eapply perm_trans; [ apply perm_skip; exact IH | apply perm_swap ].
Qed.

(** Sorting loses and adds no entry. *)
Lemma sort_Permutation (l : list Srcset.entry) : Permutation (sort l) l.
Proof.
  induction l as [ | x r IH ]; simpl; [ constructor | ].
  eapply perm_trans; [ apply insert_Permutation | ].
  apply perm_skip. exact IH.
Qed.

Lemma insert_Sorted (x : Srcset.entry) (l : list Srcset.entry) :
  numeric x -> Forall numeric l ->
  Sorted notWider l -> Sorted notWider (insert x l).
Proof.
  intros Hx Hl Hs.
  induction l as [ | y r IH ]; simpl; [ repeat constructor | ].
  inversion Hl as [ | ? ? Hy Hr ]; subst.
  inversion Hs as [ | ? ? Hsr Hhd ]; subst.
  pose proof (sortCompare_Gt x y Hx Hy) as Hgt.
  assert (Hkeep : num_lt (Srcset.width x) (Srcset.width y) = false ->
                  Sorted notWider (x :: y :: r)).
  { intros Hxy. constructor; [ exact Hs | ].
    constructor. unfold notWider. exact Hxy. }
  destruct (sortCompare x y) eqn:Hc.
  - apply Hkeep. destruct (num_lt _ _); [ | reflexivity ].
    destruct Hgt as [_ Hgt]. specialize (Hgt eq_refl). discriminate.
  - apply Hkeep. destruct (num_lt _ _); [ | reflexivity ].
    destruct Hgt as [_ Hgt]. specialize (Hgt eq_refl). discriminate.
  - constructor; [ apply IH; assumption | ].
    assert (Hyx : notWider y x).
    { unfold notWider.
      assert (H : num_lt (Srcset.width x) (Srcset.width y) = true)
        by (apply Hgt; reflexivity).
      revert H. unfold numeric in Hx, Hy.
      destruct (Srcset.width x), (Srcset.width y); simpl;
        try congruence; rewrite ?Z.ltb_lt, ?Z.ltb_ge; lia. }
    destruct r as [ | z r ]; simpl; [ constructor; exact Hyx | ].
    destruct (sortCompare x z); constructor;
      solve [ exact Hyx | inversion Hhd; assumption ].
Qed.

(** On widths that are numbers, the sorted array is in descending order of
    width: no entry is wider than the one before it. *)
Lemma sort_Sorted (l : list Srcset.entry) :
  Forall numeric l -> Sorted notWider (sort l).
Proof.
  induction 1 as [ | x r Hx Hr IH ]; simpl; [ constructor | ].
  apply insert_Sorted; [ exact Hx | | exact IH ].
  rewrite Forall_forall in Hr |- *. intros e He. apply Hr.
  eapply Permutation_in; [ apply sort_Permutation | exact He ].
Qed.

Lemma insert_stable (v : jsnum) (x : Srcset.entry) (l : list Srcset.entry) :
  filter (hasWidth v) (insert x l) = filter (hasWidth v) (x :: l).
Proof.
  induction l as [ | y r IH ]; [ reflexivity | ].
  cbn [insert].
  destruct (sortCompare x y) eqn:Hc; try reflexivity.
  apply sortCompare_Gt_lt in Hc.
  cbn [filter] in IH |- *. rewrite IH.
  unfold hasWidth in *.
  destruct (Srcset.width x) as [ | | a | ],
           (Srcset.width y) as [ | | b | ], v as [ | | c | ];
    simpl in *; try congruence; try reflexivity.
  apply Z.ltb_lt in Hc.
  destruct (Z.eqb_spec a c), (Z.eqb_spec b c); try reflexivity. lia.
Qed.

(** The sort is stable: entries of the same width keep their order. *)
Lemma sort_stable (v : jsnum) (l : list Srcset.entry) :
  filter (hasWidth v) (sort l) = filter (hasWidth v) l.
Proof.
  induction l as [ | x r IH ]; [ reflexivity | ].
  cbn [sort]. rewrite insert_stable. cbn [filter]. rewrite IH. reflexivity.
Qed.

End SortModel.

(* ================================================================== *)
(** ** The poster extractor: the srcset block *)
(* ================================================================== *)

Section SrcsetSort.

Import Scraper.

Lemma insert_head (x h : Srcset.entry) (t : list Srcset.entry) :
  exists t',
    insert x (h :: t) =
    (match sortCompare x h with Gt => h | _ => x end) :: t'.
Proof.
  simpl. destruct (sortCompare x h); eauto.
Qed.

(** The sorted array starts with the first entry of greatest width. *)
Lemma sort_head (l : list Srcset.entry) :
  Forall numeric l -> l <> [] ->
  exists before best after rest,
    firstWidest l before best after /\ sort l = best :: rest.
Proof.
  induction l as [ | x l IH ]; intros Hnum Hne; [ congruence | ].
  inversion Hnum as [ | ? ? Hx Hl ]; subst.
  destruct l as [ | y l' ].
  - exists [], x, [], []. repeat split; auto.
  - destruct IH as (before & best & after & rest & (Heq & Hb & Ha) & Hs);
      [ exact Hl | discriminate | ].
    assert (Hbest : numeric best).
    { rewrite Forall_forall in Hl. apply Hl. rewrite Heq.
      apply in_or_app. right. left. reflexivity. }
    cbn [sort] in Hs |- *. rewrite Hs.
    destruct (insert_head x best rest) as [t' Ht]. rewrite Ht.
    pose proof (sortCompare_Gt x best Hx Hbest) as Hgt.
    destruct (sortCompare x best) eqn:Hc.
    1-2: (* [best] is not wider: [x] stays in front *)
    assert (Hxb : num_lt (Srcset.width x) (Srcset.width best) = false)
      by (destruct (num_lt _ _); [ | reflexivity ];
          destruct Hgt as [_ Hgt]; specialize (Hgt eq_refl); discriminate);
    exists [], x, (y :: l'), t'; (split; [ | reflexivity ]);
    (split; [ reflexivity | split; [ constructor | ] ]);
    rewrite Heq; apply Forall_app; split;
    [ rewrite Forall_forall in Hb |- *; intros e He;
      eapply num_lt_left; [ apply Hb; exact He | exact Hxb ]
    | constructor; [ exact Hxb | ];
      rewrite Forall_forall in Ha |- *; intros e He;
      apply num_lt_cotrans with (b := Srcset.width best); auto;
      rewrite Forall_forall in Hl; apply Hl; rewrite Heq;
      apply in_or_app; right; right; exact He ].
  + (* [best] is wider: it stays first *)
      exists (x :: before), best, after, t'. split; [ | reflexivity ].
      split; [ rewrite Heq; reflexivity | split; [ | exact Ha ] ].
      constructor; [ apply Hgt; reflexivity | exact Hb ].
Qed.

Lemma srcsetEntries_nonempty (srcset : string) : srcsetEntries srcset <> [].
Proof.
  unfold srcsetEntries.
  assert (H : split "," srcset <> []).
  { destruct srcset as [ | c r ]; simpl; [ discriminate | ].
    destruct (Ascii.eqb c ","); [ discriminate | ].
    destruct (split "," r); discriminate. }
  destruct (split "," srcset); [ congruence | discriminate ].
Qed.


Lemma startsWith_truthy (s p : string) :
  p <> "" -> startsWith s p = true -> truthy s = true.
Proof.
  destruct s; [ | reflexivity ].
  destruct p; [ congruence | discriminate ].
Qed.

(** C1, amended. For every non-empty srcset whose width descriptors all
    parse to numbers, the srcset block looks at the first entry of greatest
    width only: it returns the URL of that entry when its width is positive
    and its URL starts with "http", and otherwise it returns nothing and
    control falls through to the [src] attribute. *)
Theorem srcsetBranch_first_widest (srcset : string) :
  srcset <> "" ->
  Forall numeric (srcsetEntries srcset) ->
  exists before best after,
    firstWidest (srcsetEntries srcset) before best after
    /\ srcsetBranch srcset =
         if gt0 (Srcset.width best) && startsWith (Srcset.url best) "http"
         then Some (Srcset.url best) else None.
Proof.
  intros Hne Hnum.
  destruct (sort_head (srcsetEntries srcset) Hnum
                      (srcsetEntries_nonempty srcset))
    as (before & best & after & rest & Hfirst & Hsort).
  exists before, best, after. split; [ exact Hfirst | ].
  unfold srcsetBranch. rewrite Hsort.
  destruct srcset; [ congruence | ]. cbn [truthy].
  destruct (gt0 (Srcset.width best)); cbn [andb]; [ | reflexivity ].
  destruct (startsWith (Srcset.url best) "http") eqn:Hs.
  - rewrite (startsWith_truthy _ "http") by (discriminate || exact Hs).
    reflexivity.
  - rewrite andb_false_r. reflexivity.
Qed.

End SrcsetSort.

Lemma srcsetBranch_first_widest_witness :
  let srcset := "http://a/1.jpg 190w, http://a/2.jpg 285w, http://a/3.jpg 285w" in
  srcset <> ""
  /\ Forall numeric (Scraper.srcsetEntries srcset)
  /\ exists before best after,
       firstWidest (Scraper.srcsetEntries srcset) before best after
       /\ Scraper.srcsetBranch srcset =
            if gt0 (Scraper.Srcset.width best)
               && startsWith (Scraper.Srcset.url best) "http"
            then Some (Scraper.Srcset.url best) else None.
Proof.
  cbv zeta.
  assert (H1 : "http://a/1.jpg 190w, http://a/2.jpg 285w, http://a/3.jpg 285w"
               <> "") by discriminate.
  assert (H2 : Forall numeric
                 (Scraper.srcsetEntries
                    "http://a/1.jpg 190w, http://a/2.jpg 285w, http://a/3.jpg 285w"))
    by (vm_compute; repeat constructor; discriminate).
  split; [ exact H1 | split; [ exact H2 | ] ].
  exact (srcsetBranch_first_widest _ H1 H2).
Defined.

(** C1 as worded fails: the widest entry of this srcset has a relative
    URL, so the block returns nothing although the second entry is
    absolute and has a positive width. *)
Lemma widest_relative_url_counterexample :
  ~ widestAlwaysReturned "foo 500w, http://a/p.jpg 100w".
Proof.
  intros H.
  destruct H as (before & best & after & _ & Hret).
  - exists {| Scraper.Srcset.url := "http://a/p.jpg";
              Scraper.Srcset.width := Fin 100 |}.
    split; [ right; left; reflexivity | split; reflexivity ].
  - vm_compute in Hret. discriminate.
Qed.

(** On that srcset the extractor returns the [src] attribute. *)
Example evaluatePoster_falls_through :
  Scraper.evaluatePoster
    (documentWith (image "http://a/s.jpg"
                     [("srcset", "foo 500w, http://a/p.jpg 100w");
                      ("src", "http://a/s.jpg")]))
  = Some "http://a/s.jpg".
Proof. reflexivity. Qed.

(* ================================================================== *)
(** ** The poster extractor: the fallback path *)
(* ================================================================== *)

Lemma firstFallback_accepts (doc : Document) (selectors : list string)
                            (url : string) :
  Scraper.firstFallback doc selectors = Some url ->
  startsWith url "http" = true /\ endsWith url ".jpg" = false.
Proof.
  induction selectors as [ | selector rest IH ]; simpl; [ discriminate | ].
  destruct (querySelector doc selector) as [ img | ]; [ | exact IH ].
  destruct (truthy (Img.src img) && startsWith (Img.src img) "http"
            && negb (endsWith (Img.src img) ".jpg")) eqn:Hok; [ | exact IH ].
  intros Hurl. injection Hurl as <-.
  apply andb_prop in Hok. destruct Hok as [Hok Hjpg].
  apply andb_prop in Hok. destruct Hok as [_ Hhttp].
  split; [ exact Hhttp | ].
  destruct (endsWith (Img.src img) ".jpg"); [ discriminate | reflexivity ].
Qed.

(** C10. When the primary path of [scrapePoster] throws (the selector wait
    or the extraction), every URL that [scrapePoster] returns starts with
    "http" and does not end with ".jpg". *)
Theorem scrapePoster_fallback_http_not_jpg
    (env : Env) (w w1 : World) (p : Page) (e : thrown) (url : string) :
  page w = Some p ->
  Scraper.posterPrimary p env w = (Throw e, w1) ->
  fst (Scraper.scrapePoster env w) = Ok (Some url) ->
  startsWith url "http" = true /\ endsWith url ".jpg" = false.
Proof.
  intros Hpage Hprimary.
  unfold Scraper.scrapePoster, bind, get_page, try_catch. rewrite Hpage.
  rewrite Hprimary.
  unfold Scraper.posterFallback, Scraper.evaluate, try_catch, bind, external,
    ret.
  destruct (page_document env (tick w1) p) as [ doc | message ]; simpl.
  - intros Hurl. injection Hurl as Hurl.
    exact (firstFallback_accepts _ _ _ Hurl).
  - discriminate.
Qed.

Lemma scrapePoster_fallback_http_not_jpg_witness :
  page posterWorld = Some (PageHandle 0)
  /\ Scraper.posterPrimary (PageHandle 0) posterEnv posterWorld
     = (Throw (JsError "Waiting for selector failed: 5000ms exceeded"),
        record (EvWaitForSelector (PageHandle 0)
                  ("[data-testid=" ++ Scraper.dq ++ "hero-media__poster"
                   ++ Scraper.dq ++ "]") 5000) true posterWorld)
  /\ fst (Scraper.scrapePoster posterEnv posterWorld)
     = Ok (Some "https://m.media-amazon.com/images/M/MV5B.png")
  /\ startsWith "https://m.media-amazon.com/images/M/MV5B.png" "http" = true
  /\ endsWith "https://m.media-amazon.com/images/M/MV5B.png" ".jpg" = false.
Proof.
  assert (H1 : page posterWorld = Some (PageHandle 0)) by reflexivity.
  assert (H2 : Scraper.posterPrimary (PageHandle 0) posterEnv posterWorld
     = (Throw (JsError "Waiting for selector failed: 5000ms exceeded"),
        record (EvWaitForSelector (PageHandle 0)
                  ("[data-testid=" ++ Scraper.dq ++ "hero-media__poster"
                   ++ Scraper.dq ++ "]") 5000) true posterWorld))
    by reflexivity.
  assert (H3 : fst (Scraper.scrapePoster posterEnv posterWorld)
     = Ok (Some "https://m.media-amazon.com/images/M/MV5B.png"))
    by reflexivity.
  split; [ exact H1 | split; [ exact H2 | split; [ exact H3 | ] ] ].
  exact (scrapePoster_fallback_http_not_jpg _ _ _ _ _ _ H1 H2 H3).
Defined.

(** An image whose URL ends with ".jpg" is passed over, whatever selector
    it matches. *)
Example fallback_skips_jpg :
  Scraper.evaluateFallbackPoster
    (documentWith (image "https://m.media-amazon.com/images/M/MV5B.jpg" []))
  = None.
Proof. reflexivity. Qed.

(* ================================================================== *)
(** ** Video sources: the deduplication step *)
(* ================================================================== *)

Section Dedup.

Import Scraper.

Lemma findIndex_found {A} (p : A -> bool) (l : list A) :
  existsb p l = true -> (0 <= findIndex p l)%Z.
Proof.
  induction l as [ | x r IH ]; simpl; [ discriminate | ].
  destruct (p x); simpl; [ lia | ].
  intros H. specialize (IH H).
  destruct (findIndex p r <? 0)%Z eqn:Hneg; [ apply Z.ltb_lt in Hneg | ]; lia.
Qed.

(** The index of [x] in [pre ++ x :: r] is the first index that satisfies
    [p] exactly when nothing in [pre] satisfies [p]. *)
Lemma findIndex_middle {A} (p : A -> bool) (pre : list A) (x : A)
                       (r : list A) :
  p x = true ->
  (Z.of_nat (List.length pre) =? findIndex p (pre ++ x :: r))%Z
  = negb (existsb p pre).
Proof.
  intros Hx.
  induction pre as [ | y pre IH ]; cbn [app findIndex existsb List.length].
  - rewrite Hx. reflexivity.
  - destruct (p y) eqn:Hy; cbn [orb negb].
    + apply Z.eqb_neq. lia.
    + assert (Hfound : (0 <= findIndex p (pre ++ x :: r))%Z).
      { apply findIndex_found. rewrite existsb_app. simpl. rewrite Hx.
        apply orb_true_iff. right. reflexivity. }
      destruct (findIndex p (pre ++ x :: r) <? 0)%Z eqn:Hneg;
        [ apply Z.ltb_lt in Hneg; lia | ].
      rewrite <- IH.
      destruct (Z.eqb_spec (Z.of_nat (List.length pre))
                           (findIndex p (pre ++ x :: r)));
        [ apply Z.eqb_eq | apply Z.eqb_neq ]; lia.
Qed.

(** The filter of the source, started in the middle of the array. *)
Lemma filterIndexed_firstOccurrences (pre l : list VideoSource.t) :
  filterIndexed
    (fun source index =>
       (index =? findIndex (fun s => String.eqb (VideoSource.src s)
                                                (VideoSource.src source))
                           (pre ++ l))%Z)
    (Z.of_nat (List.length pre)) l
  = firstOccurrences pre l.
Proof.
  revert pre. induction l as [ | x r IH ]; intros pre; [ reflexivity | ].
  cbn [filterIndexed firstOccurrences].
  rewrite (findIndex_middle
             (fun s => String.eqb (VideoSource.src s) (VideoSource.src x)))
    by apply String.eqb_refl.
  specialize (IH (pre ++ [x])).
  rewrite <- app_assoc in IH. cbn [app] in IH.
  rewrite length_app in IH. cbn [List.length] in IH.
  replace (Z.of_nat (List.length pre + 1)) with (Z.of_nat (List.length pre) + 1)%Z
    in IH by lia.
  rewrite IH.
  unfold sameSrc.
  destruct (existsb _ pre); reflexivity.
Qed.

Lemma uniqueSources_firstOccurrences (allSources : list VideoSource.t) :
  uniqueSources allSources = firstOccurrences [] allSources.
Proof.
  exact (filterIndexed_firstOccurrences [] allSources).
Qed.

Lemma sameSrc_existsb (x : VideoSource.t) (pre : list VideoSource.t) :
  existsb (sameSrc x) pre = true <->
  In (VideoSource.src x) (map VideoSource.src pre).
Proof.
  rewrite existsb_exists, in_map_iff. unfold sameSrc.
  split; intros (y & H1 & H2); exists y.
  - apply String.eqb_eq in H2. split; [ exact H2 | exact H1 ].
  - split; [ exact H2 | apply String.eqb_eq; exact H1 ].
Qed.

Lemma firstOccurrences_first (pre l : list VideoSource.t) (e : VideoSource.t) :
  In e (firstOccurrences pre l) ->
  exists l1 l2,
    l = l1 ++ e :: l2
    /\ ~ In (VideoSource.src e) (map VideoSource.src (pre ++ l1)).
Proof.
  revert pre. induction l as [ | x r IH ]; intros pre; simpl; [ tauto | ].
  assert (Hrest : In e (firstOccurrences (pre ++ [x]) r) ->
                  exists l1 l2,
                    x :: r = l1 ++ e :: l2
                    /\ ~ In (VideoSource.src e)
                            (map VideoSource.src (pre ++ l1))).
  { intros H. destruct (IH _ H) as (l1 & l2 & -> & Hnot).
    exists (x :: l1), l2. split; [ reflexivity | ].
    rewrite <- app_assoc in Hnot. exact Hnot. }
  destruct (existsb (sameSrc x) pre) eqn:Hseen; [ exact Hrest | ].
  intros [ <- | H ]; [ | exact (Hrest H) ].
  exists [], r. split; [ reflexivity | ].
  rewrite app_nil_r. rewrite <- sameSrc_existsb. congruence.
Qed.

Lemma firstOccurrences_NoDup (pre l : list VideoSource.t) :
  NoDup (map VideoSource.src (firstOccurrences pre l)).
Proof.
  revert pre. induction l as [ | x r IH ]; intros pre; simpl;
    [ constructor | ].
  destruct (existsb (sameSrc x) pre); [ apply IH | ].
  simpl. constructor; [ | apply IH ].
  rewrite in_map_iff. intros (e & Hsrc & He).
  destruct (firstOccurrences_first _ _ _ He) as (l1 & l2 & _ & Hnot).
  apply Hnot. rewrite Hsrc, map_app, map_app. simpl.
  apply in_or_app. left. apply in_or_app. right. left. reflexivity.
Qed.

Lemma firstOccurrences_Subsequence (pre l : list VideoSource.t) :
  Subsequence (firstOccurrences pre l) l.
Proof.
  revert pre. induction l as [ | x r IH ]; intros pre; simpl;
    [ constructor | ].
  destruct (existsb (sameSrc x) pre); constructor; apply IH.
Qed.

Lemma firstOccurrences_complete (pre l : list VideoSource.t) (u : string) :
  In u (map VideoSource.src l) ->
  ~ In u (map VideoSource.src pre) ->
  In u (map VideoSource.src (firstOccurrences pre l)).
Proof.
  revert pre. induction l as [ | x r IH ]; intros pre; simpl; [ tauto | ].
  intros Hin Hnot.
  destruct (string_dec (VideoSource.src x) u) as [ Heq | Hneq ].
  - destruct (existsb (sameSrc x) pre) eqn:Hseen.
    + apply sameSrc_existsb in Hseen. congruence.
    + left. exact Heq.
  - assert (Hr : In u (map VideoSource.src (firstOccurrences (pre ++ [x]) r))).
    { apply IH; [ tauto | ].
      rewrite map_app, in_app_iff. simpl. tauto. }
    destruct (existsb (sameSrc x) pre); [ exact Hr | right; exact Hr ].
Qed.

(** C3. The deduplication step of [scrapeVideoSources], on the native
    list followed by the player-library list: no two entries of the result
    have the same URL; the result is the concatenated input with entries
    left out, the others in their order; each entry of the result stands
    in the input at a place before which its URL does not occur; and no
    URL of the input is lost. *)
Theorem uniqueSources_first_occurrences
    (videoSources imdbVideoSources : list VideoSource.t) :
  let allSources := videoSources ++ imdbVideoSources in
  let unique := uniqueSources allSources in
  NoDup (map VideoSource.src unique)
  /\ Subsequence unique allSources
  /\ (forall e, In e unique ->
        exists l1 l2,
          allSources = l1 ++ e :: l2
          /\ ~ In (VideoSource.src e) (map VideoSource.src l1))
  /\ (forall u, In u (map VideoSource.src allSources) ->
                In u (map VideoSource.src unique)).
Proof.
  cbv zeta. rewrite uniqueSources_firstOccurrences.
  split; [ apply firstOccurrences_NoDup | ].
  split; [ apply firstOccurrences_Subsequence | ].
  split.
  - intros e He. exact (firstOccurrences_first [] _ e He).
  - intros u Hu. apply firstOccurrences_complete; [ exact Hu | simpl; tauto ].
Qed.

End Dedup.

(** The primary path of [scrapeVideoSources] returns the deduplicated
    concatenation of the two collected lists. *)
Lemma scrapeVideoSources_primary
    (env : Env) (w : World) (p : Page)
    (videoSources imdbVideoSources : list VideoSource.t) :
  page w = Some p ->
  page_waitForSelector env (tick w) p "video" = Returns tt ->
  page_videos env (S (tick w)) p = Returns videoSources ->
  page_videos env (S (S (tick w))) p = Returns imdbVideoSources ->
  fst (Scraper.scrapeVideoSources env w)
  = Ok (Scraper.uniqueSources (videoSources ++ imdbVideoSources)).
Proof.
  intros Hpage Hwait Hv Hi.
  unfold Scraper.scrapeVideoSources, Scraper.waitForSelector,
    Scraper.evalVideos, bind, get_page, try_catch, external, ret.
  rewrite Hpage. cbn. rewrite Hwait. cbn. rewrite Hv. cbn. rewrite Hi.
  reflexivity.
Qed.

(* ================================================================== *)
(** ** Rules for triples *)
(* ================================================================== *)

Section Rules.

Context {A B : Type}.

Lemma triple_ret (P : World -> Prop) (a : A) (Q : result A -> World -> Prop) :
  (forall w, P w -> Q (Ok a) w) -> triple P (ret a) Q.
Proof. intros H env w Hw. apply H. exact Hw. Qed.

Lemma triple_throw (P : World -> Prop) (e : thrown)
                   (Q : result A -> World -> Prop) :
  (forall w, P w -> Q (Throw e) w) -> triple P (throw e) Q.
Proof. intros H env w Hw. apply H. exact Hw. Qed.

Lemma triple_bind (P : World -> Prop) (m : M A) (k : A -> M B)
                  (R : A -> World -> Prop) (Q : result B -> World -> Prop) :
  triple P m (fun r w => match r with
                         | Ok a => R a w
                         | Throw e => Q (Throw e) w
                         end) ->
  (forall a, triple (R a) (k a) Q) ->
  triple P (bind m k) Q.
Proof.
  intros Hm Hk env w Hw. specialize (Hm env w Hw).
  unfold bind. destruct (m env w) as [[a | e] w']; cbn in *.
  - apply Hk. exact Hm.
  - exact Hm.
Qed.

Lemma triple_try_catch (P : World -> Prop) (body : M A)
                       (handler : thrown -> M A)
                       (R : thrown -> World -> Prop)
                       (Q : result A -> World -> Prop) :
  triple P body (fun r w => match r with
                            | Ok a => Q (Ok a) w
                            | Throw e => R e w
                            end) ->
  (forall e, triple (R e) (handler e) Q) ->
  triple P (try_catch body handler) Q.
Proof.
  intros Hb Hh env w Hw. specialize (Hb env w Hw).
  unfold try_catch. destruct (body env w) as [[a | e] w']; cbn in *.
  - exact Hb.
  - apply Hh. exact Hb.
Qed.

Lemma triple_external (P : World -> Prop) (ev : Event)
                      (answer : Env -> nat -> outcome A)
                      (Q : result A -> World -> Prop) :
  (forall w r, P w -> Q r (record ev true w)) ->
  triple P (external ev answer) Q.
Proof.
  intros H env w Hw. unfold external.
  destruct (answer env (tick w)); cbn; apply H; exact Hw.
Qed.

Lemma triple_weaken (P P' : World -> Prop) (m : M A)
                    (Q Q' : result A -> World -> Prop) :
  triple P' m Q' ->
  (forall w, P w -> P' w) ->
  (forall r w, Q' r w -> Q r w) ->
  triple P m Q.
Proof. intros H HP HQ env w Hw. apply HQ, H, HP, Hw. Qed.

End Rules.

Lemma triple_ask {A} (P : World -> Prop) (k : Env -> M A)
                 (Q : result A -> World -> Prop) :
  (forall env, triple P (k env) Q) -> triple P (bind ask k) Q.
Proof. intros H env w Hw. unfold bind, ask. apply H. exact Hw. Qed.

Lemma triple_sleep (P : World -> Prop) (ms : Z)
                   (Q : result unit -> World -> Prop) :
  (forall w, P w -> Q (Ok tt) (record (EvSleep ms) false w)) ->
  triple P (sleep ms) Q.
Proof. intros H env w Hw. apply H. exact Hw. Qed.

(* ================================================================== *)
(** ** The session: [close], [start], [startWithRetry] *)
(* ================================================================== *)

Lemma onFields_pageHasBrowser : onFields pageHasBrowser.
Proof. intros w w' Hb Hp. unfold pageHasBrowser. rewrite Hb, Hp. tauto. Qed.

Lemma onFields_hasBrowser : onFields hasBrowser.
Proof. intros w w' Hb Hp. unfold hasBrowser. rewrite Hb. tauto. Qed.

Lemma hasBrowser_inv (w : World) : hasBrowser w -> pageHasBrowser w.
Proof. unfold hasBrowser, pageHasBrowser. tauto. Qed.

Create HintDb session.

#[local] Hint Resolve onFields_pageHasBrowser onFields_hasBrowser
  hasBrowser_inv : session.

(** An external call does not touch the fields. *)
Lemma external_keeps {A} (P : World -> Prop) (ev : Event)
                     (answer : Env -> nat -> outcome A)
                     (Q : result A -> World -> Prop) :
  onFields P -> (forall r w, P w -> Q r w) ->
  triple P (external ev answer) Q.
Proof.
  intros HP HQ. apply triple_external. intros w r Hw.
  apply HQ. apply (HP w); [ reflexivity | reflexivity | exact Hw ].
Qed.

Lemma sleep_keeps (P : World -> Prop) (ms : Z)
                  (Q : result unit -> World -> Prop) :
  onFields P -> (forall r w, P w -> Q r w) ->
  triple P (sleep ms) Q.
Proof.
  intros HP HQ. apply triple_sleep. intros w Hw.
  apply HQ. apply (HP w); [ reflexivity | reflexivity | exact Hw ].
Qed.

(** [close] never throws. *)
Lemma close_returns (env : Env) (w : World) :
  fst (Scraper.close env w) = Ok tt.
Proof.
  unfold Scraper.close, Scraper.browserClose, try_catch, bind, get_browser,
    external, set_browser, set_page, ret.
  cbn. destruct (browser w) as [ b | ]; [ | reflexivity ].
  destruct (browser_close env (tick w) b); reflexivity.
Qed.

(** [close] with no browser does nothing at all. *)
Lemma close_without_browser (env : Env) (w : World) :
  browser w = None -> Scraper.close env w = (Ok tt, w).
Proof.
  intros Hb.
  unfold Scraper.close, try_catch, bind, get_browser, ret.
  cbn. rewrite Hb. reflexivity.
Qed.

(** What [close] does to the world when there is a browser. *)
Lemma close_with_browser (env : Env) (w : World) (b : Browser) :
  browser w = Some b ->
  snd (Scraper.close env w) =
  match browser_close env (tick w) b with
  | Returns _ =>
      {| browser := None; page := None; tick := S (tick w);
         trace := trace w ++ [EvBrowserClose b] |}
  | Fails _ => record (EvBrowserClose b) true w
  end.
Proof.
  intros Hb.
  unfold Scraper.close, Scraper.browserClose, try_catch, bind, get_browser,
    external, set_browser, set_page, ret.
  cbn. rewrite Hb.
  destruct (browser_close env (tick w) b); reflexivity.
Qed.

(** [close] keeps the invariant: it clears both fields or none. *)
Lemma close_invariant :
  triple pageHasBrowser Scraper.close (fun _ w => pageHasBrowser w).
Proof.
  intros env w Hw.
  destruct (browser w) as [ b | ] eqn:Hb.
  - rewrite (close_with_browser env w b Hb).
    destruct (browser_close env (tick w) b).
    + unfold pageHasBrowser. cbn. congruence.
    + unfold pageHasBrowser, record in *. cbn. exact Hw.
  - rewrite (close_without_browser env w Hb). exact Hw.
Qed.

(** C6. [close] never throws, whatever the teardown does; on a session
    whose browser is null it returns with the world as it was, so no
    teardown is performed; and once a teardown has succeeded, both fields
    are null and closing again, in any environment, does nothing. *)
Theorem close_idempotent_total :
  (forall env w, fst (Scraper.close env w) = Ok tt)
  /\ (forall env w,
        browser w = None ->
        Scraper.close env w = (Ok tt, w)
        /\ teardowns (trace (snd (Scraper.close env w)))
           = teardowns (trace w))
  /\ (forall env w b,
        browser w = Some b ->
        browser_close env (tick w) b = Returns tt ->
        let closed := snd (Scraper.close env w) in
        browser closed = None /\ page closed = None
        /\ forall env', Scraper.close env' closed = (Ok tt, closed)).
Proof.
  split; [ exact close_returns | split ].
  - intros env w Hb. rewrite (close_without_browser env w Hb).
    split; reflexivity.
  - intros env w b Hb Hclose. cbv zeta.
    rewrite (close_with_browser env w b Hb), Hclose.
    split; [ reflexivity | split; [ reflexivity | ] ].
    intros env'. apply close_without_browser. reflexivity.
Qed.

(** When the teardown fails, [close] still returns, and the fields stay
    as they were. *)
Example close_failed_teardown :
  Scraper.close deadEnv openWorld
  = (Ok tt, {| browser := Some (BrowserHandle 0);
               page := Some (PageHandle 0);
               tick := 1;
               trace := [EvBrowserClose (BrowserHandle 0)] |}).
Proof. reflexivity. Qed.

Lemma close_idempotent_total_witness :
  (browser emptyWorld = None
   /\ Scraper.close deadEnv emptyWorld = (Ok tt, emptyWorld))
  /\ (browser openWorld = Some (BrowserHandle 0)
      /\ browser_close calmEnv (tick openWorld) (BrowserHandle 0) = Returns tt
      /\ Scraper.close deadEnv (snd (Scraper.close calmEnv openWorld))
         = (Ok tt, snd (Scraper.close calmEnv openWorld)))
  /\ fst (Scraper.close deadEnv openWorld) = Ok tt.
Proof.
  destruct close_idempotent_total as (Htotal & Hnull & Htwice).
  split; [ | split ].
  - split; [ reflexivity | ].
    exact (proj1 (Hnull deadEnv emptyWorld eq_refl)).
  - split; [ reflexivity | split; [ reflexivity | ] ].
    exact (proj2 (proj2 (Htwice calmEnv openWorld (BrowserHandle 0)
                                eq_refl eq_refl)) deadEnv).
  - exact (Htotal deadEnv openWorld).
Defined.

(** A step that keeps an assertion, as the first half of a [bind]. *)
Lemma triple_bind_keeps {A B} (P : World -> Prop) (m : M A) (k : A -> M B)
                        (Q : result B -> World -> Prop) :
  triple P m (fun _ w => P w) ->
  (forall e w, P w -> Q (Throw e) w) ->
  (forall a, triple P (k a) Q) ->
  triple P (bind m k) Q.
Proof.
  intros Hm Hthrow Hk.
  apply triple_bind with (R := fun _ w => P w); [ | exact Hk ].
  eapply triple_weaken; [ exact Hm | auto | ].
  intros [ a | e ] w Hw; cbn; auto.
Qed.

Lemma set_browser_some {A} (b : Browser) (k : unit -> M A)
                       (P : World -> Prop) (Q : result A -> World -> Prop) :
  (forall u, triple hasBrowser (k u) Q) ->
  triple P (bind (set_browser (Some b)) k) Q.
Proof.
  intros Hk env w _. unfold bind, set_browser.
  apply Hk. unfold hasBrowser. cbn. discriminate.
Qed.

Lemma set_page_some {A} (p : Page) (k : unit -> M A)
                    (Q : result A -> World -> Prop) :
  (forall u, triple hasBrowser (k u) Q) ->
  triple hasBrowser (bind (set_page (Some p)) k) Q.
Proof.
  intros Hk env w Hw. unfold bind, set_page.
  apply Hk. exact Hw.
Qed.

(** Closes a step that is one external call or one sleep. *)
Ltac keeps :=
  first [ apply external_keeps | apply sleep_keeps ];
  [ auto with session
  | intros [ ? | ? ] ? ?; cbn; auto with session ].

(** The steps that follow the launch: they all keep the browser. *)
Lemma page_steps_keep_browser (b : Browser) (navigate : Page -> M unit) :
  (forall p, triple hasBrowser (navigate p) (fun _ w => hasBrowser w)) ->
  triple hasBrowser
    (p <- Scraper.newPage b;;
     set_page (Some p);;
     Scraper.setUserAgent p Scraper.userAgent;;
     Scraper.setViewport p 1920 1080;;
     navigate p;;
     sleep 3000)
    (fun _ w => hasBrowser w).
Proof.
  intros Hnav.
  apply triple_bind_keeps; [ keeps | auto | intros p ].
  apply set_page_some. intros _.
  apply triple_bind_keeps; [ keeps | auto | intros _ ].
  apply triple_bind_keeps; [ keeps | auto | intros _ ].
  apply triple_bind_keeps; [ apply Hnav | auto | intros _ ].
  keeps.
Qed.

Lemma start_invariant (link : string) :
  triple pageHasBrowser (Scraper.start link) (fun _ w => pageHasBrowser w).
Proof.
  unfold Scraper.start.
  apply triple_try_catch with (R := fun _ w => pageHasBrowser w).
  - apply triple_ask. intros env.
    apply triple_bind with (R := fun _ w => pageHasBrowser w).
    + apply triple_try_catch with (R := fun _ w => pageHasBrowser w).
      * keeps.
      * intros _. keeps.
    + intros b. apply set_browser_some. intros _.
      eapply triple_weaken;
        [ apply (page_steps_keep_browser b
                   (fun p => Scraper.goto p (Scraper.scraperApiUrl env link) 60000))
        | auto | ].
      * intros p. keeps.
      * intros [ ? | ? ] ? ?; auto with session.
  - intros error.
    apply triple_bind_keeps; [ apply close_invariant | auto | intros _ ].
    apply triple_throw. auto.
Qed.

Lemma tryStrategies_invariant (l : list LaunchOptions) :
  triple pageHasBrowser (Scraper.tryStrategies l)
    (fun r w => match r with
                | Ok true => hasBrowser w
                | _ => pageHasBrowser w
                end).
Proof.
  induction l as [ | strategy rest IH ]; cbn [Scraper.tryStrategies].
  - apply triple_ret. auto.
  - apply triple_try_catch with (R := fun _ w => pageHasBrowser w);
      [ | intros _; exact IH ].
    apply triple_bind with (R := fun _ w => pageHasBrowser w).
    + keeps.
    + intros b. apply set_browser_some. intros _.
      apply triple_ret. auto.
Qed.

Lemma attemptStart_invariant (link : string) :
  triple pageHasBrowser (Scraper.attemptStart link)
         (fun _ w => pageHasBrowser w).
Proof.
  unfold Scraper.attemptStart.
  apply triple_ask. intros env.
  eapply triple_bind; [ | intros launched ].
  - eapply triple_weaken;
      [ apply tryStrategies_invariant | auto | ].
    instantiate (1 := fun launched w =>
                        if launched then hasBrowser w else pageHasBrowser w).
    intros [ [ | ] | e ] w Hw; cbn; auto.
  - destruct launched; cbn [negb].
    + intros env' w Hw. unfold bind, get_browser. cbn.
      destruct (browser w) as [ b | ] eqn:Hb.
      * apply hasBrowser_inv.
        apply (page_steps_keep_browser b
                 (fun p => try_catch (Scraper.goto p link 30000)
                             (fun _ => Scraper.goto p
                                         (Scraper.scraperApiUrl env link) 60000)));
          [ | exact Hw ].
        intros p.
        apply triple_try_catch with (R := fun _ w => hasBrowser w).
        -- keeps.
        -- intros _. keeps.
      * apply hasBrowser_inv. exact Hw.
    + apply triple_throw. auto.
Qed.

Lemma attempts_invariant (remaining attempt maxRetries : nat) (link : string)
                         (lastError : option thrown) :
  triple pageHasBrowser
         (Scraper.attempts remaining attempt maxRetries link lastError)
         (fun _ w => pageHasBrowser w).
Proof.
  revert attempt lastError.
  induction remaining as [ | remaining IH ]; intros attempt lastError;
    cbn [Scraper.attempts].
  - apply triple_throw. auto.
  - apply triple_try_catch with (R := fun _ w => pageHasBrowser w).
    + eapply triple_weaken; [ apply attemptStart_invariant | auto | ].
      intros [ ? | ? ] ? ?; assumption.
    + intros error.
      apply triple_bind_keeps; [ apply close_invariant | auto | intros _ ].
      destruct (attempt =? maxRetries)%nat.
      * apply triple_throw. auto.
      * apply triple_bind_keeps; [ keeps | auto | intros _ ].
        apply IH.
Qed.

Lemma startWithRetry_invariant (link : string) (maxRetries : nat) :
  triple pageHasBrowser (Scraper.startWithRetry link maxRetries)
         (fun _ w => pageHasBrowser w).
Proof. apply attempts_invariant. Qed.

Lemma triple_get_page {A} (P : World -> Prop) (k : option Page -> M A)
                      (Q : result A -> World -> Prop) :
  (forall p, triple P (k p) Q) -> triple P (bind get_page k) Q.
Proof. intros H env w Hw. unfold bind, get_page. apply H. exact Hw. Qed.

Lemma scrapeTrending_invariant (link : string) :
  triple pageHasBrowser (Scraper.scrapeTrending link)
         (fun _ w => pageHasBrowser w).
Proof.
  unfold Scraper.scrapeTrending.
  apply triple_try_catch with (R := fun _ w => pageHasBrowser w).
  - apply triple_bind_keeps;
      [ apply startWithRetry_invariant | auto | intros _ ].
    apply triple_get_page. intros [ p | ]; [ | apply triple_throw; auto ].
    apply triple_bind_keeps; [ keeps | auto | intros _ ].
    apply triple_bind_keeps; [ keeps | auto | intros movieList ].
    apply triple_bind_keeps; [ apply close_invariant | auto | intros _ ].
    destruct (List.length movieList =? 0)%nat; apply triple_ret; auto.
  - intros _.
    apply triple_bind_keeps; [ apply close_invariant | auto | intros _ ].
    apply triple_ret. auto.
Qed.

Lemma scrapePoster_invariant :
  triple pageHasBrowser Scraper.scrapePoster (fun _ w => pageHasBrowser w).
Proof.
  unfold Scraper.scrapePoster.
  apply triple_get_page. intros [ p | ]; [ | apply triple_throw; auto ].
  apply triple_try_catch with (R := fun _ w => pageHasBrowser w).
  - unfold Scraper.posterPrimary, Scraper.evaluate.
    apply triple_bind_keeps; [ keeps | auto | intros _ ].
    apply triple_bind_keeps; [ | auto | intros posterUrl ].
    + apply triple_bind_keeps; [ keeps | auto | intros doc ].
      apply triple_ret. auto.
    + destruct posterUrl as [ url | ]; [ destruct (truthy url) | ];
        apply triple_ret; auto.
  - intros _. unfold Scraper.posterFallback, Scraper.evaluate.
    apply triple_try_catch with (R := fun _ w => pageHasBrowser w).
    + apply triple_bind_keeps; [ keeps | auto | intros doc ].
      apply triple_ret. auto.
    + intros _. apply triple_ret. auto.
Qed.

Lemma scrapeVideoSources_invariant :
  triple pageHasBrowser Scraper.scrapeVideoSources
         (fun _ w => pageHasBrowser w).
Proof.
  unfold Scraper.scrapeVideoSources, Scraper.evalVideos.
  apply triple_get_page. intros [ p | ]; [ | apply triple_throw; auto ].
  apply triple_try_catch with (R := fun _ w => pageHasBrowser w).
  - apply triple_bind_keeps; [ keeps | auto | intros _ ].
    apply triple_bind_keeps; [ keeps | auto | intros videoSources ].
    apply triple_bind_keeps; [ keeps | auto | intros imdbVideoSources ].
    apply triple_ret. auto.
  - intros _.
    apply triple_try_catch with (R := fun _ w => pageHasBrowser w).
    + apply triple_bind_keeps; [ keeps | auto | intros fallbackSources ].
      apply triple_ret. auto.
    + intros _. apply triple_ret. auto.
Qed.

(** C9. Whenever the page field is non-null, so is the browser field:
    this holds when both fields are null, and every operation of the
    session keeps it, whether it returns or throws and whatever the
    environment answers: [start], [startWithRetry], [close], and the
    extractors [scrapeTrending], [scrapePoster], [scrapeVideoSources]. *)
Theorem page_implies_browser_invariant :
  (forall t events,
     pageHasBrowser {| browser := None; page := None;
                       tick := t; trace := events |})
  /\ (forall link,
        triple pageHasBrowser (Scraper.start link)
               (fun _ w => pageHasBrowser w))
  /\ (forall link maxRetries,
        triple pageHasBrowser (Scraper.startWithRetry link maxRetries)
               (fun _ w => pageHasBrowser w))
  /\ triple pageHasBrowser Scraper.close (fun _ w => pageHasBrowser w)
  /\ (forall link,
        triple pageHasBrowser (Scraper.scrapeTrending link)
               (fun _ w => pageHasBrowser w))
  /\ triple pageHasBrowser Scraper.scrapePoster (fun _ w => pageHasBrowser w)
  /\ triple pageHasBrowser Scraper.scrapeVideoSources
            (fun _ w => pageHasBrowser w).
Proof.
  split; [ intros t events; unfold pageHasBrowser; cbn; congruence | ].
  split; [ exact start_invariant | ].
  split; [ exact startWithRetry_invariant | ].
  split; [ exact close_invariant | ].
  split; [ exact scrapeTrending_invariant | ].
  split; [ exact scrapePoster_invariant | exact scrapeVideoSources_invariant ].
Qed.

Lemma page_implies_browser_invariant_witness :
  pageHasBrowser openWorld
  /\ pageHasBrowser (snd (Scraper.start "https://www.imdb.com/title/tt0111161/"
                                        deadEnv openWorld))
  /\ pageHasBrowser
       (snd (Scraper.startWithRetry "https://www.imdb.com/title/tt0111161/" 3
                                    calmEnv emptyWorld))
  /\ pageHasBrowser (snd (Scraper.close deadEnv openWorld)).
Proof.
  assert (Hopen : pageHasBrowser openWorld)
    by (unfold pageHasBrowser; cbn; congruence).
  destruct page_implies_browser_invariant
    as (Hinit & Hstart & Hretry & Hclose & _).
  split; [ exact Hopen | split; [ | split ] ].
  - exact (Hstart _ deadEnv openWorld Hopen).
  - exact (Hretry _ 3 calmEnv emptyWorld (Hinit 0 [])).
  - exact (Hclose deadEnv openWorld Hopen).
Defined.

(* ================================================================== *)
(** ** [startWithRetry]: the launch strategies *)
(* ================================================================== *)

Lemma failUntil_tail (env : Env) (t : nat) (o : LaunchOptions)
                     (l : list LaunchOptions) (k : nat) :
  failUntil env t (o :: l) (S k) -> failUntil env (S t) l k.
Proof.
  intros H j o' Hj Hnth.
  destruct (H (S j) o' ltac:(lia) Hnth) as [message Hm].
  exists message. rewrite <- Hm. f_equal. lia.
Qed.

(** The first strategy that returns supplies the browser, and the later
    ones are not tried. *)
Lemma tryStrategies_first_success
    (l : list LaunchOptions) (env : Env) (w : World) (k : nat)
    (o : LaunchOptions) (b : Browser) :
  nth_error l k = Some o ->
  failUntil env (tick w) l k ->
  puppeteer_launch env (k + tick w) o = Returns b ->
  Scraper.tryStrategies l env w =
  (Ok true, {| browser := Some b; page := page w; tick := S k + tick w;
               trace := trace w ++ map EvLaunch (firstn (S k) l) |}).
Proof.
  revert w k. induction l as [ | s rest IH ]; intros w k Hnth Hfail Hret.
  - destruct k; discriminate.
  - cbn [Scraper.tryStrategies].
    unfold try_catch, bind, Scraper.launch, external, set_browser, ret.
    destruct k as [ | k ].
    + injection Hnth as ->. cbn in Hret. rewrite Hret. reflexivity.
    + destruct (Hfail 0 s ltac:(lia) eq_refl) as [message Hm].
      cbn in Hm. rewrite Hm.
      rewrite (IH (record (EvLaunch s) true w) k Hnth).
      * cbn. rewrite <- app_assoc. do 3 f_equal. lia.
      * cbn. exact (failUntil_tail _ _ _ _ _ Hfail).
      * cbn. rewrite <- Hret. f_equal. lia.
Qed.

(** When every strategy throws, the loop ends with [browserLaunched]
    false and the [browser] field as it was. *)
Lemma tryStrategies_all_fail
    (l : list LaunchOptions) (env : Env) (w : World) :
  failUntil env (tick w) l (List.length l) ->
  Scraper.tryStrategies l env w =
  (Ok false, {| browser := browser w; page := page w;
                tick := List.length l + tick w;
                trace := trace w ++ map EvLaunch l |}).
Proof.
  revert w. induction l as [ | s rest IH ]; intros w Hfail.
  - cbn. rewrite app_nil_r. destruct w; reflexivity.
  - cbn [Scraper.tryStrategies].
    unfold try_catch, bind, Scraper.launch, external, set_browser, ret.
    destruct (Hfail 0 s ltac:(cbn; lia) eq_refl) as [message Hm].
    cbn in Hm. rewrite Hm.
    rewrite (IH (record (EvLaunch s) true w)).
    + cbn. rewrite <- app_assoc. do 3 f_equal. lia.
    + cbn. exact (failUntil_tail _ _ _ _ _ Hfail).
Qed.

(** The loop reports failure only when every strategy has thrown. *)
Lemma tryStrategies_false
    (l : list LaunchOptions) (env : Env) (w : World) :
  fst (Scraper.tryStrategies l env w) = Ok false ->
  failUntil env (tick w) l (List.length l).
Proof.
  revert w. induction l as [ | s rest IH ]; intros w Hres j o Hj Hnth.
  - cbn in Hj. lia.
  - cbn [Scraper.tryStrategies] in Hres.
    unfold try_catch, bind, Scraper.launch, external, set_browser, ret
      in Hres.
    destruct (puppeteer_launch env (tick w) s) as [ b | message ] eqn:Hs;
      [ discriminate | ].
    destruct j as [ | j ].
    + injection Hnth as <-. exists message. exact Hs.
    + destruct (IH _ Hres j o ltac:(cbn in Hj; lia) Hnth) as [m Hm].
      exists m. rewrite <- Hm. cbn. f_equal. lia.
Qed.

(** An attempt whose launch loop left the browser [b]: what the page
    steps make of it. *)
Lemma attemptStart_page_steps
    (link : string) (env : Env) (w w1 : World) (b : Browser) :
  Scraper.tryStrategies (Scraper.strategies env) env w = (Ok true, w1) ->
  browser w1 = Some b ->
  match browser_newPage env (tick w1) b with
  | Fails _ => exists e, fst (Scraper.attemptStart link env w) = Throw e
  | Returns p =>
      match page_setUserAgent env (1 + tick w1) p Scraper.userAgent with
      | Fails _ => exists e, fst (Scraper.attemptStart link env w) = Throw e
      | Returns _ =>
          match page_setViewport env (2 + tick w1) p 1920 1080 with
          | Fails _ =>
              exists e, fst (Scraper.attemptStart link env w) = Throw e
          | Returns _ =>
              match page_goto env (3 + tick w1) p link with
              | Returns _ =>
                  Scraper.attemptStart link env w
                  = (Ok tt,
                     {| browser := Some b; page := Some p;
                        tick := 4 + tick w1;
                        trace := trace w1
                                 ++ [ EvNewPage b;
                                      EvSetUserAgent p Scraper.userAgent;
                                      EvSetViewport p 1920 1080 ]
                                 ++ [ EvGoto p link 30000 ]
                                 ++ [ EvSleep 3000 ] |})
              | Fails _ =>
                  match page_goto env (4 + tick w1) p
                                  (Scraper.scraperApiUrl env link) with
                  | Returns _ =>
                      Scraper.attemptStart link env w
                      = (Ok tt,
                         {| browser := Some b; page := Some p;
                            tick := 5 + tick w1;
                            trace := trace w1
                                     ++ [ EvNewPage b;
                                          EvSetUserAgent p Scraper.userAgent;
                                          EvSetViewport p 1920 1080 ]
                                     ++ [ EvGoto p link 30000;
                                          EvGoto p
                                            (Scraper.scraperApiUrl env link)
                                            60000 ]
                                     ++ [ EvSleep 3000 ] |})
                  | Fails _ =>
                      exists e,
                        fst (Scraper.attemptStart link env w) = Throw e
                  end
              end
          end
      end
  end.
Proof.
  intros Hlaunch Hb.
  remember (Scraper.attemptStart link env w) as run eqn:Hrun.
  unfold Scraper.attemptStart, bind at 1, ask in Hrun.
  unfold bind at 1 in Hrun. rewrite Hlaunch in Hrun. cbn [negb] in Hrun.
  unfold bind, get_browser, Scraper.newPage, Scraper.setUserAgent,
    Scraper.setViewport, Scraper.goto, try_catch, external, set_page,
    sleep, record, ret, throw in Hrun.
  rewrite Hb in Hrun. cbn [Nat.add].
  destruct (browser_newPage env (tick w1) b) as [ p | m ];
    cbn [browser page tick trace] in Hrun;
    [ | subst run; eexists; reflexivity ].
  destruct (page_setUserAgent env (S (tick w1)) p Scraper.userAgent)
    as [ [] | m ]; cbn [browser page tick trace] in Hrun;
    [ | subst run; eexists; reflexivity ].
  destruct (page_setViewport env (S (S (tick w1))) p 1920 1080)
    as [ [] | m ]; cbn [browser page tick trace] in Hrun;
    [ | subst run; eexists; reflexivity ].
  destruct (page_goto env (S (S (S (tick w1)))) p link) as [ [] | m ];
    cbn [browser page tick trace] in Hrun.
  - subst run. rewrite ?Hb. repeat rewrite <- app_assoc. reflexivity.
  - destruct (page_goto env (S (S (S (S (tick w1))))) p
                        (Scraper.scraperApiUrl env link)) as [ [] | m' ];
      cbn [browser page tick trace] in Hrun;
      [ | subst run; eexists; reflexivity ].
    subst run. rewrite ?Hb. repeat rewrite <- app_assoc. reflexivity.
Qed.

(** C8, amended. In an attempt of [startWithRetry] the launch strategies
    are tried in order and the first one that returns supplies the
    browser: when the strategies before number [k] throw and that one
    returns [b], the launch loop ends with [b] in the [browser] field
    after exactly those launches, the later strategies not being tried.
    When the page steps then succeed, [startWithRetry] returns within
    that same attempt, with the page opened on [b], with no teardown and
    no retry delay. The launch loop reports failure exactly when all the
    strategies have thrown, and the attempt then throws "All browser
    launch strategies failed". But an attempt whose browser launched
    fails too, exactly when its page steps do not succeed. *)
Theorem first_launched_strategy_supplies_browser
    (env : Env) (w : World) (link : string) (maxRetries k : nat)
    (o : LaunchOptions) (b : Browser) :
  1 <= maxRetries ->
  nth_error (Scraper.strategies env) k = Some o ->
  failUntil env (tick w) (Scraper.strategies env) k ->
  puppeteer_launch env (k + tick w) o = Returns b ->
  let launches := map EvLaunch (firstn (S k) (Scraper.strategies env)) in
  Scraper.tryStrategies (Scraper.strategies env) env w =
    (Ok true, {| browser := Some b; page := page w; tick := S k + tick w;
                 trace := trace w ++ launches |})
  /\ (forall p,
        pageStepsSucceed env (S k + tick w) b link p ->
        exists loads,
          (loads = [ EvGoto p link 30000 ]
           \/ loads = [ EvGoto p link 30000;
                        EvGoto p (Scraper.scraperApiUrl env link) 60000 ])
          /\ Scraper.startWithRetry link maxRetries env w =
             (Ok tt,
              {| browser := Some b; page := Some p;
                 tick := List.length loads + (3 + (S k + tick w));
                 trace := trace w ++ launches
                          ++ [ EvNewPage b;
                               EvSetUserAgent p Scraper.userAgent;
                               EvSetViewport p 1920 1080 ]
                          ++ loads ++ [ EvSleep 3000 ] |}))
  /\ ((exists e, fst (Scraper.attemptStart link env w) = Throw e) <->
      ~ exists p, pageStepsSucceed env (S k + tick w) b link p)
  /\ (forall w',
        fst (Scraper.tryStrategies (Scraper.strategies env) env w') = Ok false
        <-> failUntil env (tick w') (Scraper.strategies env)
                      (List.length (Scraper.strategies env)))
  /\ (forall w',
        failUntil env (tick w') (Scraper.strategies env)
                  (List.length (Scraper.strategies env)) ->
        fst (Scraper.attemptStart link env w')
        = Throw (JsError "All browser launch strategies failed")).
Proof.
  intros Hmax Hnth Hfail Hret. cbv zeta.
  pose proof (tryStrategies_first_success _ env w k o b Hnth Hfail Hret)
    as Hlaunch.
  pose proof (attemptStart_page_steps link env w _ b Hlaunch eq_refl)
    as Hsteps.
  cbn [tick trace] in Hsteps.
  split; [ exact Hlaunch | split; [ | split; [ | split ] ] ].
  - intros p (Hp & Hua & Hvp & Hgo).
    rewrite Hp, Hua, Hvp in Hsteps.
    assert (Hattempt : forall w1,
              Scraper.attemptStart link env w = (Ok tt, w1) ->
              Scraper.startWithRetry link maxRetries env w = (Ok tt, w1)).
    { intros w1 H. destruct maxRetries as [ | n ]; [ lia | ].
      unfold Scraper.startWithRetry. cbn [Scraper.attempts].
      unfold try_catch at 1. rewrite H. reflexivity. }
    destruct Hgo as [ Hgo | [ [m Hgo] Hgw ] ].
    + rewrite Hgo in Hsteps.
      exists [ EvGoto p link 30000 ]. split; [ left; reflexivity | ].
      rewrite (Hattempt _ Hsteps). cbn [List.length Nat.add].
      repeat rewrite <- app_assoc. reflexivity.
    + rewrite Hgo, Hgw in Hsteps.
      exists [ EvGoto p link 30000;
               EvGoto p (Scraper.scraperApiUrl env link) 60000 ].
      split; [ right; reflexivity | ].
      rewrite (Hattempt _ Hsteps). cbn [List.length Nat.add].
      repeat rewrite <- app_assoc. reflexivity.
  - unfold pageStepsSucceed.
    destruct (browser_newPage env (S k + tick w) b) as [ p | m ] eqn:Hp.
    2:{ split; [ intros _ (p & H & _); discriminate | intros _; exact Hsteps ]. }
    destruct (page_setUserAgent env (1 + (S k + tick w)) p Scraper.userAgent)
      as [ [] | m ] eqn:Hua.
    2:{ split; [ | intros _; exact Hsteps ].
        intros _ (p' & [= <-] & H & _). congruence. }
    destruct (page_setViewport env (2 + (S k + tick w)) p 1920 1080)
      as [ [] | m ] eqn:Hvp.
    2:{ split; [ | intros _; exact Hsteps ].
        intros _ (p' & [= <-] & _ & H & _). congruence. }
    destruct (page_goto env (3 + (S k + tick w)) p link) as [ [] | m ] eqn:Hgo.
    { split.
      - intros [e He]. rewrite Hsteps in He. discriminate.
      - intros Hno. exfalso. apply Hno. exists p. auto. }
    destruct (page_goto env (4 + (S k + tick w)) p
                        (Scraper.scraperApiUrl env link))
      as [ [] | m' ] eqn:Hgw.
    { split.
      - intros [e He]. rewrite Hsteps in He. discriminate.
      - intros Hno. exfalso. apply Hno. exists p.
        split; [ reflexivity | split; [ exact Hua | split; [ exact Hvp | ] ] ].
        right. split; [ eauto | exact Hgw ]. }
    split; [ | intros _; exact Hsteps ].
    intros _ (p' & [= <-] & _ & _ & [ H | [ _ H ] ]); congruence.
  - intros w'. split.
    + intros Hres. exact (tryStrategies_false _ env w' Hres).
    + intros Hall. rewrite (tryStrategies_all_fail _ env w' Hall).
      reflexivity.
  - intros w' Hall.
    unfold Scraper.attemptStart, bind at 1, ask. unfold bind at 1.
    rewrite (tryStrategies_all_fail _ env w' Hall). reflexivity.
Qed.

Lemma first_launched_strategy_supplies_browser_witness :
  1 <= 3
  /\ Scraper.startWithRetry "https://www.imdb.com/title/tt0111161/" 3
                            thirdStrategyEnv emptyWorld
     = (Ok tt,
        {| browser := Some (BrowserHandle 2); page := Some (PageHandle 3);
           tick := 7;
           trace :=
             map EvLaunch (Scraper.strategies thirdStrategyEnv)
             ++ [ EvNewPage (BrowserHandle 2);
                  EvSetUserAgent (PageHandle 3) Scraper.userAgent;
                  EvSetViewport (PageHandle 3) 1920 1080;
                  EvGoto (PageHandle 3)
                         "https://www.imdb.com/title/tt0111161/" 30000;
                  EvSleep 3000 ] |}).
Proof.
  assert (Hmax : 1 <= 3) by lia.
  split; [ exact Hmax | ].
  assert (Hfail : failUntil thirdStrategyEnv (tick emptyWorld)
                            (Scraper.strategies thirdStrategyEnv) 2).
  { intros j o Hj Hnth.
    destruct j as [ | [ | j ] ]; [ | | lia ];
      exists "Failed to launch the browser process"; reflexivity. }
  destruct (first_launched_strategy_supplies_browser
              thirdStrategyEnv emptyWorld
              "https://www.imdb.com/title/tt0111161/" 3 2 _
              (BrowserHandle 2) Hmax eq_refl Hfail eq_refl)
    as (_ & Hrun & _).
  destruct (Hrun (PageHandle 3)) as (loads & Hloads & Hstart).
  { repeat split. left. reflexivity. }
  destruct Hloads as [ -> | -> ]; [ rewrite Hstart; reflexivity | ].
  assert (Htick : tick (snd (Scraper.startWithRetry
                               "https://www.imdb.com/title/tt0111161/" 3
                               thirdStrategyEnv emptyWorld)) = 7)
    by reflexivity.
  rewrite Hstart in Htick. discriminate Htick.
Defined.

(** C8 as worded fails: where the first strategy launches a browser that
    opens no page, the attempt fails although a strategy succeeded. *)
Lemma attempt_fails_after_launch_counterexample :
  ~ failsOnlyWhenAllStrategiesFail "https://www.imdb.com/title/tt0111161/"
                                   noPageEnv emptyWorld.
Proof.
  intros H.
  destruct (H _ eq_refl 0 _ ltac:(cbn; lia) eq_refl) as [message Hm].
  discriminate Hm.
Qed.

(* ================================================================== *)
(** ** The trending list *)
(* ================================================================== *)

Lemma trim_nonempty_truthy (s : string) : trim s <> "" -> truthy s = true.
Proof. destruct s; [ intros H; exact (False_ind _ (H eq_refl)) | reflexivity ]. Qed.

(** The predicate of the filter, in the words of the specification. *)
Lemma validMovie_spec (movie : Movie.t) :
  Scraper.validMovie movie = true <->
  trim (Movie.title movie) <> "" /\ startsWith (Movie.imdbId movie) "tt" = true.
Proof.
  unfold Scraper.validMovie. split.
  - intros H.
    apply andb_prop in H. destruct H as [H Htt].
    apply andb_prop in H. destruct H as [H _].
    apply andb_prop in H. destruct H as [_ Htrim].
    split; [ | exact Htt ].
    intros Heq. rewrite Heq in Htrim. discriminate.
  - intros [Htrim Htt].
    rewrite (trim_nonempty_truthy _ Htrim).
    rewrite (startsWith_truthy _ "tt") by (discriminate || exact Htt).
    rewrite Htt.
    destruct (String.eqb_spec (trim (Movie.title movie)) "");
      [ contradiction | reflexivity ].
Qed.

Lemma filter_Subsequence {A} (f : A -> bool) (l : list A) :
  Subsequence (filter f l) l.
Proof.
  induction l as [ | x l IH ]; simpl; [ constructor | ].
  destruct (f x); constructor; exact IH.
Qed.

(** The value of [scrapeTrending], stage by stage. *)
Lemma scrapeTrending_run (link : string) (env : Env) (w : World) :
  fst (Scraper.scrapeTrending link env w) =
  match Scraper.startWithRetry link 3 env w with
  | (Throw _, _) => Ok []
  | (Ok _, w1) =>
      match page w1 with
      | None => Ok []
      | Some p =>
          match page_waitForSelector env (tick w1) p trendingSelector with
          | Fails _ => Ok []
          | Returns _ =>
              match page_trending env (S (tick w1)) p with
              | Fails _ => Ok []
              | Returns raw => Ok (filter Scraper.validMovie raw)
              end
          end
      end
  end.
Proof.
  assert (Hclose : forall w0, exists w0', Scraper.close env w0 = (Ok tt, w0')).
  { intros w0. pose proof (close_returns env w0) as H.
    destruct (Scraper.close env w0) as [r w0']. cbn in H. subst r. eauto. }
  unfold Scraper.scrapeTrending, try_catch, bind at 1.
  destruct (Scraper.startWithRetry link 3 env w) as [ [ u | e ] w1 ].
  - unfold bind at 1, get_page.
    destruct (page w1) as [ p | ].
    + unfold bind at 1, Scraper.waitForSelector, external, trendingSelector.
      destruct (page_waitForSelector env (tick w1) p _).
      * unfold bind at 1, Scraper.evalTrending, external. cbn [tick record].
        destruct (page_trending env (S (tick w1)) p) as [ raw | m ].
        -- unfold bind at 1.
           match goal with
           | |- context [Scraper.close env ?w0] =>
               destruct (Hclose w0) as [wc ->]
           end.
           destruct raw as [ | movie raw ]; reflexivity.
        -- unfold bind.
           match goal with
           | |- context [Scraper.close env ?w0] =>
               destruct (Hclose w0) as [wc ->]
           end.
           reflexivity.
      * unfold bind.
        match goal with
        | |- context [Scraper.close env ?w0] =>
            destruct (Hclose w0) as [wc ->]
        end.
        reflexivity.
    + unfold throw, bind. destruct (Hclose w1) as [wc ->]. reflexivity.
  - unfold bind. destruct (Hclose w1) as [wc ->]. reflexivity.
Qed.

(** C2. When the session starts and the selector wait and the in-page
    evaluation succeed, [scrapeTrending] returns the raw list filtered: an
    item of the raw list is in the result exactly when its title is not
    empty after trimming and its identifier starts with "tt", and the
    result keeps the order of the raw list. *)
Theorem scrapeTrending_keeps_valid_items
    (link : string) (env : Env) (w w1 : World) (p : Page)
    (raw : list Movie.t) :
  Scraper.startWithRetry link 3 env w = (Ok tt, w1) ->
  page w1 = Some p ->
  page_waitForSelector env (tick w1) p trendingSelector = Returns tt ->
  page_trending env (S (tick w1)) p = Returns raw ->
  exists kept,
    fst (Scraper.scrapeTrending link env w) = Ok kept
    /\ (forall movie,
          In movie kept <->
          In movie raw
          /\ trim (Movie.title movie) <> ""
          /\ startsWith (Movie.imdbId movie) "tt" = true)
    /\ Subsequence kept raw.
Proof.
  intros Hstart Hpage Hwait Heval.
  exists (filter Scraper.validMovie raw).
  split; [ | split ].
  - rewrite scrapeTrending_run, Hstart, Hpage, Hwait, Heval. reflexivity.
  - intros movie. rewrite filter_In, validMovie_spec. tauto.
  - apply filter_Subsequence.
Qed.

Lemma scrapeTrending_keeps_valid_items_witness :
  Scraper.startWithRetry trendingUrl 3 mixedEnv emptyWorld
  = (Ok tt, snd (Scraper.startWithRetry trendingUrl 3 mixedEnv emptyWorld))
  /\ page (snd (Scraper.startWithRetry trendingUrl 3 mixedEnv emptyWorld))
     = Some (PageHandle 1)
  /\ exists kept,
       fst (Scraper.scrapeTrending trendingUrl mixedEnv emptyWorld) = Ok kept
       /\ (forall movie,
             In movie kept <->
             In movie mixedTrending
             /\ trim (Movie.title movie) <> ""
             /\ startsWith (Movie.imdbId movie) "tt" = true)
       /\ Subsequence kept mixedTrending.
Proof.
  assert (H1 : Scraper.startWithRetry trendingUrl 3 mixedEnv emptyWorld
    = (Ok tt, snd (Scraper.startWithRetry trendingUrl 3 mixedEnv emptyWorld)))
    by reflexivity.
  assert (H2 : page (snd (Scraper.startWithRetry trendingUrl 3 mixedEnv
                                                 emptyWorld))
               = Some (PageHandle 1)) by reflexivity.
  split; [ exact H1 | split; [ exact H2 | ] ].
  exact (scrapeTrending_keeps_valid_items trendingUrl mixedEnv emptyWorld _
           (PageHandle 1) mixedTrending H1 H2 eq_refl eq_refl).
Defined.

Example scrapeTrending_mixed :
  fst (Scraper.scrapeTrending trendingUrl mixedEnv emptyWorld)
  = Ok [ movie "tt0111161" "The Shawshank Redemption";
         movie "tt0068646" " The Godfather " ].
Proof. reflexivity. Qed.

(** Every entry that [scrapeTrending] returns passes its filter. *)
Lemma scrapeTrending_all_valid (link : string) (env : Env) (w : World)
                               (movies : list Movie.t) :
  fst (Scraper.scrapeTrending link env w) = Ok movies ->
  Forall (fun movie => Scraper.validMovie movie = true) movies.
Proof.
  rewrite scrapeTrending_run.
  destruct (Scraper.startWithRetry link 3 env w) as [ [ u | e ] w1 ];
    [ | intros [= <-]; constructor ].
  destruct (page w1) as [ p | ]; [ | intros [= <-]; constructor ].
  destruct (page_waitForSelector env (tick w1) p trendingSelector);
    [ | intros [= <-]; constructor ].
  destruct (page_trending env (S (tick w1)) p) as [ raw | m ];
    [ | intros [= <-]; constructor ].
  intros [= <-]. rewrite Forall_forall. intros movie Hin.
  apply filter_In in Hin. tauto.
Qed.

Lemma scrapeTrending_returns (link : string) (env : Env) (w : World) :
  exists movies, fst (Scraper.scrapeTrending link env w) = Ok movies.
Proof.
  rewrite scrapeTrending_run.
  destruct (Scraper.startWithRetry link 3 env w) as [ [ u | e ] w1 ];
    [ | eauto ].
  destruct (page w1) as [ p | ]; [ | eauto ].
  destruct (page_waitForSelector env (tick w1) p trendingSelector);
    [ | eauto ].
  destruct (page_trending env (S (tick w1)) p); eauto.
Qed.

(** The controller's own filter keeps everything [scrapeTrending]
    returns. *)
Lemma isValid_of_validMovie (MovieData : Type) (movies : list Movie.t) :
  Forall (fun movie => Scraper.validMovie movie = true) movies ->
  filter (ScraperController.isValid) movies = movies.
Proof.
  induction 1 as [ | movie movies Hm _ IH ]; [ reflexivity | ].
  simpl. rewrite IH.
  unfold Scraper.validMovie in Hm. unfold ScraperController.isValid.
  apply andb_prop in Hm. destruct Hm as [Hm _].
  apply andb_prop in Hm. destruct Hm as [Hm _].
  rewrite Hm. reflexivity.
Qed.

(** The answer of the trending endpoint, from the value of
    [scrapeTrending]: the branch for a list that its own filter empties is
    never taken. *)
Lemma scrapeTrendingMovies_run (MovieData : Type) (env : Env) (w : World) :
  exists movies w',
    Scraper.scrapeTrending trendingUrl env w = (Ok movies, w')
    /\ fst (ScraperController.scrapeTrendingMovies MovieData env w) =
       match movies with
       | [] =>
           Ok {| ScraperController.status := 500;
                 ScraperController.payload :=
                   ScraperController.Failure
                     "Failed to scrape trending movies"
                     "No trending movies found on IMDb" None |}
       | _ =>
           Ok {| ScraperController.status := 200;
                 ScraperController.payload :=
                   ScraperController.TrendingScraped true movies
                     (List.length movies) "trending"
                     (toISOString env (tick w')) |}
       end.
Proof.
  unfold ScraperController.scrapeTrendingMovies, try_catch, bind at 1.
  fold trendingUrl.
  pose proof (scrapeTrending_all_valid trendingUrl env w) as Hvalid.
  destruct (scrapeTrending_returns trendingUrl env w) as [movies Hret].
  destruct (Scraper.scrapeTrending trendingUrl env w) as [ r w' ].
  cbn in Hret, Hvalid. subst r.
  specialize (Hvalid movies eq_refl).
  exists movies, w'. split; [ reflexivity | ].
  destruct movies as [ | movie movies ]; [ reflexivity | ].
  cbn [List.length Nat.eqb].
  rewrite (isValid_of_validMovie MovieData _ Hvalid).
  reflexivity.
Qed.

(** C5, amended. [scrapeTrending] never throws; it returns the empty
    sequence when the session does not start, when the selector wait
    fails, when the evaluation fails, and when the validity filter leaves
    nothing. Whenever [scrapeTrending] returns the empty sequence, the
    trending endpoint answers 500 with the error "Failed to scrape trending
    movies" and the message "No trending movies found on IMDb", not a
    success payload. *)
Theorem scrapeTrending_total_endpoint_500
    (MovieData : Type) (link : string) (env : Env) (w : World) :
  (exists movies, fst (Scraper.scrapeTrending link env w) = Ok movies)
  /\ (forall e w1,
        Scraper.startWithRetry link 3 env w = (Throw e, w1) ->
        fst (Scraper.scrapeTrending link env w) = Ok [])
  /\ (forall w1 p message,
        Scraper.startWithRetry link 3 env w = (Ok tt, w1) ->
        page w1 = Some p ->
        page_waitForSelector env (tick w1) p trendingSelector
        = Fails message ->
        fst (Scraper.scrapeTrending link env w) = Ok [])
  /\ (forall w1 p message,
        Scraper.startWithRetry link 3 env w = (Ok tt, w1) ->
        page w1 = Some p ->
        page_waitForSelector env (tick w1) p trendingSelector = Returns tt ->
        page_trending env (S (tick w1)) p = Fails message ->
        fst (Scraper.scrapeTrending link env w) = Ok [])
  /\ (forall w1 p raw,
        Scraper.startWithRetry link 3 env w = (Ok tt, w1) ->
        page w1 = Some p ->
        page_waitForSelector env (tick w1) p trendingSelector = Returns tt ->
        page_trending env (S (tick w1)) p = Returns raw ->
        filter Scraper.validMovie raw = [] ->
        fst (Scraper.scrapeTrending link env w) = Ok [])
  /\ emptyTrendingAnswers MovieData "No trending movies found on IMDb" env w.
Proof.
  split; [ apply scrapeTrending_returns | ].
  split; [ intros e w1 Hs; rewrite scrapeTrending_run, Hs; reflexivity | ].
  split; [ intros w1 p m Hs Hp Hw;
           rewrite scrapeTrending_run, Hs, Hp, Hw; reflexivity | ].
  split; [ intros w1 p m Hs Hp Hw He;
           rewrite scrapeTrending_run, Hs, Hp, Hw, He; reflexivity | ].
  split; [ intros w1 p raw Hs Hp Hw He Hf;
           rewrite scrapeTrending_run, Hs, Hp, Hw, He, Hf; reflexivity | ].
  intros Hempty.
  destruct (scrapeTrendingMovies_run MovieData env w)
    as (movies & w' & Hrun & Hanswer).
  rewrite Hrun in Hempty. cbn in Hempty. injection Hempty as ->.
  exact Hanswer.
Qed.

Lemma scrapeTrending_total_endpoint_500_witness :
  fst (Scraper.scrapeTrending trendingUrl deadEnv emptyWorld) = Ok []
  /\ fst (ScraperController.scrapeTrendingMovies unit deadEnv emptyWorld)
     = Ok {| ScraperController.status := 500;
             ScraperController.payload :=
               ScraperController.Failure "Failed to scrape trending movies"
                 "No trending movies found on IMDb" None |}.
Proof.
  assert (H : fst (Scraper.scrapeTrending trendingUrl deadEnv emptyWorld)
              = Ok []) by reflexivity.
  split; [ exact H | ].
  exact (proj2 (proj2 (proj2 (proj2 (proj2
    (scrapeTrending_total_endpoint_500 unit trendingUrl deadEnv emptyWorld)))))
    H).
Defined.

(** C5 as worded fails: on a page whose entries are all dropped by the
    validity filter, [scrapeTrending] returns the empty sequence and the
    endpoint answers 500, but not with the message "No valid trending
    movies data found". *)
Lemma empty_trending_message_counterexample :
  ~ emptyTrendingAnswers unit "No valid trending movies data found"
                         invalidOnlyEnv emptyWorld.
Proof.
  intros H. specialize (H eq_refl). vm_compute in H. discriminate.
Qed.

Example invalid_only_answer :
  fst (ScraperController.scrapeTrendingMovies unit invalidOnlyEnv emptyWorld)
  = Ok {| ScraperController.status := 500;
          ScraperController.payload :=
            ScraperController.Failure "Failed to scrape trending movies"
              "No trending movies found on IMDb" None |}.
Proof. reflexivity. Qed.

(* ================================================================== *)
(** ** The gateway client: [scrapeWithRetry] *)
(* ================================================================== *)

Section Gateway.

Import ScraperAPIService.

Variable serialize : list (string * string) -> string.
Variable url : string.
Variable options : ScraperAPIOptions.

Local Abbreviation target := (requestUrl serialize url options).

(** One fetch: the request is made, and a failure is wrapped. *)
Lemma scrapeUrl_run (env : Env) (w : World) :
  scrapeUrl serialize url options env w =
  (match axios_get env (tick w) target with
   | Returns html => Ok html
   | Fails message => Throw (JsError ("Failed to scrape URL: " ++ message))
   end,
   record (EvHttpGet target 60000) true w).
Proof.
  unfold scrapeUrl, try_catch, external, bind, message_of, throw, ret.
  fold target.
  destruct (axios_get env (tick w) target); reflexivity.
Qed.










End Gateway.




(* ================================================================== *)
(** ** The movie endpoint *)
(* ================================================================== *)

(** C7. For every request whose body has no [imdbid], or a falsy one, the
    movie endpoint answers 400 with the fields [error] and [example], and
    the world is left as it was: no external call is made and nothing is
    added to the trace, whatever the scraper method would do, so the
    scraper is not called. *)
Theorem scrapeMovie_missing_imdbid
    (MovieData : Type) (scrapeCompleteMovieData : string -> M MovieData)
    (req : ScraperController.Request)
    (props : string -> ScraperController.jsvalue)
    (env : Env) (w : World) :
  ScraperController.body req = Some props ->
  ScraperController.truthyValue (props "imdbid") = false ->
  ScraperController.scrapeMovie MovieData scrapeCompleteMovieData req env w
  = (Ok {| ScraperController.status := 400;
           ScraperController.payload :=
             ScraperController.MissingField "imdbid is required"
               [("url", "imdbid tt1234567")] |},
     w).
Proof.
  intros Hbody Hfalsy.
  unfold ScraperController.scrapeMovie, try_catch.
  rewrite Hbody, Hfalsy. reflexivity.
Qed.

Lemma scrapeMovie_missing_imdbid_witness :
  ScraperController.body emptyRequest = Some (fun _ => ScraperController.VUndefined)
  /\ ScraperController.scrapeMovie (option string) posterOf emptyRequest
       calmEnv emptyWorld
     = (Ok {| ScraperController.status := 400;
              ScraperController.payload :=
                ScraperController.MissingField "imdbid is required"
                  [("url", "imdbid tt1234567")] |},
        emptyWorld).
Proof.
  assert (H : ScraperController.body emptyRequest
              = Some (fun _ => ScraperController.VUndefined)) by reflexivity.
  split; [ exact H | ].
  exact (scrapeMovie_missing_imdbid (option string) posterOf emptyRequest _
           calmEnv emptyWorld H eq_refl).
Defined.

(** With an identifier the scraper is called, on the title page. *)
Example scrapeMovie_with_imdbid :
  ScraperController.scrapeMovie (option string) posterOf
    {| ScraperController.body :=
         Some (fun name => if String.eqb name "imdbid"
                           then ScraperController.VString "tt0111161"
                           else ScraperController.VUndefined) |}
    calmEnv emptyWorld
  = (Ok {| ScraperController.status := 200;
           ScraperController.payload :=
             ScraperController.MovieScraped true None
               "2024-01-01T00:00:00.000Z" |},
     snd ((Scraper.startWithRetry "https://www.imdb.com/title/tt0111161/" 3;;
           Scraper.scrapePoster) calmEnv emptyWorld)).
Proof. reflexivity. Qed.

(** The falsy values of the field. *)
Example falsy_values :
  map ScraperController.truthyValue
      [ ScraperController.VUndefined; ScraperController.VNull;
        ScraperController.VBool false; ScraperController.VNumber (Fin 0);
        ScraperController.VNumber NaN; ScraperController.VString "" ]
  = [false; false; false; false; false; false].
Proof. reflexivity. Qed.

(* ================================================================== *)
(** ** The session after [start] and [startWithRetry] *)
(* ================================================================== *)

Lemma onFields_sessionOpen : onFields sessionOpen.
Proof.
  intros w w' Hb Hp. unfold sessionOpen. rewrite Hb, Hp. tauto.
Qed.

#[local] Hint Resolve onFields_sessionOpen : session.

Lemma set_page_opens {A} (p : Page) (k : unit -> M A)
                     (Q : result A -> World -> Prop) :
  (forall u, triple sessionOpen (k u) Q) ->
  triple hasBrowser (bind (set_page (Some p)) k) Q.
Proof.
  intros Hk env w Hw. unfold bind, set_page.
  apply Hk. split; [ exact Hw | cbn; discriminate ].
Qed.

(** The page steps end with both handles set, when they return. *)
Lemma page_steps_open (b : Browser) (navigate : Page -> M unit) :
  (forall p, triple sessionOpen (navigate p) (fun _ w => sessionOpen w)) ->
  triple hasBrowser
    (p <- Scraper.newPage b;;
     set_page (Some p);;
     Scraper.setUserAgent p Scraper.userAgent;;
     Scraper.setViewport p 1920 1080;;
     navigate p;;
     sleep 3000)
    (fun r w => match r with Ok _ => sessionOpen w | Throw _ => True end).
Proof.
  intros Hnav.
  apply triple_bind_keeps; [ keeps | auto | intros p ].
  apply set_page_opens. intros _.
  apply triple_bind_keeps; [ keeps | auto | intros _ ].
  apply triple_bind_keeps; [ keeps | auto | intros _ ].
  apply triple_bind_keeps; [ apply Hnav | auto | intros _ ].
  apply sleep_keeps; [ auto with session | ].
  intros [ ? | ? ] ? ?; auto.
Qed.

Lemma tryStrategies_launched (l : list LaunchOptions) :
  triple (fun _ => True) (Scraper.tryStrategies l)
    (fun r w => match r with Ok true => hasBrowser w | _ => True end).
Proof.
  induction l as [ | strategy rest IH ]; cbn [Scraper.tryStrategies].
  - apply triple_ret. auto.
  - apply triple_try_catch with (R := fun _ _ => True);
      [ | intros _; exact IH ].
    apply triple_bind with (R := fun _ _ => True).
    + apply triple_external. intros w [ ? | ? ] _; exact I.
    + intros b. apply set_browser_some. intros _.
      apply triple_ret. auto.
Qed.

Lemma triple_get_browser {A} (P : World -> Prop)
                         (k : option Browser -> M A)
                         (Q : result A -> World -> Prop) :
  (forall b, triple (fun w => P w /\ browser w = b) (k b) Q) ->
  triple P (bind get_browser k) Q.
Proof.
  intros H env w Hw. unfold bind, get_browser.
  apply (H (browser w)). split; [ exact Hw | reflexivity ].
Qed.

Lemma attemptStart_opens (link : string) :
  triple (fun _ => True) (Scraper.attemptStart link)
    (fun r w => match r with Ok _ => sessionOpen w | Throw _ => True end).
Proof.
  unfold Scraper.attemptStart.
  apply triple_ask. intros env.
  eapply triple_bind; [ | intros launched ].
  - eapply triple_weaken; [ apply tryStrategies_launched | auto | ].
    instantiate (1 := fun launched w =>
                        if launched then hasBrowser w else True).
    intros [ [ | ] | e ] w Hw; cbn; auto.
  - destruct launched; cbn [negb]; [ | apply triple_throw; auto ].
    apply triple_get_browser. intros [ b | ];
      [ | apply triple_throw; auto ].
    eapply triple_weaken;
      [ apply (page_steps_open b
                 (fun p => try_catch (Scraper.goto p link 30000)
                             (fun _ => Scraper.goto p
                                         (Scraper.scraperApiUrl env link)
                                         60000)))
      | intros w [Hw _]; exact Hw
      | auto ].
    intros p.
    apply triple_try_catch with (R := fun _ w => sessionOpen w).
    + keeps.
    + intros _. keeps.
Qed.

Lemma attempts_open (remaining attempt maxRetries : nat) (link : string)
                    (lastError : option thrown) :
  triple (fun _ => True)
         (Scraper.attempts remaining attempt maxRetries link lastError)
         (fun r w => match r with Ok _ => sessionOpen w | Throw _ => True end).
Proof.
  revert attempt lastError.
  induction remaining as [ | remaining IH ]; intros attempt lastError;
    cbn [Scraper.attempts].
  - apply triple_throw. auto.
  - apply triple_try_catch with (R := fun _ _ => True).
    + eapply triple_weaken; [ apply attemptStart_opens | auto | ].
      intros [ ? | ? ] ? ?; auto.
    + intros error.
      apply triple_bind with (R := fun _ _ => True).
      * intros env w _.
        destruct (fst (Scraper.close env w)); exact I.
      * intros _. destruct (attempt =? maxRetries)%nat.
        -- apply triple_throw. auto.
        -- apply triple_bind with (R := fun _ _ => True).
           ++ intros env w _. exact I.
           ++ intros _. apply IH.
Qed.

Lemma start_opens (link : string) :
  triple (fun _ => True) (Scraper.start link)
    (fun r w => match r with Ok _ => sessionOpen w | Throw _ => True end).
Proof.
  unfold Scraper.start.
  apply triple_try_catch with (R := fun _ _ => True).
  - apply triple_ask. intros env.
    apply triple_bind with (R := fun _ _ => True).
    + intros env' w _.
      destruct (fst (try_catch (Scraper.launch (Scraper.browserOptions env))
                       (fun _ => Scraper.launch (Scraper.fallbackOptions env))
                       env' w)); exact I.
    + intros b. apply set_browser_some. intros _.
      eapply triple_weaken;
        [ apply (page_steps_open b
                   (fun p => Scraper.goto p (Scraper.scraperApiUrl env link)
                                          60000))
        | auto | ].
      * intros p. keeps.
      * intros [ ? | ? ] ? ?; auto.
  - intros error.
    apply triple_bind with (R := fun _ _ => True).
    + intros env w _. destruct (fst (Scraper.close env w)); exact I.
    + intros _. apply triple_throw. auto.
Qed.

(** X1. When [start] or [startWithRetry] returns, the browser and the
    page fields are both set, from whatever world it was called in and
    whatever the environment answered. *)
Theorem started_session_is_open
    (link : string) (maxRetries : nat) (env : Env) (w : World) :
  (fst (Scraper.start link env w) = Ok tt ->
   sessionOpen (snd (Scraper.start link env w)))
  /\ (fst (Scraper.startWithRetry link maxRetries env w) = Ok tt ->
      sessionOpen (snd (Scraper.startWithRetry link maxRetries env w))).
Proof.
  split; intros Hok.
  - pose proof (start_opens link env w I) as H.
    rewrite Hok in H. exact H.
  - pose proof (attempts_open maxRetries 1 maxRetries link None env w I) as H.
    unfold Scraper.startWithRetry in *. rewrite Hok in H. exact H.
Qed.

Lemma started_session_is_open_witness :
  fst (Scraper.startWithRetry trendingUrl 3 thirdStrategyEnv emptyWorld)
  = Ok tt
  /\ sessionOpen
       (snd (Scraper.startWithRetry trendingUrl 3 thirdStrategyEnv emptyWorld)).
Proof.
  assert (H : fst (Scraper.startWithRetry trendingUrl 3 thirdStrategyEnv
                                          emptyWorld) = Ok tt)
    by reflexivity.
  split; [ exact H | ].
  exact (proj2 (started_session_is_open trendingUrl 3 thirdStrategyEnv
                                        emptyWorld) H).
Defined.

(* ================================================================== *)
(** ** The delays of [startWithRetry] *)
(* ================================================================== *)

Section Emits.

Context {A B : Type}.






Lemma emits_weaken (m : M A) (Q Q' : result A -> list Z -> Prop) :
  emits m Q' -> (forall r ds, Q' r ds -> Q r ds) -> emits m Q.
Proof.
  intros H HQ env w. destruct (H env w) as (ev & Ht & Hq).
  exists ev. split; [ exact Ht | apply HQ; exact Hq ].
Qed.

End Emits.















(** Where no browser launches, the last error is the one of the launch
    stage of the third attempt. *)
Example startWithRetry_dead_error :
  fst (Scraper.startWithRetry trendingUrl 3 deadEnv emptyWorld)
  = Throw (JsError "Failed to start browser after 3 attempts. Last error: All browser launch strategies failed").
Proof. reflexivity. Qed.

Example startWithRetry_dead_delays :
  delays (newEvents emptyWorld
            (snd (Scraper.startWithRetry trendingUrl 3 deadEnv emptyWorld)))
  = [2000; 4000]%Z.
Proof. reflexivity. Qed.

(* ================================================================== *)
(** ** The session after a failure, and after [scrapeTrending] *)
(* ================================================================== *)

Section InEnvironment.

Context {A B : Type}.
Variable env : Env.

Lemma tripleIn_of_triple (P : World -> Prop) (m : M A)
                         (Q : result A -> World -> Prop) :
  triple P m Q -> tripleIn env P m Q.
Proof. intros H w Hw. apply H. exact Hw. Qed.

Lemma tripleIn_bind (P : World -> Prop) (m : M A) (k : A -> M B)
                    (R : A -> World -> Prop)
                    (Q : result B -> World -> Prop) :
  tripleIn env P m (fun r w => match r with
                               | Ok a => R a w
                               | Throw e => Q (Throw e) w
                               end) ->
  (forall a, tripleIn env (R a) (k a) Q) ->
  tripleIn env P (bind m k) Q.
Proof.
  intros Hm Hk w Hw. specialize (Hm w Hw).
  unfold bind. destruct (m env w) as [[a | e] w']; cbn in *.
  - apply Hk. exact Hm.
  - exact Hm.
Qed.

Lemma tripleIn_try_catch (P : World -> Prop) (body : M A)
                         (handler : thrown -> M A)
                         (R : thrown -> World -> Prop)
                         (Q : result A -> World -> Prop) :
  tripleIn env P body (fun r w => match r with
                                  | Ok a => Q (Ok a) w
                                  | Throw e => R e w
                                  end) ->
  (forall e, tripleIn env (R e) (handler e) Q) ->
  tripleIn env P (try_catch body handler) Q.
Proof.
  intros Hb Hh w Hw. specialize (Hb w Hw).
  unfold try_catch. destruct (body env w) as [[a | e] w']; cbn in *.
  - exact Hb.
  - apply Hh. exact Hb.
Qed.

End InEnvironment.

Lemma onFields_sessionClosed : onFields sessionClosed.
Proof.
  intros w w' Hb Hp. unfold sessionClosed. rewrite Hb, Hp. tauto.
Qed.

Lemma sessionClosed_inv (w : World) : sessionClosed w -> pageHasBrowser w.
Proof. intros [_ Hp] H. contradiction. Qed.

#[local] Hint Resolve onFields_sessionClosed sessionClosed_inv : session.

(** Where teardowns succeed, [close] leaves both fields null. *)
Lemma close_closes (env : Env) :
  teardownsSucceed env ->
  tripleIn env pageHasBrowser Scraper.close
           (fun r w => r = Ok tt /\ sessionClosed w).
Proof.
  intros Hteardown w Hw. split; [ apply close_returns | ].
  destruct (browser w) as [ b | ] eqn:Hb.
  - rewrite (close_with_browser env w b Hb), Hteardown. split; reflexivity.
  - rewrite (close_without_browser env w Hb). cbn [snd].
    split; [ exact Hb | ].
    destruct (page w) eqn:Hp; [ | reflexivity ].
    exfalso. apply Hw; [ rewrite Hp; discriminate | exact Hb ].
Qed.

(** [close], then the rest, from the closed session. *)
Lemma tripleIn_after_close {A} (env : Env) (k : unit -> M A)
                           (Q : result A -> World -> Prop) :
  teardownsSucceed env ->
  (forall u, tripleIn env sessionClosed (k u) Q) ->
  tripleIn env pageHasBrowser (bind Scraper.close k) Q.
Proof.
  intros Hteardown Hk.
  apply tripleIn_bind with (R := fun _ w => sessionClosed w); [ | exact Hk ].
  intros w Hw. destruct (close_closes env Hteardown w Hw) as [Hr Hc].
  rewrite Hr. exact Hc.
Qed.

(** The body of the [try] of [start] keeps the invariant. *)
Lemma start_body_invariant (link : string) (env : Env) :
  triple pageHasBrowser
    (b <- try_catch (Scraper.launch (Scraper.browserOptions env))
                    (fun _ => Scraper.launch (Scraper.fallbackOptions env));;
     set_browser (Some b);;
     p <- Scraper.newPage b;;
     set_page (Some p);;
     Scraper.setUserAgent p Scraper.userAgent;;
     Scraper.setViewport p 1920 1080;;
     Scraper.goto p (Scraper.scraperApiUrl env link) 60000;;
     sleep 3000)
    (fun _ w => pageHasBrowser w).
Proof.
  apply triple_bind with (R := fun _ w => pageHasBrowser w).
  - apply triple_try_catch with (R := fun _ w => pageHasBrowser w).
    + keeps.
    + intros _. keeps.
  - intros b. apply set_browser_some. intros _.
    eapply triple_weaken;
      [ apply (page_steps_keep_browser b
                 (fun p => Scraper.goto p (Scraper.scraperApiUrl env link)
                                        60000))
      | auto | ].
    + intros p. keeps.
    + intros [ ? | ? ] ? ?; auto with session.
Qed.

Lemma start_failure_closes (link : string) (env : Env) :
  teardownsSucceed env ->
  tripleIn env pageHasBrowser (Scraper.start link)
    (fun r w => match r with Throw _ => sessionClosed w | Ok _ => True end).
Proof.
  intros Hteardown. unfold Scraper.start.
  apply tripleIn_try_catch with (R := fun _ w => pageHasBrowser w).
  - intros w Hw. unfold bind at 1 2, ask.
    pose proof (start_body_invariant link env env w Hw) as H.
    cbn [fst snd]. 
    match goal with
    | |- match fst ?x with _ => _ end => destruct (fst x); [ exact I | exact H ]
    end.
  - intros error. apply tripleIn_after_close; [ exact Hteardown | intros _ ].
    intros w Hw. exact Hw.
Qed.

Lemma attempts_failure_closes (env : Env) (remaining : nat) :
  teardownsSucceed env ->
  forall attempt maxRetries link lastError,
    attempt + remaining = S maxRetries ->
    tripleIn env pageHasBrowser
      (Scraper.attempts remaining attempt maxRetries link lastError)
      (fun r w => match r with
                  | Throw _ => 1 <= remaining -> sessionClosed w
                  | Ok _ => True
                  end).
Proof.
  intros Hteardown.
  induction remaining as [ | remaining IH ];
    intros attempt maxRetries link lastError Hsum; cbn [Scraper.attempts].
  - intros w _ H. cbn in H. lia.
  - apply tripleIn_try_catch with (R := fun _ w => pageHasBrowser w).
    + intros w Hw.
      pose proof (attemptStart_invariant link env w Hw) as H.
      destruct (fst (Scraper.attemptStart link env w)); [ exact I | exact H ].
    + intros error.
      apply tripleIn_after_close; [ exact Hteardown | intros _ ].
      destruct (Nat.eqb_spec attempt maxRetries) as [ Heq | Hneq ].
      * intros w Hw _. exact Hw.
      * apply tripleIn_bind with (R := fun _ w => sessionClosed w).
        -- intros w Hw. cbn. apply (onFields_sessionClosed w);
             [ reflexivity | reflexivity | exact Hw ].
        -- intros _ w Hw.
           pose proof (IH (S attempt) maxRetries link (Some error)
                          ltac:(lia) w (sessionClosed_inv w Hw)) as H.
           destruct (fst (Scraper.attempts remaining (S attempt) maxRetries
                                           link (Some error) env w));
             [ exact I | ].
           intros _. apply H. lia.
Qed.

(** X3. Where browser teardowns succeed, a failed start leaves no session
    behind: when [start] throws, or [startWithRetry] with at least one
    attempt throws, both fields are null afterwards. *)
Theorem failed_start_leaves_session_closed
    (link : string) (maxRetries : nat) (env : Env) (w : World) :
  teardownsSucceed env ->
  pageHasBrowser w ->
  (forall e, fst (Scraper.start link env w) = Throw e ->
             sessionClosed (snd (Scraper.start link env w)))
  /\ (forall e, 1 <= maxRetries ->
                fst (Scraper.startWithRetry link maxRetries env w) = Throw e ->
                sessionClosed
                  (snd (Scraper.startWithRetry link maxRetries env w))).
Proof.
  intros Hteardown Hw. split.
  - intros e He.
    pose proof (start_failure_closes link env Hteardown w Hw) as H.
    rewrite He in H. exact H.
  - intros e Hmax He.
    pose proof (attempts_failure_closes env maxRetries Hteardown 1 maxRetries
                  link None ltac:(lia) w Hw) as H.
    unfold Scraper.startWithRetry in *. rewrite He in H. apply H. exact Hmax.
Qed.

Lemma noLaunchEnv_teardowns : teardownsSucceed noLaunchEnv.
Proof. intros t b. reflexivity. Qed.

Lemma openWorld_invariant : pageHasBrowser openWorld.
Proof. intros _. discriminate. Qed.

Lemma failed_start_leaves_session_closed_witness :
  teardownsSucceed noLaunchEnv
  /\ pageHasBrowser openWorld
  /\ fst (Scraper.start trendingUrl noLaunchEnv openWorld)
     = Throw (JsError "Failed to launch the browser process")
  /\ sessionClosed (snd (Scraper.start trendingUrl noLaunchEnv openWorld))
  /\ sessionClosed
       (snd (Scraper.startWithRetry trendingUrl 3 noLaunchEnv openWorld)).
Proof.
  destruct (failed_start_leaves_session_closed trendingUrl 3 noLaunchEnv
              openWorld noLaunchEnv_teardowns openWorld_invariant)
    as [Hstart Hretry].
  split; [ exact noLaunchEnv_teardowns | ].
  split; [ exact openWorld_invariant | ].
  split; [ reflexivity | ].
  split.
  - exact (Hstart _ eq_refl).
  - refine (Hretry _ _ eq_refl). lia.
Defined.

Lemma scrapeTrending_closes (link : string) (env : Env) :
  teardownsSucceed env ->
  tripleIn env pageHasBrowser (Scraper.scrapeTrending link)
           (fun _ w => sessionClosed w).
Proof.
  intros Hteardown. unfold Scraper.scrapeTrending.
  apply tripleIn_try_catch with (R := fun _ w => pageHasBrowser w).
  - apply tripleIn_bind with (R := fun _ w => pageHasBrowser w).
    + apply tripleIn_of_triple.
      eapply triple_weaken; [ apply startWithRetry_invariant | auto | ].
      intros [ ? | ? ] ? ?; auto.
    + intros _. apply tripleIn_bind with (R := fun _ w => pageHasBrowser w).
      * intros w Hw. exact Hw.
      * intros [ p | ]; [ | intros w Hw; exact Hw ].
        apply tripleIn_bind with (R := fun _ w => pageHasBrowser w);
          [ apply tripleIn_of_triple; keeps | intros _ ].
        apply tripleIn_bind with (R := fun _ w => pageHasBrowser w);
          [ apply tripleIn_of_triple; keeps | intros movieList ].
        apply tripleIn_after_close; [ exact Hteardown | intros _ ].
        destruct (List.length movieList =? 0)%nat; intros w Hw; exact Hw.
  - intros _. apply tripleIn_after_close; [ exact Hteardown | intros _ ].
    intros w Hw. exact Hw.
Qed.

(** X4. Where browser teardowns succeed, [scrapeTrending] always ends
    with the session closed: both fields are null when it returns,
    whether the scrape worked or not. *)
Theorem scrapeTrending_leaves_session_closed
    (link : string) (env : Env) (w : World) :
  teardownsSucceed env ->
  pageHasBrowser w ->
  sessionClosed (snd (Scraper.scrapeTrending link env w)).
Proof.
  intros Hteardown Hw. exact (scrapeTrending_closes link env Hteardown w Hw).
Qed.

Lemma mixedEnv_teardowns : teardownsSucceed mixedEnv.
Proof. intros t b. reflexivity. Qed.

Lemma scrapeTrending_leaves_session_closed_witness :
  teardownsSucceed mixedEnv
  /\ pageHasBrowser openWorld
  /\ sessionClosed (snd (Scraper.scrapeTrending trendingUrl mixedEnv openWorld)).
Proof.
  split; [ exact mixedEnv_teardowns | ].
  split; [ exact openWorld_invariant | ].
  exact (scrapeTrending_leaves_session_closed trendingUrl mixedEnv openWorld
           mixedEnv_teardowns openWorld_invariant).
Defined.

(* ================================================================== *)
(** ** What the trending list and its endpoint return *)
(* ================================================================== *)

(** X5. Whatever the environment answers, every item that
    [scrapeTrending] returns has a title that is not empty after trimming
    and an identifier that starts with "tt". *)
Theorem scrapeTrending_returns_only_valid_items
    (link : string) (env : Env) (w : World)
    (movies : list Movie.t) (movie : Movie.t) :
  fst (Scraper.scrapeTrending link env w) = Ok movies ->
  In movie movies ->
  trim (Movie.title movie) <> ""
  /\ startsWith (Movie.imdbId movie) "tt" = true.
Proof.
  intros Hrun Hin.
  pose proof (scrapeTrending_all_valid link env w movies Hrun) as Hall.
  rewrite Forall_forall in Hall.
  apply validMovie_spec. apply Hall. exact Hin.
Qed.

Lemma scrapeTrending_returns_only_valid_items_witness :
  fst (Scraper.scrapeTrending trendingUrl mixedEnv emptyWorld)
  = Ok [ movie "tt0111161" "The Shawshank Redemption";
         movie "tt0068646" " The Godfather " ]
  /\ trim " The Godfather " <> ""
  /\ startsWith "tt0068646" "tt" = true.
Proof.
  assert (H : fst (Scraper.scrapeTrending trendingUrl mixedEnv emptyWorld)
              = Ok [ movie "tt0111161" "The Shawshank Redemption";
                     movie "tt0068646" " The Godfather " ])
    by reflexivity.
  split; [ exact H | ].
  exact (scrapeTrending_returns_only_valid_items trendingUrl mixedEnv
           emptyWorld _ (movie "tt0068646" " The Godfather ") H
           (or_intror (or_introl eq_refl))).
Defined.

(** X6. The trending endpoint always answers, with 200 or 500. It
    answers 200 exactly when [scrapeTrending] returned a non-empty list;
    the data is then that list as it is (the filter of the controller
    drops nothing) and the count is its length. Its only failure message
    is "No trending movies found on IMDb". *)
Theorem trending_endpoint_response
    (MovieData : Type) (env : Env) (w : World) :
  exists response,
    fst (ScraperController.scrapeTrendingMovies MovieData env w) = Ok response
    /\ (ScraperController.status response = 200%Z
        \/ ScraperController.status response = 500%Z)
    /\ (ScraperController.status response = 200%Z <->
        exists movies,
          movies <> []
          /\ fst (Scraper.scrapeTrending trendingUrl env w) = Ok movies)
    /\ (forall success data count type scrapedAt,
          ScraperController.payload response
          = ScraperController.TrendingScraped success data count type
                                              scrapedAt ->
          success = true
          /\ fst (Scraper.scrapeTrending trendingUrl env w) = Ok data
          /\ count = List.length data
          /\ type = "trending")
    /\ (forall error message details,
          ScraperController.payload response
          = ScraperController.Failure error message details ->
          ScraperController.status response = 500%Z
          /\ error = "Failed to scrape trending movies"
          /\ message = "No trending movies found on IMDb"
          /\ details = None).
Proof.
  destruct (scrapeTrendingMovies_run MovieData env w)
    as (movies & w' & Hrun & Hanswer).
  rewrite Hrun. cbn [fst].
  destruct movies as [ | movie movies ]; rewrite Hanswer;
    eexists; (split; [ reflexivity | ]); cbn.
  - split; [ right; reflexivity | ].
    split; [ split; [ discriminate | ] | ].
    + intros (movies & Hne & Heq). injection Heq as <-. congruence.
    + split; [ discriminate | ].
      intros error message details [= <- <- <-]. auto.
  - split; [ left; reflexivity | ].
    split; [ split; [ intros _ | reflexivity ] | ].
    + exists (movie :: movies). split; [ discriminate | reflexivity ].
    + split; [ | discriminate ].
      intros success data count type scrapedAt [= <- <- <- <- _]. auto.
Qed.

Example trending_endpoint_mixed :
  fst (ScraperController.scrapeTrendingMovies unit mixedEnv emptyWorld)
  = Ok {| ScraperController.status := 200;
          ScraperController.payload :=
            ScraperController.TrendingScraped true
              [ movie "tt0111161" "The Shawshank Redemption";
                movie "tt0068646" " The Godfather " ]
              2 "trending" "2024-01-01T00:00:00.000Z" |}.
Proof. reflexivity. Qed.

(* ================================================================== *)
(** ** What the poster extractor returns *)
(* ================================================================== *)

Lemma srcsetBranch_http (srcset url : string) :
  Scraper.srcsetBranch srcset = Some url -> startsWith url "http" = true.
Proof.
  unfold Scraper.srcsetBranch.
  destruct (truthy srcset); [ | discriminate ].
  destruct (Scraper.sort (Scraper.srcsetEntries srcset)) as [ | best rest ];
    [ discriminate | ].
  destruct (gt0 (Scraper.Srcset.width best)
            && truthy (Scraper.Srcset.url best)
            && startsWith (Scraper.Srcset.url best) "http") eqn:Hok;
    [ | discriminate ].
  intros [= <-]. apply andb_prop in Hok. tauto.
Qed.

Lemma evaluatePoster_http (doc : Document) (url : string) :
  Scraper.evaluatePoster doc = Some url -> startsWith url "http" = true.
Proof.
  unfold Scraper.evaluatePoster.
  match goal with
  | |- match ?chosen with _ => _ end = _ -> _ =>
      destruct chosen as [ posterImg | ]; [ | discriminate ]
  end.
  destruct (match Img.getAttribute posterImg "srcset" with
            | Some srcset => Scraper.srcsetBranch srcset
            | None => None
            end) as [ fromSrcset | ] eqn:Hsrcset.
  - intros [= <-].
    destruct (Img.getAttribute posterImg "srcset") as [ srcset | ];
      [ | discriminate ].
    exact (srcsetBranch_http _ _ Hsrcset).
  - match goal with
    | |- (if ?c then _ else _) = _ -> _ => destruct c eqn:Hattr
    end.
    + intros [= <-]. apply andb_prop in Hattr. tauto.
    + match goal with
      | |- (if ?c then _ else _) = _ -> _ => destruct c eqn:Hprop
      end; [ | discriminate ].
      intros [= <-]. apply andb_prop in Hprop. tauto.
Qed.

(** X7. Every URL that [scrapePoster] returns, on the primary path or on
    the fallback path, starts with "http": a relative or empty URL is
    never returned. *)
Theorem scrapePoster_returns_absolute_url
    (env : Env) (w : World) (url : string) :
  fst (Scraper.scrapePoster env w) = Ok (Some url) ->
  startsWith url "http" = true.
Proof.
  unfold Scraper.scrapePoster, bind at 1, get_page.
  destruct (page w) as [ p | ]; [ | discriminate ].
  unfold try_catch at 1, Scraper.posterPrimary, bind at 1,
    Scraper.waitForSelector, external.
  destruct (page_waitForSelector env (tick w) p _).
  - unfold bind at 1, Scraper.evaluate, bind at 1, external, ret.
    cbn [tick record].
    destruct (page_document env (S (tick w)) p) as [ doc | message ].
    + cbn [fst].
      destruct (Scraper.evaluatePoster doc) as [ found | ] eqn:Hfound;
        [ | discriminate ].
      destruct (truthy found); [ | discriminate ].
      intros [= <-]. exact (evaluatePoster_http doc found Hfound).
    + unfold Scraper.posterFallback, try_catch, Scraper.evaluate, bind,
        external, ret.
      match goal with
      | |- context [page_document env ?t p] =>
          destruct (page_document env t p) as [ doc | ]
      end; [ | discriminate ].
      intros [= Hurl]. exact (proj1 (firstFallback_accepts _ _ _ Hurl)).
  - unfold Scraper.posterFallback, try_catch, Scraper.evaluate, bind,
      external, ret.
    match goal with
    | |- context [page_document env ?t p] =>
        destruct (page_document env t p) as [ doc | ]
    end; [ | discriminate ].
    intros [= Hurl]. exact (proj1 (firstFallback_accepts _ _ _ Hurl)).
Qed.

Lemma scrapePoster_returns_absolute_url_witness :
  fst (Scraper.scrapePoster heroEnv openWorld)
  = Ok (Some "https://m.media-amazon.com/images/M/MV5B_QL75_UX380.jpg")
  /\ startsWith "https://m.media-amazon.com/images/M/MV5B_QL75_UX380.jpg"
                "http" = true.
Proof.
  assert (H : fst (Scraper.scrapePoster heroEnv openWorld)
              = Ok (Some "https://m.media-amazon.com/images/M/MV5B_QL75_UX380.jpg"))
    by reflexivity.
  split; [ exact H | ].
  exact (scrapePoster_returns_absolute_url heroEnv openWorld _ H).
Defined.

(** The loop over the poster selectors, when some selector matches an
    element with a [src]. *)
Lemma selectPoster_hit (doc : Document) (before : list string) :
  forall (selector : string) (after : list string) (img : Img.t)
         (start : option Img.t),
    Forall (noPosterSrc doc) before ->
    querySelector doc selector = Some img ->
    truthy (Img.src img) = true ->
    Scraper.selectPoster doc (before ++ selector :: after) start = Some img.
Proof.
  induction before as [ | s before IH ];
    intros selector after img start Hnone Hq Hsrc; cbn.
  - rewrite Hq, Hsrc. reflexivity.
  - inversion Hnone as [ | ? ? Hs Hrest ]; subst.
    unfold noPosterSrc in Hs.
    destruct (querySelector doc s) as [ i | ].
    + rewrite Hs. apply IH; assumption.
    + apply IH; assumption.
Qed.

(** The loop, when no selector matches an element with a [src]. *)
Lemma selectPoster_miss (doc : Document) (selectors : list string) :
  forall start,
    Forall (noPosterSrc doc) selectors ->
    Scraper.selectPoster doc selectors start =
    match selectors with
    | [] => start
    | _ => querySelector doc (last selectors "")
    end.
Proof.
  induction selectors as [ | s rest IH ]; intros start Hnone;
    [ reflexivity | ].
  inversion Hnone as [ | ? ? Hs Hrest ]; subst.
  cbn [Scraper.selectPoster]. unfold noPosterSrc in Hs.
  destruct (querySelector doc s) as [ i | ] eqn:Hq.
  - rewrite Hs, (IH _ Hrest).
    destruct rest; [ symmetry; exact Hq | reflexivity ].
  - rewrite (IH _ Hrest).
    destruct rest; [ symmetry; exact Hq | reflexivity ].
Qed.

(** X8. The loop over the poster selectors returns the element of the
    first selector whose element has a non-empty [src]. When no selector
    has one, the loop ends with what the last selector matched, be it an
    element without [src] or nothing: matches of the earlier selectors
    are overwritten. *)
Theorem selectPoster_first_with_src_else_last
    (doc : Document) (selectors : list string) :
  (forall before selector after img,
     selectors = before ++ selector :: after ->
     Forall (noPosterSrc doc) before ->
     querySelector doc selector = Some img ->
     truthy (Img.src img) = true ->
     Scraper.selectPoster doc selectors None = Some img)
  /\ (selectors <> [] ->
      Forall (noPosterSrc doc) selectors ->
      Scraper.selectPoster doc selectors None
      = querySelector doc (last selectors "")).
Proof.
  split.
  - intros before selector after img -> Hnone Hq Hsrc.
    apply selectPoster_hit; assumption.
  - intros Hne Hnone. rewrite (selectPoster_miss doc selectors None Hnone).
    destruct selectors; [ congruence | reflexivity ].
Qed.

Lemma selectPoster_first_with_src_else_last_witness :
  Scraper.posterSelectors <> []
  /\ Forall (noPosterSrc srclessHeroDocument) Scraper.posterSelectors
  /\ querySelector srclessHeroDocument (hd "" Scraper.posterSelectors)
     = Some (image "" [])
  /\ Scraper.selectPoster srclessHeroDocument Scraper.posterSelectors None
     = None.
Proof.
  assert (Hne : Scraper.posterSelectors <> []) by discriminate.
  assert (Hnone : Forall (noPosterSrc srclessHeroDocument)
                         Scraper.posterSelectors)
    by (repeat constructor).
  split; [ exact Hne | split; [ exact Hnone | split; [ reflexivity | ] ] ].
  exact (proj2 (selectPoster_first_with_src_else_last
                  srclessHeroDocument Scraper.posterSelectors) Hne Hnone).
Defined.

(* ================================================================== *)
(** ** The gateway client: success, errors, parameters *)
(* ================================================================== *)

Section GatewayMore.

Import ScraperAPIService.

Variable serialize : list (string * string) -> string.
Variable url : string.
Variable options : ScraperAPIOptions.

Local Abbreviation target := (requestUrl serialize url options).




(** What a run can throw. *)
Lemma retries_throws_wrapped (remaining : nat) :
  forall attempt maxRetries lastError env w e,
    fst (retries serialize remaining attempt maxRetries url options lastError
                 env w) = Throw e ->
    (remaining = 0 /\ e = lastError)
    \/ (e = lastError /\ exists m, e = JsError ("Failed to scrape URL: " ++ m))
    \/ (1 <= remaining
        /\ exists m, e = JsError ("Failed to scrape URL: " ++ m)).
Proof.
  induction remaining as [ | r IH ];
    intros attempt maxRetries lastError env w e; cbn [retries].
  - intros [= <-]. left. auto.
  - unfold try_catch. rewrite scrapeUrl_run.
    destruct (axios_get env (tick w) target) as [ html | message ];
      [ discriminate | ].
    unfold bind at 1, message_of, ret. unfold bind at 1.
    intros Hrun. right. right. split; [ lia | ].
    destruct (attempt <? maxRetries)%nat.
    + unfold sleep at 1 in Hrun.
      destruct (IH _ _ _ _ _ _ Hrun) as [ [_ ->] | [ [_ Hm] | [_ Hm] ] ];
        eauto.
    + cbv beta iota in Hrun.
      destruct (IH _ _ _ _ _ _ Hrun) as [ [_ ->] | [ [_ Hm] | [_ Hm] ] ];
        eauto.
Qed.

(** X10. With at least one attempt, whatever [scrapeWithRetry] throws is
    an error whose message starts with "Failed to scrape URL: ": the
    gateway's own error is always wrapped. With no attempt at all
    ([maxRetries] 0) it makes no request and throws [undefined]. *)
Theorem scrapeWithRetry_throws_wrapped_errors
    (maxRetries : nat) (env : Env) (w : World) :
  (1 <= maxRetries ->
   forall e,
     fst (scrapeWithRetry serialize url maxRetries options env w) = Throw e ->
     exists m, e = JsError ("Failed to scrape URL: " ++ m))
  /\ scrapeWithRetry serialize url 0 options env w = (Throw ThrownUndefined, w).
Proof.
  split; [ | reflexivity ].
  intros Hmax e Hrun. unfold scrapeWithRetry in Hrun.
  destruct (retries_throws_wrapped _ _ _ _ _ _ _ Hrun)
    as [ [H0 _] | [ [_ Hm] | [_ Hm] ] ]; [ lia | exact Hm | exact Hm ].
Qed.

End GatewayMore.


Lemma scrapeWithRetry_throws_wrapped_errors_witness :
  1 <= 3
  /\ exists m,
       fst (ScraperAPIService.scrapeWithRetry joinParams
              "https://www.imdb.com/title/tt0111161/" 3
              ScraperAPIService.noOptions deadEnv emptyWorld)
       = Throw (JsError ("Failed to scrape URL: " ++ m)).
Proof.
  assert (Hmax : 1 <= 3) by lia.
  split; [ exact Hmax | ].
  destruct (proj1 (scrapeWithRetry_throws_wrapped_errors joinParams
                     "https://www.imdb.com/title/tt0111161/"
                     ScraperAPIService.noOptions 3 deadEnv emptyWorld)
                  Hmax _ eq_refl) as [m Hm].
  exists m. rewrite <- Hm. reflexivity.
Defined.

(** X11. The parameter object of a gateway request has the six base
    keys, each once and in this order, followed by [session_number] when
    one is given. The key and the target URL are always the service's and
    the caller's; an option that is given is sent as given, also an
    empty country code (the "us" default applies only when the option is
    absent), and a session number as the language prints that number;
    the defaults are render true, country code "us", premium false, keep
    headers true. *)
Theorem paramsData_effective_values
    (url : string) (options : ScraperAPIService.ScraperAPIOptions) :
  let params := ScraperAPIService.paramsData url options in
  map fst params
  = [ "api_key"; "url"; "render"; "country_code"; "premium"; "keep_headers" ]
    ++ match ScraperAPIService.session_number options with
       | Some _ => ["session_number"]
       | None => []
       end
  /\ lookup "api_key" params = Some ScraperAPIService.apiKey
  /\ lookup "url" params = Some url
  /\ lookup "render" params
     = Some (ScraperAPIService.boolToString
               (match ScraperAPIService.render options with
                | Some b => b | None => true end))
  /\ lookup "country_code" params
     = Some (match ScraperAPIService.country_code options with
             | Some code => code | None => "us" end)
  /\ lookup "premium" params
     = Some (ScraperAPIService.boolToString
               (match ScraperAPIService.premium options with
                | Some b => b | None => false end))
  /\ lookup "keep_headers" params
     = Some (ScraperAPIService.boolToString
               (match ScraperAPIService.keep_headers options with
                | Some b => b | None => true end))
  /\ lookup "session_number" params
     = option_map ScraperAPIService.intToString
                  (ScraperAPIService.session_number options).
Proof.
  destruct options as [ [ r | ] [ c | ] [ p | ] [ s | ] [ k | ] ];
    cbv zeta; repeat split; reflexivity.
Qed.

Example paramsData_empty_country :
  lookup "country_code"
    (ScraperAPIService.paramsData "https://www.imdb.com/"
       {| ScraperAPIService.render := None;
          ScraperAPIService.country_code := Some "";
          ScraperAPIService.premium := None;
          ScraperAPIService.session_number := None;
          ScraperAPIService.keep_headers := None |})
  = Some "".
Proof. reflexivity. Qed.

(** A session number is sent as the language prints it: in plain decimal
    while it is small, with the shortest digits and in exponent notation
    when it is large. *)
Example paramsData_session_numbers :
  map (fun number =>
         lookup "session_number"
           (ScraperAPIService.paramsData "https://www.imdb.com/"
              {| ScraperAPIService.render := None;
                 ScraperAPIService.country_code := None;
                 ScraperAPIService.premium := None;
                 ScraperAPIService.session_number := Some number;
                 ScraperAPIService.keep_headers := None |}))
      [ 0; 42; -7; 2 ^ 64; 10 ^ 21; 2 ^ 70 ]%Z
  = [ Some "0"; Some "42"; Some "-7"; Some "18446744073709552000";
      Some "1e+21"; Some "1.1805916207174113e+21" ].
Proof. vm_compute. reflexivity. Qed.

(* ================================================================== *)
(** ** The movie endpoint: answers and error details *)
(* ================================================================== *)




(* ================================================================== *)
(** ** Trimming and the title pattern *)
(* ================================================================== *)

Lemma trimEnd_cons (c : ascii) (r : string) :
  trimEnd (String c r) =
  match trimEnd r with
  | "" => if is_ws c then "" else String c ""
  | String a t => String c (String a t)
  end.
Proof. reflexivity. Qed.

Lemma trimEnd_idempotent (s : string) : trimEnd (trimEnd s) = trimEnd s.
Proof.
  induction s as [ | c r IH ]; [ reflexivity | ].
  rewrite trimEnd_cons.
  destruct (trimEnd r) as [ | c' t ] eqn:Ht.
  - destruct (is_ws c) eqn:Hc; [ reflexivity | ].
    rewrite trimEnd_cons. cbn [trimEnd]. rewrite Hc. reflexivity.
  - rewrite trimEnd_cons, IH. reflexivity.
Qed.

(** What is left of a string that starts with [c] starts with [c]. *)
Lemma trimEnd_head (c : ascii) (r : string) :
  trimEnd (String c r) = "" \/ exists t, trimEnd (String c r) = String c t.
Proof.
  cbn [trimEnd]. destruct (trimEnd r); [ destruct (is_ws c) | ]; eauto.
Qed.

Lemma trimStart_head (s : string) :
  trimStart s = ""
  \/ exists c r, trimStart s = String c r /\ is_ws c = false.
Proof.
  induction s as [ | c r IH ]; [ left; reflexivity | ].
  cbn [trimStart]. destruct (is_ws c) eqn:Hc; [ exact IH | ].
  right. exists c, r. auto.
Qed.

Lemma trim_head (s : string) :
  trim s = "" \/ exists c r, trim s = String c r /\ is_ws c = false.
Proof.
  unfold trim.
  destruct (trimStart_head s) as [ -> | (c & r & -> & Hc) ];
    [ left; reflexivity | ].
  destruct (trimEnd_head c r) as [ -> | (t & ->) ]; [ left; reflexivity | ].
  right. exists c, t. auto.
Qed.

(** Trimming twice is trimming once. *)
Lemma trim_idempotent (s : string) : trim (trim s) = trim s.
Proof.
  destruct (trim_head s) as [ H | (c & r & H & Hc) ].
  - rewrite H. reflexivity.
  - assert (Hstart : trimStart (trim s) = trim s)
      by (rewrite H; cbn [trimStart]; rewrite Hc; reflexivity).
    unfold trim at 1. rewrite Hstart. unfold trim.
    apply trimEnd_idempotent.
Qed.

Lemma afterPrefix_app (p s rest : string) :
  JsText.afterPrefix p s = Some rest <-> s = (p ++ rest)%string.
Proof.
  revert s. induction p as [ | a p IH ]; intros s; cbn.
  - split; congruence.
  - destruct s as [ | b s ]; [ split; discriminate | ].
    destruct (Ascii.eqb_spec a b) as [ -> | Hneq ].
    + rewrite IH. split; congruence.
    + split; [ discriminate | congruence ].
Qed.

Lemma takeDigits_split (s : string) :
  exists rest,
    s = (JsText.takeDigits s ++ rest)%string
    /\ allDigits (JsText.takeDigits s) = true
    /\ startsWithDigit rest = false.
Proof.
  induction s as [ | c r (rest & Hs & Hd & Hr) ].
  - exists "". repeat split.
  - cbn [JsText.takeDigits]. destruct (JsText.isDigit c) eqn:Hc.
    + exists rest. cbn. rewrite Hc, Hd, <- Hs. repeat split. exact Hr.
    + exists (String c r). cbn. rewrite Hc. repeat split.
Qed.

(** The pattern finds a title identifier that the string holds. *)
Lemma matchTitleId_sound (s id : string) :
  JsText.matchTitleId s = Some id -> exists pre, titleIdAt s pre id.
Proof.
  induction s as [ | c r IH ].
  - cbn. discriminate.
  - cbn [JsText.matchTitleId].
    destruct (JsText.afterPrefix "/title/tt" (String c r)) as [ rest | ]
      eqn:Hpre.
    + destruct (JsText.takeDigits rest) as [ | d ds ] eqn:Hds.
      * intros H. destruct (IH H) as (pre & digits & rest' & -> & Hrest).
        exists (String c pre), digits, rest'. split; [ reflexivity | exact Hrest ].
      * intros [= <-]. exists "".
        destruct (takeDigits_split rest) as (rest' & Hs & Hd & Hr).
        rewrite Hds in Hs, Hd.
        exists (String d ds), rest'.
        apply afterPrefix_app in Hpre. rewrite Hpre, Hs.
        repeat split; try assumption. discriminate.
    + intros H. destruct (IH H) as (pre & digits & rest' & -> & Hrest).
      exists (String c pre), digits, rest'. split; [ reflexivity | exact Hrest ].
Qed.

(** The pattern misses no string that holds "/title/tt" and a digit. *)
Lemma matchTitleId_complete (pre : string) (c : ascii) (rest : string) :
  JsText.isDigit c = true ->
  JsText.matchTitleId (pre ++ "/title/tt" ++ String c rest) <> None.
Proof.
  intros Hc. induction pre as [ | a pre IH ].
  - cbn [append JsText.matchTitleId].
    assert (Hpre : JsText.afterPrefix "/title/tt"
                     ("/title/tt" ++ String c rest)%string
                   = Some (String c rest))
      by (apply afterPrefix_app; reflexivity).
    cbn [append] in Hpre. rewrite Hpre.
    cbn [JsText.takeDigits]. rewrite Hc. discriminate.
  - cbn [append JsText.matchTitleId].
    destruct (match JsText.afterPrefix "/title/tt" _ with
              | Some rest0 => _
              | None => None
              end); [ discriminate | exact IH ].
Qed.

(* ================================================================== *)
(** ** The in-page function of the trending list *)
(* ================================================================== *)

Lemma matched_id_shape (url : string) :
  match JsText.matchTitleId url with
  | Some id => id
  | None => ""
  end = ""
  \/ exists pre,
       titleIdAt url pre
                 match JsText.matchTitleId url with
                 | Some id => id
                 | None => ""
                 end.
Proof.
  destruct (JsText.matchTitleId url) as [ id | ] eqn:Hm;
    [ right; exact (matchTitleId_sound url id Hm) | left; reflexivity ].
Qed.

(** X13. The identifier that the trending extractor reads from the link
    of a list item, and the one that the basic-info extractor reads from
    the address of the page, is either empty or "tt" followed by digits:
    the digits, all of them and at least one, that follow "/title/tt"
    somewhere in that address. *)
Theorem extracted_identifier_shape :
  (forall element : Dom.Element,
     let item := InPage.trendingItem element in
     Movie.imdbId item = ""
     \/ exists pre, titleIdAt (Movie.movieUrl item) pre (Movie.imdbId item))
  /\ (forall dom : Dom.PageDom,
        let info := InPage.basicInfoFn dom in
        InPage.BasicInfo.imdbId info = ""
        \/ exists pre,
             titleIdAt (Dom.href dom) pre (InPage.BasicInfo.imdbId info)).
Proof.
  split.
  - intros element. cbv zeta. cbn [InPage.trendingItem Movie.imdbId
                                    Movie.movieUrl].
    apply matched_id_shape.
  - intros dom. cbv zeta. cbn [InPage.basicInfoFn InPage.BasicInfo.imdbId].
    apply matched_id_shape.
Qed.

Lemma titleIdAt_startsWith (url pre id : string) :
  titleIdAt url pre id -> startsWith id "tt" = true.
Proof.
  intros (digits & rest & _ & -> & _).
  unfold startsWith. cbn. destruct digits; reflexivity.
Qed.

Lemma titleIdAt_digit (url pre id : string) :
  titleIdAt url pre id ->
  exists c rest,
    url = (pre ++ "/title/tt" ++ String c rest)%string
    /\ JsText.isDigit c = true.
Proof.
  intros (digits & rest & -> & _ & Hne & Hall & _).
  destruct digits as [ | c ds ]; [ congruence | ].
  exists c, (ds ++ rest)%string. split; [ reflexivity | ].
  cbn in Hall. apply andb_prop in Hall. tauto.
Qed.

Lemma trimmedText_nonblank (el : option Dom.Element) :
  trim (Dom.trimmedText el) <> "" <->
  exists e, el = Some e /\ trim (Dom.textContent e) <> "".
Proof.
  destruct el as [ e | ]; cbn [Dom.trimmedText].
  - rewrite trim_idempotent. split.
    + intros H. exists e. auto.
    + intros (e' & [= <-] & H). exact H.
  - split; [ intros H; exfalso; apply H; reflexivity | ].
    intros (e & He & _). discriminate.
Qed.

(** The identifier read from the link of a list item starts with "tt"
    exactly when the link is one of a title. *)
Lemma trendingItem_id_iff (element : Dom.Element) :
  startsWith (Movie.imdbId (InPage.trendingItem element)) "tt" = true <->
  hasTitleLink element.
Proof.
  cbn [InPage.trendingItem Movie.imdbId]. unfold hasTitleLink. split.
  - intros Hid.
    destruct (JsText.matchTitleId
                (Dom.attribute
                   (Dom.querySelector element ".ipc-title-link-wrapper")
                   "href")) as [ id | ] eqn:Hm; [ | discriminate ].
    destruct (matchTitleId_sound _ _ Hm) as [pre Hat].
    destruct (titleIdAt_digit _ _ _ Hat) as (c & rest & Haddr & Hc).
    unfold Dom.attribute in Haddr.
    destruct (Dom.querySelector element ".ipc-title-link-wrapper")
      as [ el | ]; [ | destruct pre; discriminate ].
    destruct (Dom.getAttribute el "href") as [ address | ] eqn:Hhref;
      [ | destruct pre; discriminate ].
    exists el, address, pre, c, rest. auto.
  - intros (el & address & pre & c & rest & Hq & Hhref & -> & Hc).
    rewrite Hq. cbn [Dom.attribute]. rewrite Hhref.
    pose proof (matchTitleId_complete pre c rest Hc) as Hsome.
    destruct (JsText.matchTitleId (pre ++ "/title/tt" ++ String c rest))
      as [ id | ] eqn:Hm; [ | congruence ].
    destruct (matchTitleId_sound _ _ Hm) as [pre' Hat].
    exact (titleIdAt_startsWith _ _ _ Hat).
Qed.

(** The title of a list item is not blank exactly when the item has a
    title element whose text is not blank. *)
Lemma trendingItem_title_iff (element : Dom.Element) :
  trim (Movie.title (InPage.trendingItem element)) <> "" <->
  hasTitleText element.
Proof.
  cbn [InPage.trendingItem Movie.title].
  rewrite trimmedText_nonblank. reflexivity.
Qed.

(** X14. A list item of the trending page passes the validity filter of
    [scrapeTrending] exactly when it has a title element whose text is not
    blank and a link whose address holds "/title/tt" followed by a
    digit. *)
Theorem trending_item_kept_iff (element : Dom.Element) :
  Scraper.validMovie (InPage.trendingItem element) = true <->
  hasTitleText element /\ hasTitleLink element.
Proof.
  rewrite validMovie_spec.
  rewrite (trendingItem_title_iff element).
  rewrite (trendingItem_id_iff element).
  reflexivity.
Qed.

(* ================================================================== *)
(** ** The extractors of a movie page *)
(* ================================================================== *)

Section ExtractorsOfAPage.

Import Extractors.

Variable page_dom : nat -> Page -> outcome Dom.PageDom.

Lemma returns_ret {A} (a : A) (env : Env) (w : World) : returns (ret a) env w.
Proof. exists a. reflexivity. Qed.

Lemma returns_try_catch {A} (body : M A) (handler : thrown -> M A)
                        (env : Env) (w : World) :
  (forall e w', returns (handler e) env w') ->
  returns (try_catch body handler) env w.
Proof.
  intros Hh. unfold returns, try_catch.
  destruct (body env w) as [[ a | e ] w'].
  - exists a. reflexivity.
  - apply Hh.
Qed.

Lemma returns_notLoaded {A} (message : string) (k : Page -> M A)
                        (env : Env) (w : World) :
  page w <> None ->
  (forall p, returns (k p) env w) ->
  returns (notLoaded message k) env w.
Proof.
  intros Hpage Hk. unfold returns, notLoaded, bind, get_page.
  destruct (page w) as [ p | ]; [ apply Hk | congruence ].
Qed.

Lemma refuses_notLoaded {A} (message : string) (k : Page -> M A)
                        (env : Env) (w : World) :
  page w = None ->
  refuses (notLoaded message k) (JsError message) env w.
Proof.
  intros Hpage. unfold refuses, notLoaded, bind, get_page, throw.
  rewrite Hpage. reflexivity.
Qed.

(** X15. In a session with a page, every extractor returns a value,
    whatever the page does: a wait that times out, an evaluation that
    rejects or an in-page function that throws is swallowed by the
    extractor, never passed on to the caller. *)
Theorem extractors_return_with_a_page (env : Env) (w : World) :
  page w <> None ->
  returns Scraper.scrapePoster env w
  /\ returns Scraper.scrapeVideoSources env w
  /\ returns (scrapeBasicInfo page_dom) env w
  /\ returns (scrapeVideos page_dom) env w
  /\ returns (scrapeImages page_dom) env w
  /\ returns (scrapeCast page_dom) env w
  /\ returns (scrapeRatings page_dom) env w
  /\ returns (scrapeStoryline page_dom) env w.
Proof.
  intros Hpage.
  assert (Hposter : returns Scraper.scrapePoster env w).
  { unfold returns, Scraper.scrapePoster, bind, get_page.
    destruct (page w) as [ p | ]; [ | congruence ].
    apply returns_try_catch. intros e w'.
    apply returns_try_catch. intros e' w''. apply returns_ret. }
  assert (Hsources : returns Scraper.scrapeVideoSources env w).
  { unfold returns, Scraper.scrapeVideoSources, bind at 1, get_page.
    destruct (page w) as [ p | ]; [ | congruence ].
    apply returns_try_catch. intros e w'.
    apply returns_try_catch. intros e' w''. apply returns_ret. }
  repeat split; try assumption;
    apply returns_notLoaded; try assumption;
    intros p; apply returns_try_catch; intros e w'; apply returns_ret.
Qed.

(** X16. In a session without a page, every extractor throws "Page not
    loaded." with the call to make first, before anything is asked of the
    browser: the world, and so the trace, is as it was. *)
Theorem extractors_refuse_without_a_page (env : Env) (w : World) :
  page w = None ->
  refuses Scraper.scrapePoster callStartFirst env w
  /\ refuses Scraper.scrapeVideoSources callStartFirst env w
  /\ refuses (scrapeBasicInfo page_dom) callStartFirst env w
  /\ refuses (scrapeVideos page_dom) callScrapeMoviePageFirst env w
  /\ refuses (scrapeImages page_dom) callScrapeMoviePageFirst env w
  /\ refuses (scrapeCast page_dom) callScrapeMoviePageFirst env w
  /\ refuses (scrapeRatings page_dom) callScrapeMoviePageFirst env w
  /\ refuses (scrapeStoryline page_dom) callScrapeMoviePageFirst env w.
Proof.
  intros Hpage.
  assert (Hposter : refuses Scraper.scrapePoster callStartFirst env w).
  { unfold refuses, Scraper.scrapePoster, bind, get_page, throw.
    rewrite Hpage. reflexivity. }
  assert (Hsources
          : refuses Scraper.scrapeVideoSources callStartFirst env w).
  { unfold refuses, Scraper.scrapeVideoSources, bind at 1, get_page, throw.
    rewrite Hpage. reflexivity. }
  repeat split; try assumption; apply refuses_notLoaded; assumption.
Qed.

Lemma evalFirst_one_element {B} (p : Page) (selector : string)
                            (f : Dom.Element -> B)
                            (env : Env) (w : World) :
  exists e, fst (evalFirst page_dom p selector
                           (fun elements => Dom.arrayMap elements f) env w)
            = Throw e.
Proof.
  unfold evalFirst, bind, external.
  destruct (page_dom (tick w) p) as [ dom | message ]; cbn.
  - destruct (Dom.querySelector (Dom.document dom) selector);
      cbn; eexists; reflexivity.
  - eexists; reflexivity.
Qed.

Lemma first_match_results_empty {B} (p : Page) (waited selector : string)
                                (f : Dom.Element -> B)
                                (env : Env) (w : World) :
  fst (try_catch
         (Scraper.waitForSelector p waited 5000;;
          evalFirst page_dom p selector
                    (fun elements => Dom.arrayMap elements f))
         (fun _ => ret []) env w)
  = Ok [].
Proof.
  unfold try_catch, bind at 1.
  destruct (Scraper.waitForSelector p waited 5000 env w) as [[ [] | e ] w'];
    [ | reflexivity ].
  destruct (evalFirst_one_element p selector f env w')
    as [e He].
  destruct (evalFirst page_dom p selector _ env w') as [[ a | e' ] w''];
    [ discriminate | reflexivity ].
Qed.

(** X17. [scrapeVideos], [scrapeImages] and [scrapeCast] return the
    empty list on every page. Each hands a function that maps over its
    argument to [$eval], which calls it with the first matching element,
    not with an array; the call throws and the extractor's [catch]
    answers with the empty list. *)
Theorem first_match_extractors_return_nothing (env : Env) (w : World) :
  page w <> None ->
  fst (scrapeVideos page_dom env w) = Ok []
  /\ fst (scrapeImages page_dom env w) = Ok []
  /\ fst (scrapeCast page_dom env w) = Ok [].
Proof.
  intros Hpage.
  unfold scrapeVideos, scrapeImages, scrapeCast, notLoaded, bind at 1 3 5,
    get_page.
  destruct (page w) as [ p | ]; [ | congruence ].
  cbv beta iota.
  repeat split; apply first_match_results_empty.
Qed.

End ExtractorsOfAPage.

Lemma extractors_return_with_a_page_witness :
  page openWorld <> None
  /\ returns Scraper.scrapePoster deadEnv openWorld
  /\ returns (Extractors.scrapeStoryline PageSamples.inceptionPages)
             deadEnv openWorld.
Proof.
  assert (Hpage : page openWorld <> None) by discriminate.
  split; [ exact Hpage | ].
  pose proof (extractors_return_with_a_page PageSamples.inceptionPages
                deadEnv openWorld Hpage) as H.
  split; [ apply H | apply H ].
Defined.

Lemma extractors_refuse_without_a_page_witness :
  page emptyWorld = None
  /\ refuses (Extractors.scrapeCast PageSamples.inceptionPages)
             callScrapeMoviePageFirst calmEnv emptyWorld.
Proof.
  split; [ reflexivity | ].
  apply (extractors_refuse_without_a_page PageSamples.inceptionPages
           calmEnv emptyWorld).
  reflexivity.
Defined.

Lemma first_match_extractors_return_nothing_witness :
  page openWorld <> None
  /\ List.length
       (Dom.querySelectorAll
          (Dom.document PageSamples.inceptionDom)
          ("[data-testid=" ++ Scraper.dq ++ "grid_first_row_video"
           ++ Scraper.dq ++ "] .video-item"))
     = 2
  /\ fst (Extractors.scrapeVideos PageSamples.inceptionPages calmEnv
                                  openWorld)
     = Ok [].
Proof.
  assert (Hpage : page openWorld <> None) by discriminate.
  split; [ exact Hpage | ].
  split; [ reflexivity | ].
  apply (first_match_extractors_return_nothing PageSamples.inceptionPages
           calmEnv openWorld Hpage).
Defined.

(* ================================================================== *)
(** ** The in-page collection of [scrapeVideoSources] *)
(* ================================================================== *)

Section VideoCollection.

Import VideoDom.

Lemma forEachIndexed_In {A B} (f : A -> nat -> list B) (index : nat)
                        (l : list A) (y : B) :
  In y (forEachIndexed f index l) <->
  exists x i, In x l /\ In y (f x i) /\ nth_error l (i - index) = Some x
              /\ index <= i.
Proof.
  revert index. induction l as [ | x r IH ]; intros index; cbn [forEachIndexed].
  - split; [ intros [] | intros (x & i & [] & _) ].
  - rewrite in_app_iff, IH. split.
    + intros [ H | (x' & i & Hin & Hy & Hnth & Hle) ].
      * exists x, index. rewrite Nat.sub_diag. cbn. auto.
      * exists x', i. repeat split; [ right; exact Hin | exact Hy | | lia ].
        replace (i - index) with (S (i - S index)) by lia. exact Hnth.
    + intros (x' & i & Hin & Hy & Hnth & Hle).
      destruct (Nat.eq_dec i index) as [ -> | Hne ].
      * rewrite Nat.sub_diag in Hnth. cbn in Hnth.
        injection Hnth as <-. left. exact Hy.
      * right. exists x', i.
        replace (i - index) with (S (i - S index)) in Hnth by lia.
        cbn in Hnth. repeat split; [ | exact Hy | exact Hnth | lia ].
        exact (nth_error_In _ _ Hnth).
Qed.

Lemma forEachIndexed_covers {A B} (f : A -> nat -> list B) (index : nat)
                            (l : list A) (x : A) :
  In x l -> exists i, incl (f x i) (forEachIndexed f index l).
Proof.
  revert index. induction l as [ | a r IH ]; intros index; [ intros [] | ].
  intros [ -> | Hin ]; cbn [forEachIndexed].
  - exists index. apply incl_appl, incl_refl.
  - destruct (IH (S index) Hin) as [i Hi]. exists i.
    apply incl_appr. exact Hi.
Qed.

(** What the first in-page function pushes: entries with a URL and
    without the player mark. *)
Lemma collectNative_entries (videos : list VideoElement)
                            (e : VideoSource.t) :
  In e (collectNative videos) ->
  truthy (VideoSource.src e) = true
  /\ VideoSource.isIMDbPlayer e = None
  /\ In (VideoSource.src e) (nativeUrls videos).
Proof.
  unfold collectNative. rewrite forEachIndexed_In.
  intros (video & i & Hin & He & _).
  unfold collectVideo in He. rewrite in_app_iff in He.
  unfold nativeUrls. rewrite in_flat_map.
  destruct He as [ He | He ].
  - destruct (truthy (src video)) eqn:Hsrc; [ | destruct He ].
    destruct He as [ <- | [] ]. cbn.
    repeat split; [ exact Hsrc | ].
    exists video. split; [ exact Hin | left; reflexivity ].
  - rewrite forEachIndexed_In in He.
    destruct He as (source & j & Hs & He & _).
    destruct (truthy (source_src source)) eqn:Hsrc; [ | destruct He ].
    destruct He as [ <- | [] ]. cbn.
    repeat split; [ exact Hsrc | ].
    exists video. split; [ exact Hin | right ].
    apply in_map. exact Hs.
Qed.

(** What the second in-page function pushes: entries with a URL and with
    the player mark. *)
Lemma collectImdb_entries (jwVideos imdbVideos : list VideoElement)
                          (e : VideoSource.t) :
  In e (collectImdb jwVideos imdbVideos) ->
  truthy (VideoSource.src e) = true
  /\ VideoSource.isIMDbPlayer e = Some true.
Proof.
  unfold collectImdb. rewrite in_app_iff, !forEachIndexed_In.
  intros [ (video & i & _ & He & _) | (video & i & _ & He & _) ];
    unfold playerEntry in He;
    (destruct (truthy (src video)) eqn:Hsrc; [ | destruct He ]);
    destruct He as [ <- | [] ]; cbn; auto.
Qed.

(** Every non-empty URL that the first function reads is pushed. *)
Lemma collectNative_complete (videos : list VideoElement) (url : string) :
  In url (nativeUrls videos) -> truthy url = true ->
  In url (urls (collectNative videos)).
Proof.
  unfold nativeUrls, urls. rewrite in_flat_map.
  intros (video & Hin & Hurl) Htruthy.
  destruct (forEachIndexed_covers collectVideo 0 videos video Hin)
    as [i Hi].
  assert (Hhere : In url (map VideoSource.src (collectVideo video i))).
  { unfold collectVideo. rewrite map_app, in_app_iff.
    destruct Hurl as [ <- | Hurl ].
    - left. rewrite Htruthy. left. reflexivity.
    - right. apply in_map_iff in Hurl.
      destruct Hurl as (source & <- & Hs).
      match goal with
      | |- In _ (map _ (forEachIndexed ?f 0 _)) =>
          destruct (forEachIndexed_covers f 0 _ source Hs) as [j Hj]
      end.
      cbv beta in Hj. rewrite Htruthy in Hj.
      apply in_map_iff. eexists. split; [ | apply Hj; left; reflexivity ].
      reflexivity. }
  apply in_map_iff in Hhere. destruct Hhere as (e & <- & He).
  apply in_map. apply Hi. exact He.
Qed.

Lemma uniqueSources_In (allSources : list VideoSource.t)
                       (e : VideoSource.t) :
  In e (Scraper.uniqueSources allSources) -> In e allSources.
Proof.
  rewrite uniqueSources_firstOccurrences. intros Hin.
  destruct (firstOccurrences_first [] allSources e Hin)
    as (l1 & l2 & -> & _).
  apply in_elt.
Qed.

(** X18. What [scrapeVideoSources] returns when its wait and its two
    in-page collections succeed, in terms of the video elements that the
    three queries match: every returned source has a non-empty URL, no
    URL is returned twice, every non-empty URL of a video or of one of
    its [source] children is returned, and a URL that the first
    collection found is returned with that collection's entry, which
    does not carry the player mark, even when a player query matches the
    same video. *)
Theorem scrapeVideoSources_of_page
    (env : Env) (w : World) (p : Page)
    (videos jwVideos imdbVideos : list VideoElement) :
  page w = Some p ->
  page_waitForSelector env (tick w) p "video" = Returns tt ->
  page_videos env (S (tick w)) p = Returns (collectNative videos) ->
  page_videos env (S (S (tick w))) p
  = Returns (collectImdb jwVideos imdbVideos) ->
  exists found,
    fst (Scraper.scrapeVideoSources env w) = Ok found
    /\ found = videoSourcesOf videos jwVideos imdbVideos
    /\ (forall e, In e found -> truthy (VideoSource.src e) = true)
    /\ NoDup (urls found)
    /\ (forall url, In url (nativeUrls videos) -> truthy url = true ->
                    In url (urls found))
    /\ (forall e, In e found ->
                  In (VideoSource.src e) (nativeUrls videos) ->
                  VideoSource.isIMDbPlayer e = None).
Proof.
  intros Hpage Hwait Hnative Himdb.
  exists (videoSourcesOf videos jwVideos imdbVideos).
  split; [ exact (scrapeVideoSources_primary env w p _ _ Hpage Hwait
                    Hnative Himdb) | ].
  split; [ reflexivity | ].
  unfold videoSourcesOf, urls.
  split; [ | split; [ | split ] ].
  - intros e He. apply uniqueSources_In in He.
    apply in_app_or in He. destruct He as [ He | He ].
    + apply (collectNative_entries videos e He).
    + apply (collectImdb_entries jwVideos imdbVideos e He).
  - rewrite uniqueSources_firstOccurrences. apply firstOccurrences_NoDup.
  - intros url Hurl Htruthy.
    rewrite uniqueSources_firstOccurrences.
    apply firstOccurrences_complete; [ | intros [] ].
    rewrite map_app, in_app_iff. left.
    exact (collectNative_complete videos url Hurl Htruthy).
  - intros e He Hurl.
    assert (Htruthy : truthy (VideoSource.src e) = true).
    { apply uniqueSources_In in He.
      apply in_app_or in He. destruct He as [ He | He ].
      - apply (collectNative_entries videos e He).
      - apply (collectImdb_entries jwVideos imdbVideos e He). }
    pose proof (collectNative_complete videos _ Hurl Htruthy) as Hnat.
    rewrite uniqueSources_firstOccurrences in He.
    destruct (firstOccurrences_first [] _ e He) as (l1 & l2 & Heq & Hfirst).
    cbn [app] in Hfirst.
    apply app_eq_app in Heq.
    destruct Heq as (l & [ [Hn Hrest] | [Hl1 Hi] ]).
    + destruct l as [ | x l ].
      * exfalso. apply Hfirst. rewrite app_nil_r in Hn.
        rewrite <- Hn. exact Hnat.
      * cbn in Hrest. injection Hrest as <- _.
        apply (collectNative_entries videos e).
        rewrite Hn. apply in_elt.
    + exfalso. apply Hfirst. rewrite Hl1, map_app, in_app_iff.
      left. exact Hnat.
Qed.

End VideoCollection.

Lemma scrapeVideoSources_of_page_witness :
  exists found,
    fst (Scraper.scrapeVideoSources PageSamples.trailerEnv openWorld)
    = Ok found
    /\ map (fun e => (VideoSource.src e, VideoSource.id e,
                      VideoSource.isIMDbPlayer e)) found
       = [ ("https://v.media-amazon.com/trailer.mp4", "video-0", None);
           ("https://v.media-amazon.com/trailer.webm", "video-0-source-0",
            None) ].
Proof.
  destruct (scrapeVideoSources_of_page
              PageSamples.trailerEnv openWorld (PageHandle 0)
              [ PageSamples.trailer ] [ PageSamples.trailer ]
              [ PageSamples.trailer ]
              eq_refl eq_refl eq_refl eq_refl)
    as (found & Hrun & Hfound & _).
  exists found. split; [ exact Hrun | ].
  rewrite Hfound. vm_compute. reflexivity.
Defined.

(* ================================================================== *)
(** ** The trending list, from the elements of the page *)
(* ================================================================== *)

Lemma filter_map_commute {A B} (f : A -> B) (p : B -> bool) (l : list A) :
  filter p (map f l) = map f (filter (fun x => p (f x)) l).
Proof.
  induction l as [ | x r IH ]; [ reflexivity | ].
  cbn. destruct (p (f x)); cbn; rewrite IH; reflexivity.
Qed.

Lemma trendingItem_title_trimmed (element : Dom.Element) :
  trim (Movie.title (InPage.trendingItem element))
  = Movie.title (InPage.trendingItem element).
Proof.
  cbn [InPage.trendingItem Movie.title].
  destruct (Dom.querySelector element ".ipc-title__text") as [ el | ];
    cbn [Dom.trimmedText]; [ apply trim_idempotent | reflexivity ].
Qed.

(** X19. [scrapeTrending] in terms of the page: when the session starts,
    the list is found and [$$eval] yields the in-page function's value on
    the list items, the result is that function's value on exactly the
    items with a title text that is not blank and a link to a title, in
    page order; every returned title is trimmed and every returned
    identifier is the one that the item's link holds. *)
Theorem scrapeTrending_of_page
    (link : string) (env : Env) (w w1 : World) (p : Page)
    (items : list Dom.Element) :
  Scraper.startWithRetry link 3 env w = (Ok tt, w1) ->
  page w1 = Some p ->
  page_waitForSelector env (tick w1) p trendingSelector = Returns tt ->
  page_trending env (S (tick w1)) p
  = Returns (map InPage.trendingItem items) ->
  exists kept,
    fst (Scraper.scrapeTrending link env w)
    = Ok (map InPage.trendingItem kept)
    /\ Subsequence kept items
    /\ (forall element,
          In element kept <->
          In element items /\ hasTitleText element /\ hasTitleLink element)
    /\ (forall element,
          In element kept ->
          let movie := InPage.trendingItem element in
          trim (Movie.title movie) = Movie.title movie
          /\ exists pre,
               titleIdAt (Movie.movieUrl movie) pre (Movie.imdbId movie)).
Proof.
  intros Hstart Hpage Hwait Heval.
  exists (filter (fun element =>
                    Scraper.validMovie (InPage.trendingItem element))
                 items).
  split; [ | split; [ | split ] ].
  - rewrite scrapeTrending_run, Hstart, Hpage, Hwait, Heval.
    rewrite filter_map_commute. reflexivity.
  - apply filter_Subsequence.
  - intros element.
    rewrite filter_In, validMovie_spec, (trendingItem_title_iff element),
      (trendingItem_id_iff element).
    tauto.
  - intros element Hin. cbv zeta.
    split; [ apply trendingItem_title_trimmed | ].
    apply filter_In in Hin. destruct Hin as [_ Hvalid].
    apply validMovie_spec in Hvalid. destruct Hvalid as [_ Htt].
    cbn [InPage.trendingItem Movie.imdbId Movie.movieUrl] in *.
    destruct (matched_id_shape
                (Dom.attribute
                   (Dom.querySelector element ".ipc-title-link-wrapper")
                   "href")) as [ Hempty | Hshape ];
      [ rewrite Hempty in Htt; discriminate | exact Hshape ].
Qed.

Lemma scrapeTrending_of_page_witness :
  exists kept,
    fst (Scraper.scrapeTrending trendingUrl ChartSamples.chartEnv emptyWorld)
    = Ok (map InPage.trendingItem kept)
    /\ map (fun movie => (Movie.imdbId movie, Movie.title movie,
                          Movie.ranking movie))
           (map InPage.trendingItem kept)
       = [ ("tt0068646", "2. The Godfather", "2") ].
Proof.
  assert (H1 : Scraper.startWithRetry trendingUrl 3 ChartSamples.chartEnv
                                      emptyWorld
               = (Ok tt, snd (Scraper.startWithRetry
                                trendingUrl 3 ChartSamples.chartEnv
                                emptyWorld)))
    by reflexivity.
  destruct (scrapeTrending_of_page
              trendingUrl ChartSamples.chartEnv emptyWorld _ (PageHandle 1)
              ChartSamples.chartItems H1 eq_refl eq_refl eq_refl)
    as (kept & Hrun & _).
  exists kept. split; [ exact Hrun | ].
  assert (Hvalue : fst (Scraper.scrapeTrending
                          trendingUrl ChartSamples.chartEnv emptyWorld)
                   = Ok [ InPage.trendingItem PageSamples.godfatherItem ])
    by reflexivity.
  rewrite Hrun in Hvalue. injection Hvalue as ->. reflexivity.
Defined.

(* ================================================================== *)
(** ** The ranking of a trending item *)
(* ================================================================== *)

Lemma isDigit_not_ws (c : ascii) : JsText.isDigit c = true -> is_ws c = false.
Proof.
  unfold JsText.isDigit, is_ws. cbv zeta. intros H.
  apply andb_prop in H. destruct H as [Hlo Hhi].
  apply Nat.leb_le in Hlo. apply Nat.leb_le in Hhi.
  assert (H13 : (nat_of_ascii c <=? 13)%nat = false)
    by (apply Nat.leb_gt; lia).
  assert (H32 : (nat_of_ascii c =? 32)%nat = false)
    by (apply Nat.eqb_neq; lia).
  assert (H160 : (nat_of_ascii c =? 160)%nat = false)
    by (apply Nat.eqb_neq; lia).
  rewrite H13, H32, H160, andb_false_r. reflexivity.
Qed.

Lemma trimEnd_keeps_digits (digits rest : string) :
  allDigits digits = true ->
  trimEnd (digits ++ rest) = (digits ++ trimEnd rest)%string.
Proof.
  induction digits as [ | c ds IH ]; [ reflexivity | ].
  cbn [allDigits append]. intros H.
  apply andb_prop in H. destruct H as [Hc Hds].
  rewrite trimEnd_cons, (IH Hds), (isDigit_not_ws c Hc).
  destruct (ds ++ trimEnd rest)%string; reflexivity.
Qed.

Lemma trimEnd_no_new_digit (s : string) :
  startsWithDigit s = false -> startsWithDigit (trimEnd s) = false.
Proof.
  destruct s as [ | c r ]; [ reflexivity | ].
  intros H. destruct (trimEnd_head c r) as [ -> | (t & ->) ];
    [ reflexivity | exact H ].
Qed.

(** X20. The ranking of a trending item is read from the text of the
    title element before it is trimmed: it is empty, or it is the digits
    that the text starts with, and then the title of the item starts with
    the ranking and goes on with something that is not a digit. *)
Theorem trending_ranking_leads_title (element : Dom.Element) :
  let movie := InPage.trendingItem element in
  Movie.ranking movie = ""
  \/ (allDigits (Movie.ranking movie) = true
      /\ exists rest,
           Movie.title movie = (Movie.ranking movie ++ rest)%string
           /\ startsWithDigit rest = false).
Proof.
  cbv zeta. cbn [InPage.trendingItem Movie.ranking Movie.title].
  destruct (Dom.querySelector element ".ipc-title__text") as [ el | ];
    [ | left; reflexivity ].
  unfold JsText.matchLeadingDigits, Dom.trimmedText.
  destruct (takeDigits_split (Dom.textContent el))
    as (rest & Htext & Hdigits & Hrest).
  destruct (JsText.takeDigits (Dom.textContent el)) as [ | d ds ] eqn:Hds;
    [ left; reflexivity | right ].
  split; [ exact Hdigits | ].
  exists (trimEnd rest). split; [ | exact (trimEnd_no_new_digit rest Hrest) ].
  rewrite Htext. unfold trim.
  assert (Hd : is_ws d = false).
  { apply isDigit_not_ws. cbn [allDigits] in Hdigits.
    apply andb_prop in Hdigits. tauto. }
  cbn [append trimStart]. rewrite Hd.
  exact (trimEnd_keeps_digits (String d ds) rest Hdigits).
Qed.

Example trending_ranking_needs_leading_digit :
  let spaced := PageSamples.element ""
                  []
                  [ (".ipc-title__text",
                     [ PageSamples.element " 2. The Godfather" [] [] ]) ] in
  Movie.title (InPage.trendingItem spaced) = "2. The Godfather"
  /\ Movie.ranking (InPage.trendingItem spaced) = "".
Proof. split; reflexivity. Qed.
